(** * x402chatly: the payment gate and the provider adapters

    A shallow embedding of [src/lib/x402.ts] (the payment-required gate),
    [src/lib/ai-providers.ts] (message conversion, request bodies, SSE
    parsing) and [src/app/api/chat/route.ts] (request validation), followed
    by the properties of the specification that concern them.

    Representation.  A JavaScript string is a [string]: a sequence of code
    units below 256.  The two strings of a facilitator's answer that reach
    [btoa], the transaction and the amount, are kept in their code units
    ([Js.wstring]), which may exceed 255.  JavaScript numbers that the code
    only compares and passes around are rationals [Q]; where a number may
    be NaN it is a [Js.number], and a member of a request body that is
    used as a number is its [ToNumber] value ([Route.Coerced]).
    [undefined] is [None].  An exception is a value [Throw msg] of the
    [Result] type. *)

From Stdlib Require Import ZArith NArith QArith Bool List Ascii String Lia.
From Stdlib Require Import DecimalString Qminmax.
From stdpp Require Import base option list strings gmap.

Set Warnings "-register-all".
Open Scope string_scope.

(** String append computes on a constructor, as list append does. *)
#[global] Arguments String.append !s1 s2 : simpl nomatch.

(** ** JavaScript string primitives *)

Module Js.

Definition code (c : ascii) : N := N_of_ascii c.

Definition inRange (lo hi : N) (c : ascii) : bool :=
  ((lo <=? code c) && (code c <=? hi))%N.

(** [\d] *)
Definition isDigit (c : ascii) : bool := inRange 48 57 c.
Definition isUpper (c : ascii) : bool := inRange 65 90 c.
Definition isLower (c : ascii) : bool := inRange 97 122 c.
Definition isAlnum (c : ascii) : bool := isDigit c || isUpper c || isLower c.

(** [\w] is [[A-Za-z0-9_]]. *)
Definition isWord (c : ascii) : bool := isAlnum c || (code c =? 95)%N.

(** Line terminators, the characters [.] does not match: LF and CR. *)
Definition isLineTerminator (c : ascii) : bool :=
  ((code c =? 10) || (code c =? 13))%N.

(** [\s], also the set removed by [trim]: TAB, LF, VT, FF, CR, space and
    the no-break space. *)
Definition isSpace (c : ascii) : bool :=
  inRange 9 13 c || ((code c =? 32) || (code c =? 160))%N.

Definition toLowerChar (c : ascii) : ascii :=
  if isUpper c then ascii_of_N (code c + 32) else c.

Fixpoint toLowerCase (s : string) : string :=
  match s with
  | EmptyString => EmptyString
  | String c s' => String (toLowerChar c) (toLowerCase s')
  end.

Fixpoint all (p : ascii -> bool) (s : string) : bool :=
  match s with
  | EmptyString => true
  | String c s' => p c && all p s'
  end.

Definition isEmpty (s : string) : bool :=
  match s with EmptyString => true | String _ _ => false end.

(** Truthiness of a string: every string but the empty one. *)
Definition truthy (s : string) : bool := negb (isEmpty s).

(** [a || b] on strings. *)
Definition orElse (a b : string) : string := if truthy a then a else b.

(** [s.startsWith(p)] together with the remainder [s.slice(p.length)]. *)
Fixpoint stripPrefix (p s : string) : option string :=
  match p, s with
  | EmptyString, _ => Some s
  | String a p', String b s' =>
      if Ascii.eqb a b then stripPrefix p' s' else None
  | String _ _, EmptyString => None
  end.

(** The same, ignoring ASCII case (a literal under the [i] flag). *)
Fixpoint stripPrefixCI (p s : string) : option string :=
  match p, s with
  | EmptyString, _ => Some s
  | String a p', String b s' =>
      if Ascii.eqb (toLowerChar a) (toLowerChar b)
      then stripPrefixCI p' s' else None
  | String _ _, EmptyString => None
  end.

(** The longest prefix of characters in the class [p], and the rest: what
    a greedy [[class]*] consumes. *)
Fixpoint span (p : ascii -> bool) (s : string) : string * string :=
  match s with
  | EmptyString => (EmptyString, EmptyString)
  | String c s' =>
      if p c then let '(a, b) := span p s' in (String c a, b)
      else (EmptyString, s)
  end.

Fixpoint trimStart (s : string) : string :=
  match s with
  | EmptyString => EmptyString
  | String c s' => if isSpace c then trimStart s' else s
  end.

(** [trimEnd] keeps a character when it is not white space or when
    something other than white space follows it. *)
Fixpoint trimEnd (s : string) : string :=
  match s with
  | EmptyString => EmptyString
  | String c s' =>
      let t := trimEnd s' in
      if isSpace c && isEmpty t then EmptyString else String c t
  end.

Definition trim (s : string) : string := trimEnd (trimStart s).

(** [s.split(sep)] for a one-character separator: never the empty list. *)
Fixpoint split (sep : ascii) (s : string) : list string :=
  match s with
  | EmptyString => [EmptyString]
  | String c s' =>
      if Ascii.eqb c sep then EmptyString :: split sep s'
      else match split sep s' with
           | [] => [String c EmptyString]
           | l :: ls => String c l :: ls
           end
  end.

(** [parts.join(sep)] *)
Fixpoint join (sep : string) (parts : list string) : string :=
  match parts with
  | [] => EmptyString
  | [p] => p
  | p :: ps => p ++ sep ++ join sep ps
  end.

Definition LF : ascii := ascii_of_N 10.
Definition newline : string := String LF EmptyString.

(** *** JSON.stringify and btoa *)

Inductive json :=
| JNull
| JBool (b : bool)
| JNum (n : Z)
| JStr (s : string)
| JArr (items : list json)
| JObj (members : list (string * json)).

Definition dquote : string := String (ascii_of_N 34) "".
Definition backslash : ascii := ascii_of_N 92.

Definition hexDigit (n : N) : ascii :=
  ascii_of_N (if (n <? 10)%N then 48 + n else 87 + n).

(** One character of a quoted JSON string. *)
Definition escapeChar (c : ascii) : string :=
  let n := code c in
  if (n =? 34)%N then String backslash dquote else
  if (n =? 92)%N then "\\" else
  if (n =? 8)%N then "\b" else
  if (n =? 12)%N then "\f" else
  if (n =? 10)%N then "\n" else
  if (n =? 13)%N then "\r" else
  if (n =? 9)%N then "\t" else
  if (n <? 32)%N
  then "\u00" ++ String (hexDigit (n / 16)) (String (hexDigit (n mod 16)) "")
  else String c "".

Fixpoint escape (s : string) : string :=
  match s with
  | EmptyString => EmptyString
  | String c s' => escapeChar c ++ escape s'
  end.

Definition quote (s : string) : string := dquote ++ escape s ++ dquote.

Definition showZ (n : Z) : string :=
  NilZero.string_of_int (Z.to_int n).

Fixpoint stringify (j : json) : string :=
  match j with
  | JNull => "null"
  | JBool true => "true"
  | JBool false => "false"
  | JNum n => showZ n
  | JStr s => quote s
  | JArr items =>
      "[" ++ (fix elems (l : list json) : string :=
                match l with
                | [] => ""
                | x :: r =>
                    match r with
                    | [] => stringify x
                    | _ :: _ => stringify x ++ "," ++ elems r
                    end
                end) items ++ "]"
  | JObj members =>
      "{" ++ (fix fields (l : list (string * json)) : string :=
                match l with
                | [] => ""
                | (k, v) :: r =>
                    match r with
                    | [] => quote k ++ ":" ++ stringify v
                    | _ :: _ => quote k ++ ":" ++ stringify v ++ "," ++ fields r
                    end
                end) members ++ "}"
  end.

Definition base64Alphabet : string :=
  "ABCDEFGHIJKLMNOPQRSTUVWXYZabcdefghijklmnopqrstuvwxyz0123456789+/".

Definition base64Digit (n : N) : ascii :=
  match String.get (N.to_nat n) base64Alphabet with
  | Some c => c
  | None => "="%char
  end.

Fixpoint codes (s : string) : list N :=
  match s with
  | EmptyString => []
  | String c s' => code c :: codes s'
  end.

Fixpoint base64 (bytes : list N) : string :=
  match bytes with
  | [] => ""
  | [a] =>
      String (base64Digit (a / 4))
        (String (base64Digit ((a mod 4) * 16)) "==")
  | [a; b] =>
      String (base64Digit (a / 4))
        (String (base64Digit ((a mod 4) * 16 + b / 16))
           (String (base64Digit ((b mod 16) * 4)) "="))
  | a :: b :: c :: rest =>
      String (base64Digit (a / 4))
        (String (base64Digit ((a mod 4) * 16 + b / 16))
           (String (base64Digit ((b mod 16) * 4 + c / 64))
              (String (base64Digit (c mod 64)) (base64 rest))))
  end%N.

(** *** Strings in code units *)

(** A JavaScript string in its code units, each below 65536. *)
Definition wstring : Type := list N.

(** The strings [btoa] accepts: every code unit is below 256. *)
Definition narrow (u : wstring) : bool :=
  forallb (fun n => (n <? 256)%N) u.

Definition truthyUnits (u : wstring) : bool :=
  match u with [] => false | _ :: _ => true end.

(** [a || b] on strings in code units. *)
Definition orElseUnits (a b : wstring) : wstring :=
  if truthyUnits a then a else b.

Definition isLeadSurrogate (n : N) : bool :=
  ((55296 <=? n) && (n <=? 56319))%N.

Definition isTrailSurrogate (n : N) : bool :=
  ((56320 <=? n) && (n <=? 57343))%N.

(** The escape of one code unit, in lower-case digits. *)
Definition unicodeEscape (n : N) : wstring :=
  codes ("\u"
         ++ String (hexDigit (n / 4096))
              (String (hexDigit ((n / 256) mod 16))
                 (String (hexDigit ((n / 16) mod 16))
                    (String (hexDigit (n mod 16)) "")))).

(** The inside of a quoted JSON string: a code unit below 256 as
    [escapeChar] has it; a surrogate without its partner escaped; a
    surrogate pair and every other code unit kept. *)
Fixpoint escapeUnits (u : wstring) : wstring :=
  match u with
  | [] => []
  | a :: rest =>
      if isLeadSurrogate a then
        match rest with
        | b :: rest' =>
            if isTrailSurrogate b then a :: b :: escapeUnits rest'
            else (unicodeEscape a ++ escapeUnits rest)%list
        | [] => unicodeEscape a
        end
      else if isTrailSurrogate a
      then (unicodeEscape a ++ escapeUnits rest)%list
      else if (a <? 256)%N
      then (codes (escapeChar (ascii_of_N a)) ++ escapeUnits rest)%list
      else a :: escapeUnits rest
  end.

Definition quoteUnits (u : wstring) : wstring :=
  (codes dquote ++ escapeUnits u ++ codes dquote)%list.

(** The JSON values of a receipt, their strings in code units, and
    [JSON.stringify] of them. *)
Inductive wjson :=
| WBool (b : bool)
| WStr (s : wstring)
| WObj (members : list (string * wjson)).

Fixpoint stringifyUnits (j : wjson) : wstring :=
  match j with
  | WBool true => codes "true"
  | WBool false => codes "false"
  | WStr s => quoteUnits s
  | WObj members =>
      (codes "{"
       ++ (fix fields (l : list (string * wjson)) : wstring :=
             match l with
             | [] => []
             | (k, v) :: r =>
                 match r with
                 | [] => codes (quote k) ++ codes ":" ++ stringifyUnits v
                 | _ :: _ =>
                     codes (quote k) ++ codes ":" ++ stringifyUnits v
                       ++ codes "," ++ fields r
                 end
             end) members
       ++ codes "}")%list
  end.

(** [btoa]: [None] where it throws [InvalidCharacterError], on a code unit
    above 255. *)
Definition btoa (u : wstring) : option string :=
  if narrow u then Some (base64 u) else None.

(** *** Numbers that may be NaN *)

Inductive number :=
| Finite (q : Q)
| NaN.

(** *** atob *)

(** ASCII white space, which [atob] strips first: TAB, LF, FF, CR and the
    space. *)
Definition isAsciiWhitespace (c : ascii) : bool :=
  let n := code c in
  ((n =? 9) || (n =? 10) || (n =? 12) || (n =? 13) || (n =? 32))%N.

Fixpoint without (p : ascii -> bool) (s : string) : string :=
  match s with
  | EmptyString => EmptyString
  | String c s' => if p c then without p s' else String c (without p s')
  end.

(** The six bits a character of the alphabet stands for. *)
Definition base64Value (c : ascii) : option N :=
  if isUpper c then Some (code c - 65)%N
  else if isLower c then Some (code c - 71)%N
  else if isDigit c then Some (code c + 4)%N
  else if (code c =? 43)%N then Some 62%N
  else if (code c =? 47)%N then Some 63%N
  else None.

(** Removes one [=] from the end, if there is one. *)
Fixpoint dropPad (s : string) : string :=
  match s with
  | EmptyString => EmptyString
  | String c s' =>
      match s' with
      | EmptyString => if Ascii.eqb c "=" then EmptyString else s
      | String _ _ => String c (dropPad s')
      end
  end.

(** A length that is a multiple of four may end with one or two [=]. *)
Definition removePadding (s : string) : string :=
  if (String.length s mod 4 =? 0)%nat then dropPad (dropPad s) else s.

(** Four characters give three bytes; two or three characters at the end
    give one or two, and the bits left over are dropped; one character at
    the end, or a character outside the alphabet, is an error. *)
Fixpoint decodeGroups (s : string) : option (list N) :=
  match s with
  | EmptyString => Some []
  | String a EmptyString => None
  | String a (String b EmptyString) =>
      match base64Value a, base64Value b with
      | Some va, Some vb => Some [va * 4 + vb / 16]%N
      | _, _ => None
      end
  | String a (String b (String c EmptyString)) =>
      match base64Value a, base64Value b, base64Value c with
      | Some va, Some vb, Some vc =>
          Some [va * 4 + vb / 16; (vb mod 16) * 16 + vc / 4]%N
      | _, _, _ => None
      end
  | String a (String b (String c (String d rest))) =>
      match base64Value a, base64Value b, base64Value c, base64Value d,
            decodeGroups rest with
      | Some va, Some vb, Some vc, Some vd, Some bytes =>
          Some ((va * 4 + vb / 16) :: ((vb mod 16) * 16 + vc / 4)
                  :: ((vc mod 4) * 64 + vd) :: bytes)%N
      | _, _, _, _, _ => None
      end
  end.

Fixpoint fromCodes (bytes : list N) : string :=
  match bytes with
  | [] => EmptyString
  | n :: rest => String (ascii_of_N n) (fromCodes rest)
  end.

(** [atob]: the decoded text, or [None] where it throws
    [InvalidCharacterError]. *)
Definition atob (s : string) : option string :=
  option_map fromCodes
    (decodeGroups (removePadding (without isAsciiWhitespace s))).

End Js.

(** A rational is a JavaScript number. *)
Coercion Js.Finite : Q >-> Js.number.

(** ** Exceptions *)

Inductive Result (A : Type) : Type :=
| Ok (a : A)
| Throw (msg : string).
Arguments Ok {A} a.
Arguments Throw {A} msg.

(** ** ai-providers.ts *)

Module Providers.

Inductive AIModel := deepseek | gpt5 | claude_sonnet_4_5.

Inductive Detail := low | high | auto.

(** [TextContent | ImageContent] *)
Inductive ContentPart :=
| TextContent (text : string)
| ImageContent (url : string) (detail : option Detail).

(** [MessageContent = string | Array<TextContent | ImageContent>] *)
Inductive MessageContent :=
| Plain (text : string)
| Parts (items : list ContentPart).

Inductive Role := user | assistant | system.

Record ChatMessage := { role : Role; content : MessageContent }.

Record StreamChunk := { text : string; isComplete : bool }.

(** *** toAnthropicMessage *)

Inductive ImageSource :=
| Base64Source (media_type data : string)
| UrlSource (url : string).

Inductive AnthropicBlock :=
| TextBlock (text : string)
| ImageBlock (source : ImageSource).

Inductive AnthropicContent :=
| AText (text : string)
| ABlocks (blocks : list AnthropicBlock).

Record AnthropicMessage := { a_role : Role; a_content : AnthropicContent }.

(** [url.match(/^data:(image\/\w+);base64,(.+)$/)]: the two groups. *)
Definition matchImageDataUrl (url : string) : option (string * string) :=
  match Js.stripPrefix "data:image/" url with
  | None => None
  | Some rest =>
      let '(subtype, rest') := Js.span Js.isWord rest in
      if Js.isEmpty subtype then None
      else match Js.stripPrefix ";base64," rest' with
           | None => None
           | Some data =>
               if Js.truthy data
                  && Js.all (fun c => negb (Js.isLineTerminator c)) data
               then Some ("image/" ++ subtype, data)
               else None
           end
  end.

Definition toAnthropicBlock (item : ContentPart) : AnthropicBlock :=
  match item with
  | TextContent t => TextBlock t
  | ImageContent url _ =>
      match Js.stripPrefix "data:" url with
      | Some _ =>
          match matchImageDataUrl url with
          | Some (mt, data) => ImageBlock (Base64Source mt data)
          | None => ImageBlock (UrlSource url)
          end
      | None => ImageBlock (UrlSource url)
      end
  end.

Definition toAnthropicMessage (msg : ChatMessage) : AnthropicMessage :=
  match content msg with
  | Plain s => {| a_role := role msg; a_content := AText s |}
  | Parts items =>
      {| a_role := role msg;
         a_content := ABlocks (map toAnthropicBlock items) |}
  end.

(** *** toTextOnlyMessage *)

Record TextMessage := { t_role : Role; t_content : string }.

(** The fallback literal of [toTextOnlyMessage], in the UTF-8 bytes of the
    source file. *)
Definition IMAGES_UNSUPPORTED : string :=
  "[Изображения не поддерживаются Deepseek]".

Definition isTextPart (item : ContentPart) : bool :=
  match item with TextContent _ => true | ImageContent _ _ => false end.

Definition partText (item : ContentPart) : string :=
  match item with TextContent t => t | ImageContent _ _ => "" end.

Definition textParts (items : list ContentPart) : list string :=
  map partText (filter (fun i => isTextPart i = true) items).

Definition toTextOnlyMessage (msg : ChatMessage) : TextMessage :=
  match content msg with
  | Plain s => {| t_role := role msg; t_content := s |}
  | Parts items =>
      {| t_role := role msg;
         t_content :=
           Js.orElse (Js.join Js.newline (textParts items))
                     IMAGES_UNSUPPORTED |}
  end.

(** *** Provider configuration and request bodies *)

Record AIProviderConfig := {
  model : AIModel;
  messages : list ChatMessage;
  temperature : option Js.number;
  maxTokens : option Js.number;
  systemPrompt : option string;
}.

Definition AI_MODEL_PRICING (m : AIModel) : Q :=
  match m with
  | deepseek => 3 # 100
  | gpt5 => 10 # 100
  | claude_sonnet_4_5 => 20 # 100
  end.

(** [x || d] on an optional number: [d] replaces [undefined], [0] and
    NaN. *)
Definition orNumber (x : option Js.number) (d : Q) : Q :=
  match x with
  | Some (Js.Finite q) => if Qeq_bool q 0 then d else q
  | Some Js.NaN => d
  | None => d
  end.

(** The object a text or JSON-multimodal adapter serialises as the body of
    [POST /chat/completions]. *)
Record CompletionRequest (M : Type) := {
  cr_model : string;
  cr_messages : list M;
  cr_stream : bool;
  cr_temperature : Q;
  cr_max_tokens : Q;
}.
Arguments cr_model {M}.
Arguments cr_messages {M}.
Arguments cr_stream {M}.
Arguments cr_temperature {M}.
Arguments cr_max_tokens {M}.

Definition toOpenAIMessage (msg : ChatMessage) : ChatMessage :=
  {| role := role msg; content := content msg |}.

Definition DeepseekProvider_request (stream : bool) (config : AIProviderConfig)
  : CompletionRequest TextMessage :=
  {| cr_model := "deepseek-chat";
     cr_messages := map toTextOnlyMessage (messages config);
     cr_stream := stream;
     cr_temperature := orNumber (temperature config) (7 # 10);
     cr_max_tokens := orNumber (maxTokens config) 2000 |}.

Definition GPT5Provider_request (stream : bool) (config : AIProviderConfig)
  : CompletionRequest ChatMessage :=
  {| cr_model := "gpt-4o";
     cr_messages := map toOpenAIMessage (messages config);
     cr_stream := stream;
     cr_temperature := orNumber (temperature config) (7 # 10);
     cr_max_tokens := orNumber (maxTokens config) 2000 |}.

(** The parameters of [client.messages.create]. *)
Record ClaudeRequest := {
  cl_model : string;
  cl_max_tokens : Q;
  cl_temperature : Q;
  cl_system : option string;
  cl_messages : list AnthropicMessage;
}.

Definition isSystem (m : ChatMessage) : bool :=
  match role m with system => true | _ => false end.

Definition claudeSystemPrompt (config : AIProviderConfig) : option string :=
  match systemPrompt config with
  | Some s =>
      if Js.truthy s then Some s
      else match find isSystem (messages config) with
           | Some {| content := Plain t |} => Some t
           | _ => None
           end
  | None =>
      match find isSystem (messages config) with
      | Some {| content := Plain t |} => Some t
      | _ => None
      end
  end.

Definition ClaudeProvider_request (config : AIProviderConfig) : ClaudeRequest :=
  {| cl_model := "claude-sonnet-4-5";
     cl_max_tokens := orNumber (maxTokens config) 4096;
     cl_temperature := orNumber (temperature config) (7 # 10);
     cl_system := claudeSystemPrompt config;
     cl_messages :=
       map toAnthropicMessage
           (filter (fun m => isSystem m = false) (messages config)) |}.

(** *** chat *)

Record Usage := {
  prompt_tokens : option Q;
  completion_tokens : option Q;
  total_tokens : option Q;
}.

Record AIResponse := {
  r_content : string;
  r_model : AIModel;
  promptTokens : option Q;
  completionTokens : option Q;
  totalTokens : option Q;
  cost : Q;
}.

(** A completed [fetch]: [data.choices?.[0]?.message?.content] and
    [data.usage] of the JSON body. *)
Record CompletionData := {
  message_content : option string;
  usage : option Usage;
}.

(** A [fetch]: rejected, or a response with [ok], [status], [statusText],
    the text of an error body, and the body proper. *)
Inductive Upstream (B : Type) :=
| UpstreamError (msg : string)
| UpstreamResponse (ok : bool) (status : Z) (statusText errorBody : string)
                   (body : B).
Arguments UpstreamError {B} msg.
Arguments UpstreamResponse {B} ok status statusText errorBody body.

(** The two messages in which the fetch-based adapters differ. *)
Record AdapterErrors := {
  missingKey : string;
  apiError : Z -> string -> string -> string;
}.

Definition deepseekErrors : AdapterErrors :=
  {| missingKey := "Deepseek API key is not configured. Please set DEEPSEEK_API_KEY environment variable.";
     apiError := fun _ statusText _ => "Deepseek API error: " ++ statusText |}.

Definition gpt5Errors : AdapterErrors :=
  {| missingKey := "OpenAI API key is not configured. Please set OPENAI_API_KEY environment variable.";
     apiError := fun status _ errorBody =>
       "OpenAI API error (" ++ Js.showZ status ++ "): " ++ errorBody |}.

Definition completionResponse (m : AIModel) (data : CompletionData)
  : AIResponse :=
  {| r_content := default "" (message_content data);
     r_model := m;
     promptTokens := usage data ≫= prompt_tokens;
     completionTokens := usage data ≫= completion_tokens;
     totalTokens := usage data ≫= total_tokens;
     cost := AI_MODEL_PRICING m |}.

Definition DeepseekProvider_chat
  (apiKey : string)
  (post : CompletionRequest TextMessage -> Upstream (Result CompletionData))
  (config : AIProviderConfig) : Result AIResponse :=
  if negb (Js.truthy apiKey) then Throw (missingKey deepseekErrors)
  else match post (DeepseekProvider_request false config) with
       | UpstreamError msg => Throw msg
       | UpstreamResponse ok status statusText errorBody data =>
           if negb ok
           then Throw (apiError deepseekErrors status statusText errorBody)
           else match data with
                | Throw msg => Throw msg
                | Ok data => Ok (completionResponse deepseek data)
                end
       end.

Definition GPT5Provider_chat
  (apiKey : string)
  (post : CompletionRequest ChatMessage -> Upstream (Result CompletionData))
  (config : AIProviderConfig) : Result AIResponse :=
  if negb (Js.truthy apiKey) then Throw (missingKey gpt5Errors)
  else match post (GPT5Provider_request false config) with
       | UpstreamError msg => Throw msg
       | UpstreamResponse ok status statusText errorBody data =>
           if negb ok
           then Throw (apiError gpt5Errors status statusText errorBody)
           else match data with
                | Throw msg => Throw msg
                | Ok data => Ok (completionResponse gpt5 data)
                end
       end.

(** What [client.messages.create] resolves to: the text of the text
    blocks, in order, and the token counts. *)
Record ClaudeData := {
  text_blocks : list string;
  input_tokens : Q;
  output_tokens : Q;
}.

Definition ClaudeProvider_chat
  (apiKey : string) (create : ClaudeRequest -> Result ClaudeData)
  (config : AIProviderConfig) : Result AIResponse :=
  let request := ClaudeProvider_request config in
  if negb (Js.truthy apiKey)
  then Throw "Anthropic API key is not configured. Please set ANTHROPIC_API_KEY environment variable."
  else match create request with
       | Throw msg => Throw msg
       | Ok response =>
           Ok {| r_content := Js.join "" (text_blocks response);
                 r_model := claude_sonnet_4_5;
                 promptTokens := Some (input_tokens response);
                 completionTokens := Some (output_tokens response);
                 totalTokens :=
                   Some (input_tokens response + output_tokens response)%Q;
                 cost := AI_MODEL_PRICING claude_sonnet_4_5 |}
       end.

(** *** AIProvider.chat *)

(** The three lazily built adapters: their keys and what is behind them. *)
Record Backends := {
  deepseekKey : string;
  deepseekPost :
    CompletionRequest TextMessage -> Upstream (Result CompletionData);
  openaiKey : string;
  openaiPost :
    CompletionRequest ChatMessage -> Upstream (Result CompletionData);
  anthropicKey : string;
  anthropicCreate : ClaudeRequest -> Result ClaudeData;
}.

Definition AIProvider_chat (b : Backends) (config : AIProviderConfig)
  : Result AIResponse :=
  match model config with
  | deepseek => DeepseekProvider_chat (deepseekKey b) (deepseekPost b) config
  | gpt5 => GPT5Provider_chat (openaiKey b) (openaiPost b) config
  | claude_sonnet_4_5 =>
      ClaudeProvider_chat (anthropicKey b) (anthropicCreate b) config
  end.

(** *** streamChat of the two fetch-based adapters *)

(** [JSON.parse(data)] followed by [parsed.choices?.[0]?.delta?.content]:
    [Malformed] when either throws. *)
Inductive ParsedEvent :=
| Malformed
| Delta (content : option string).

Definition terminator : StreamChunk := {| text := ""; isComplete := true |}.

Section Streaming.

Variable parseEvent : string -> ParsedEvent.

(** The [for (const line of lines)] loop: the chunks it yields, and
    whether it returned from the generator. *)
Fixpoint processLines (lines : list string) : list StreamChunk * bool :=
  match lines with
  | [] => ([], false)
  | line :: rest =>
      match Js.stripPrefix "data: " line with
      | Some payload =>
          let data := Js.trim payload in
          if String.eqb data "[DONE]" then ([terminator], true)
          else match parseEvent data with
               | Delta (Some delta) =>
                   if Js.truthy delta then
                     let '(chunks, returned) := processLines rest in
                     ({| text := delta; isComplete := false |} :: chunks,
                      returned)
                   else processLines rest
               | Delta None => processLines rest
               | Malformed => processLines rest
               end
      | None => processLines rest
      end
  end.

(** The [while (true)] loop over the decoded reads of the body. *)
Fixpoint readLoop (buffer : string) (reads : list string)
  : list StreamChunk :=
  match reads with
  | [] => [terminator]
  | value :: rest =>
      let buffer := buffer ++ value in
      let lines := Js.split Js.LF buffer in
      let buffer' := Js.orElse (List.last lines "") "" in
      let '(chunks, returned) := processLines (removelast lines) in
      if returned then chunks else (chunks ++ readLoop buffer' rest)%list
  end.

(** The generator, drained: the chunks it yields and the error it ends
    with, if any.  [reads] is the body as the reader delivers it. *)
Definition streamChat
  (errors : AdapterErrors) (apiKey : string)
  (upstream : Upstream (option (list string)))
  : list StreamChunk * option string :=
  if negb (Js.truthy apiKey) then ([], Some (missingKey errors))
  else match upstream with
       | UpstreamError msg => ([], Some msg)
       | UpstreamResponse ok status statusText errorBody body =>
           if negb ok
           then ([], Some (apiError errors status statusText errorBody))
           else match body with
                | None => ([], Some "No response body")
                | Some reads => (readLoop "" reads, None)
                end
       end.

Definition DeepseekProvider_streamChat := streamChat deepseekErrors.
Definition GPT5Provider_streamChat := streamChat gpt5Errors.

End Streaming.

(** *** streamChat of the Anthropic adapter *)

(** An event of [client.messages.stream]: a [content_block_delta] with a
    [text_delta], or any other event. *)
Inductive ClaudeEvent :=
| TextDelta (text : string)
| OtherEvent.

(** The parameters of [client.messages.stream]. *)
Definition ClaudeProvider_streamRequest (config : AIProviderConfig)
  : ClaudeRequest :=
  {| cl_model := "claude-3-5-sonnet-20241022";
     cl_max_tokens := orNumber (maxTokens config) 2000;
     cl_temperature := orNumber (temperature config) (7 # 10);
     cl_system := claudeSystemPrompt config;
     cl_messages :=
       map toAnthropicMessage
           (filter (fun m => isSystem m = false) (messages config)) |}.

(** The [for await (const chunk of stream)] loop. *)
Definition claudeChunks (events : list ClaudeEvent) : list StreamChunk :=
  flat_map (fun e => match e with
                     | TextDelta t => [{| text := t; isComplete := false |}]
                     | OtherEvent => []
                     end) events.

(** The generator, drained, over a stream that ends normally. *)
Definition ClaudeProvider_streamChat
  (apiKey : string) (stream : ClaudeRequest -> Result (list ClaudeEvent))
  (config : AIProviderConfig) : list StreamChunk * option string :=
  let request := ClaudeProvider_streamRequest config in
  if negb (Js.truthy apiKey)
  then ([], Some "Anthropic API key is not configured. Please set ANTHROPIC_API_KEY environment variable.")
  else match stream request with
       | Throw msg => ([], Some msg)
       | Ok events => ((claudeChunks events ++ [terminator])%list, None)
       end.

(** *** AIProvider.streamChat *)

(** What is behind the three adapters when they stream. *)
Record StreamBackends := {
  deepseekStream :
    CompletionRequest TextMessage -> Upstream (option (list string));
  openaiStream :
    CompletionRequest ChatMessage -> Upstream (option (list string));
  anthropicStream : ClaudeRequest -> Result (list ClaudeEvent);
}.

Definition AIProvider_streamChat
  (parseEvent : string -> ParsedEvent) (b : Backends) (s : StreamBackends)
  (config : AIProviderConfig) : list StreamChunk * option string :=
  match model config with
  | deepseek =>
      DeepseekProvider_streamChat parseEvent (deepseekKey b)
        (deepseekStream s (DeepseekProvider_request true config))
  | gpt5 =>
      GPT5Provider_streamChat parseEvent (openaiKey b)
        (openaiStream s (GPT5Provider_request true config))
  | claude_sonnet_4_5 =>
      ClaudeProvider_streamChat (anthropicKey b) (anthropicStream s) config
  end.

End Providers.



(** ** x402.ts *)

Module X402.

(** *** HTTP values *)

(** A [Headers] object maps lower-cased names to values. *)
Abbreviation Headers := (gmap string string).

Definition Headers_get (name : string) (h : Headers) : option string :=
  h !! Js.toLowerCase name.

Definition Headers_set (name value : string) (h : Headers) : Headers :=
  <[Js.toLowerCase name := value]> h.

(** [new Headers({...})] from an object literal. *)
Definition Headers_of (init : list (string * string)) : Headers :=
  foldl (fun h kv => Headers_set kv.1 kv.2 h) ∅ init.

(** A response whose body has not been read. *)
Record Response := {
  status : Z;
  statusText : string;
  headers : gmap string string;
  body : option string;
}.

(** The statuses [new Response(body, init)] accepts; for any other it
    throws a [RangeError]. *)
Definition statusInRange (status : Z) : bool :=
  (200 <=? status)%Z && (status <=? 599)%Z.

(** The request as the gate reads it: [body_model] is the [model] member
    of the JSON body when the body parses and the member is a string. *)
Record Request := {
  method : string;
  req_headers : gmap string string;
  body_model : option string;
}.

(** *** Protocol types *)

Inductive SolanaNetwork := solana | solana_devnet.

Definition networkName (n : SolanaNetwork) : string :=
  match n with solana => "solana" | solana_devnet => "solana-devnet" end.

Definition USDC_MINT_ADDRESSES (n : SolanaNetwork) : string :=
  match n with
  | solana_devnet => "4zMMC9srt5Ri5X14GAgXhaHii3GnPAEERYPJgZJDncDU"
  | solana => "EPjFWdd5AufqSSqeM2qN1xzybapC8G4wEGGkZwyTDt1v"
  end.

Record PaymentRequirements := {
  scheme : string;
  network : SolanaNetwork;
  maxAmountRequired : string;
  resource : string;
  description : string;
  mimeType : string;
  payTo : string;
  maxTimeoutSeconds : Z;
  asset : string;
  extra_feePayer : option string;
}.

Record Authorization := {
  from : string; to : string; value : string;
  validAfter : string; validBefore : string; nonce : string;
}.

Record PaymentPayload := {
  x402Version : Z;
  p_scheme : string;
  p_network : string;
  signature : string;
  authorization : Authorization;
}.

Record VerificationResult := {
  isValid : bool;
  v_error : option string;
  invalidReason : option string;
  payer : option string;
}.

Record SettlementResult := {
  success : bool;
  transaction : option Js.wstring;
  amount : option Js.wstring;
  s_error : option string;
  networkId : option string;
}.

(** The JSON object a facilitator answers with, seen through
    [FacilitatorVerifyResponse] and [FacilitatorSettleResponse]: each
    member, where present, at the type these interfaces declare.  The
    transaction and the amount, which the receipt hands to [btoa], are kept
    in their code units. *)
Record FacilitatorJson := {
  f_isValid : option bool;
  f_success : option bool;
  f_error : option string;
  f_invalidReason : option string;
  f_payer : option string;
  f_transaction : option Js.wstring;
  f_amount : option Js.wstring;
  f_networkId : option string;
}.

(** What [fetch] and [response.json()] give: a rejected promise, or a
    status with the parsed body.  The body is [None] when it does not
    parse or parses to [null], where reading a member throws; a body that
    parses to a number, a string, a boolean or an array has none of the
    members and reads as the object without members. *)
Inductive FetchOutcome :=
| NetworkError (msg : string)
| HttpResponse (http_status : Z) (json : option FacilitatorJson).

Definition response_ok (http_status : Z) : bool :=
  (200 <=? http_status)%Z && (http_status <=? 299)%Z.

Record X402PaymentContext := {
  settlementResult : option SettlementResult;
  paymentAmount : option string;
}.

Record Config := {
  c_network : SolanaNetwork;
  treasuryWallet : string;
  baseUrl : string;
  facilitatorUrl : string;
  facilitatorFeePayer : string;
  usdcMint : string;
}.

Record ModelConfig := {
  name : string;
  provider : string;
  pricePerMessage : string;
  visionPrice : string;
}.

(** *** What the gate does that a caller can observe *)

Inductive Event :=
| EvFetch (url : string) (outcome : FetchOutcome)
| VerifyCall
| VerifyReturn (v : VerificationResult)
| SettleCall
| SettleReturn (s : SettlementResult)
| HandlerCall.

(** A computation that logs events and returns or throws. *)
Definition Eff (A : Type) : Type := list Event * Result A.

Definition ret {A} (a : A) : Eff A := ([], Ok a).
Definition throw {A} (msg : string) : Eff A := ([], Throw msg).
Definition emit (e : Event) : Eff unit := ([e], Ok tt).
Definition lift {A} (r : Result A) : Eff A := ([], r).

Definition bind {A B} (m : Eff A) (k : A -> Eff B) : Eff B :=
  match m with
  | (tr, Ok a) => let '(tr', r) := k a in ((tr ++ tr')%list, r)
  | (tr, Throw msg) => (tr, Throw msg)
  end.

(** [try { m } catch (e) { h e }] *)
Definition catch {A} (m : Eff A) (h : string -> Eff A) : Eff A :=
  match m with
  | (tr, Ok a) => (tr, Ok a)
  | (tr, Throw msg) => let '(tr', r) := h msg in ((tr ++ tr')%list, r)
  end.

Notation "'let*' x ':=' m 'in' k" := (bind m (fun x => k))
  (at level 10, x name, m at level 100, k at level 200).

(** [a || b] where [a] may be undefined. *)
Definition orUndefined (a : option string) (b : option string)
  : option string :=
  match a with
  | Some s => if Js.truthy s then Some s else b
  | None => b
  end.

Definition orString (a : option string) (b : string) : string :=
  match a with
  | Some s => Js.orElse s b
  | None => b
  end.

(** A member that is a string in code units, when it is truthy. *)
Definition truthyText (a : option Js.wstring) : option Js.wstring :=
  match a with
  | Some u => if Js.truthyUnits u then Some u else None
  | None => None
  end.

(** [a || b] on strings in code units, where [a] may be undefined. *)
Definition orText (a : option Js.wstring) (b : Js.wstring) : Js.wstring :=
  match a with
  | Some u => Js.orElseUnits u b
  | None => b
  end.

Section Gate.

(** [process.env] *)
Variable env : gmap string string.

(** [new Date().toISOString()] *)
Variable now : string.

(** [JSON.parse(decodeBase64(header))]; [None] when either throws. *)
Variable decodePayment : string -> option PaymentPayload.

(** The facilitator behind [fetch]. *)
Variable fetch : string -> PaymentPayload -> PaymentRequirements -> FetchOutcome.

(** *** Pricing *)

Definition FALLBACK_gpt5 : string * string := ("100000", "150000").
Definition FALLBACK_claude : string * string := ("200000", "250000").
Definition FALLBACK_deepseek : string * string := ("30000", "30000").

(** [value && /^\d+$/.test(value) ? value : fallback] *)
Definition getPrice (envKey fallback : string) : string :=
  match env !! envKey with
  | Some value =>
      if Js.truthy value && Js.all Js.isDigit value then value
      else fallback
  | None => fallback
  end.

(** The own keys of the pricing table.  Names that a JavaScript object
    inherits from [Object.prototype] ([constructor], [toString] and the
    like) are not modelled: the code reads for them a value without
    prices.  What is proved of prices and requirements is stated for the
    three models of the table. *)
Definition AI_MODEL_PRICING (model : string) : option ModelConfig :=
  if String.eqb model "gpt-5" then
    Some {| name := "GPT-5"; provider := "OpenAI";
            pricePerMessage := getPrice "PRICE_GPT" FALLBACK_gpt5.1;
            visionPrice := getPrice "PRICE_VISION_ADDON" FALLBACK_gpt5.2 |}
  else if String.eqb model "claude-sonnet-4-5" then
    Some {| name := "Claude 4.5 Sonnet"; provider := "Anthropic";
            pricePerMessage := getPrice "PRICE_CLAUDE" FALLBACK_claude.1;
            visionPrice := getPrice "PRICE_VISION_ADDON" FALLBACK_claude.2 |}
  else if String.eqb model "deepseek" then
    Some {| name := "Deepseek Chat"; provider := "Deepseek";
            pricePerMessage := getPrice "PRICE_DEEPSEEK" FALLBACK_deepseek.1;
            visionPrice :=
              getPrice "PRICE_DEEPSEEK_VISION" FALLBACK_deepseek.2 |}
  else None.

Definition getModelPrice (model : string) (hasVision : bool)
  : Result string :=
  match AI_MODEL_PRICING model with
  | None => Throw ("Unknown AI model: " ++ model)
  | Some modelConfig =>
      Ok (if hasVision then visionPrice modelConfig
          else pricePerMessage modelConfig)
  end.

(** *** Configuration *)

Definition getX402Config : Result Config :=
  let networkEnv :=
    orString (orUndefined (env !! "NEXT_PUBLIC_NETWORK")
                          (env !! "NEXT_PUBLIC_SOLANA_NETWORK")) "" in
  let network :=
    if String.eqb networkEnv "solana" then solana
    else if String.eqb networkEnv "solana-devnet" then solana_devnet
    else solana_devnet in
  let treasuryWallet := env !! "TREASURY_WALLET_ADDRESS" in
  let baseUrl := orString (env !! "NEXT_PUBLIC_BASE_URL")
                          "http://localhost:3000" in
  let facilitatorUrl :=
    orString (orUndefined (env !! "X402_FACILITATOR_URL")
                          (env !! "FACILITATOR_URL"))
             "https://facilitator.payai.network" in
  let facilitatorFeePayer :=
    orUndefined (env !! "X402_FACILITATOR_FEE_PAYER")
      (orUndefined (env !! "NEXT_PUBLIC_X402_FEE_PAYER")
         (orUndefined (env !! "FACILITATOR_FEE_PAYER") None)) in
  let isProduction :=
    match env !! "NODE_ENV" with
    | Some v => String.eqb v "production"
    | None => false
    end in
  let resolvedTreasury :=
    orString treasuryWallet "11111111111111111111111111111111" in
  if negb (Js.truthy (orString treasuryWallet "")) && isProduction
  then Throw "TREASURY_WALLET_ADDRESS environment variable is required"
  else Ok {| c_network := network;
             treasuryWallet := resolvedTreasury;
             baseUrl := baseUrl;
             facilitatorUrl := facilitatorUrl;
             facilitatorFeePayer :=
               orString facilitatorFeePayer resolvedTreasury;
             usdcMint := USDC_MINT_ADDRESSES network |}.

(** *** Payment requirements *)

Definition createChatPaymentRequirements
  (model : string) (hasVision : bool) (endpoint : string)
  : Result PaymentRequirements :=
  match getX402Config with
  | Throw msg => Throw msg
  | Ok config =>
      match getModelPrice model hasVision with
      | Throw msg => Throw msg
      | Ok price =>
          match AI_MODEL_PRICING model with
          | None => Throw "modelConfig is undefined"
          | Some modelConfig =>
              Ok {| scheme := "exact";
                    network := c_network config;
                    maxAmountRequired := price;
                    resource := baseUrl config ++ endpoint;
                    description :=
                      "AI Chat - " ++ name modelConfig ++ " "
                        ++ (if hasVision then "(Vision)" else "");
                    mimeType := "application/json";
                    payTo := treasuryWallet config;
                    maxTimeoutSeconds := 300;
                    asset := usdcMint config;
                    extra_feePayer := Some (facilitatorFeePayer config) |}
          end
      end
  end.

Definition requirementsJson (r : PaymentRequirements) : Js.json :=
  Js.JObj
    ([("scheme", Js.JStr (scheme r));
      ("network", Js.JStr (networkName (network r)));
      ("maxAmountRequired", Js.JStr (maxAmountRequired r));
      ("resource", Js.JStr (resource r));
      ("description", Js.JStr (description r));
      ("mimeType", Js.JStr (mimeType r));
      ("payTo", Js.JStr (payTo r));
      ("maxTimeoutSeconds", Js.JNum (maxTimeoutSeconds r));
      ("asset", Js.JStr (asset r));
      ("extra",
        Js.JObj match extra_feePayer r with
                | Some p => [("feePayer", Js.JStr p)]
                | None => []
                end)]).

(** *** callFacilitator *)

Definition callFacilitator
  (endpoint : string) (payment : PaymentPayload)
  (requirements : PaymentRequirements) (facilitatorUrl : string)
  : Eff FacilitatorJson :=
  let url := facilitatorUrl ++ endpoint in
  let outcome := fetch url payment requirements in
  let* _ := emit (EvFetch url outcome) in
  match outcome with
  | NetworkError msg => throw msg
  | HttpResponse http_status json =>
      if negb (response_ok http_status)
      then throw ("Facilitator API error: " ++ Js.showZ http_status)
      else match json with
           | Some result => ret result
           | None => throw "Unexpected token in JSON"
           end
  end.

(** *** X402PaymentHandler *)

(** The handler object: its [config] field, read once by the
    constructor. *)
Definition X402PaymentHandler := Config.

Definition getX402Handler : Result X402PaymentHandler := getX402Config.

Definition extractPaymentHeader (h : Headers) : option string :=
  Headers_get "X-PAYMENT" h.

Definition corsHeaders : list (string * string) :=
  [("Access-Control-Allow-Origin", "*");
   ("Access-Control-Allow-Methods", "GET, POST, OPTIONS");
   ("Access-Control-Allow-Headers", "Content-Type, X-PAYMENT");
   ("Access-Control-Expose-Headers", "X-PAYMENT-RESPONSE")].

Definition body402 (error : string) (requirements : PaymentRequirements)
  : Js.json :=
  Js.JObj [("x402Version", Js.JNum 1);
           ("error", Js.JStr error);
           ("accepts", Js.JArr [requirementsJson requirements])].

Definition create402Response
  (model : string) (hasVision : bool) (endpoint : string)
  (error : option string) : Result Response :=
  match createChatPaymentRequirements model hasVision endpoint with
  | Throw msg => Throw msg
  | Ok requirements =>
      Ok {| status := 402;
            statusText := "";
            headers :=
              Headers_of (("Content-Type", "application/json") :: corsHeaders);
            body :=
              Some (Js.stringify
                      (body402 (orString error "Payment required")
                               requirements)) |}
  end.

Definition verificationFailed : VerificationResult :=
  {| isValid := false;
     v_error := Some "Payment verification failed";
     invalidReason := None;
     payer := None |}.

Definition toBoolean (b : option bool) : bool :=
  match b with Some true => true | _ => false end.

Definition verifyPayment
  (this : X402PaymentHandler) (paymentHeader model : string)
  (hasVision : bool) (endpoint : string) : Eff VerificationResult :=
  catch
    (let* requirements :=
       lift (createChatPaymentRequirements model hasVision endpoint) in
     let* payment :=
       match decodePayment paymentHeader with
       | Some p => ret p
       | None => throw "Invalid payment header"
       end in
     let* result :=
       callFacilitator "/verify" payment requirements
         (facilitatorUrl this) in
     ret {| isValid := toBoolean (f_isValid result);
            v_error := f_error result;
            invalidReason := f_invalidReason result;
            payer := f_payer result |})
    (fun _ => ret verificationFailed).

Definition settlementFailed : SettlementResult :=
  {| success := false;
     transaction := None;
     amount := None;
     s_error := Some "Payment settlement failed";
     networkId := None |}.

Definition settlePayment
  (this : X402PaymentHandler) (paymentHeader model : string)
  (hasVision : bool) (endpoint : string) : Eff SettlementResult :=
  catch
    (let* requirements :=
       lift (createChatPaymentRequirements model hasVision endpoint) in
     let* payment :=
       match decodePayment paymentHeader with
       | Some p => ret p
       | None => throw "Invalid payment header"
       end in
     let* result :=
       callFacilitator "/settle" payment requirements
         (facilitatorUrl this) in
     ret {| success := toBoolean (f_success result);
            transaction := f_transaction result;
            amount := f_amount result;
            s_error := f_error result;
            networkId := f_networkId result |})
    (fun _ => ret settlementFailed).

(** *** handlePaymentFlow *)

(** The two shapes [handlePaymentFlow] returns:
    [{success: false, response}] and
    [{success: true, settlementResult, paymentAmount}]. *)
Inductive PaymentFlowResult :=
| Rejected (response : Response)
| Granted (settlement : SettlementResult) (paymentAmount : string).

(** A template literal prints an undefined member as [undefined]. *)
Definition showOptional (o : option string) : string :=
  match o with Some s => s | None => "undefined" end.

Definition handlePaymentFlow
  (this : X402PaymentHandler) (request : Request) (model : string)
  (hasVision : bool) (endpoint : option string) : Eff PaymentFlowResult :=
  let endpoint := default "/api/chat" endpoint in
  match orUndefined (extractPaymentHeader (req_headers request)) None with
  | None =>
      let* response :=
        lift (create402Response model hasVision endpoint None) in
      ret (Rejected response)
  | Some paymentHeader =>
      let* _ := emit VerifyCall in
      let* verification :=
        verifyPayment this paymentHeader model hasVision endpoint in
      let* _ := emit (VerifyReturn verification) in
      if negb (isValid verification) then
        let* response :=
          lift (create402Response model hasVision endpoint
                  (Some ("Payment verification failed: "
                           ++ showOptional (v_error verification)))) in
        ret (Rejected response)
      else
        let* _ := emit SettleCall in
        let* settlement :=
          settlePayment this paymentHeader model hasVision endpoint in
        let* _ := emit (SettleReturn settlement) in
        if negb (success settlement) then
          let* response :=
            lift (create402Response model hasVision endpoint
                    (Some ("Payment settlement failed: "
                             ++ showOptional (s_error settlement)))) in
          ret (Rejected response)
        else
          let* price := lift (getModelPrice model hasVision) in
          ret (Granted settlement price)
  end.

(** *** addPaymentResponseHeaders *)

Definition paymentResponse
  (this : X402PaymentHandler) (transaction : Js.wstring)
  (amount : option Js.wstring) : Js.wjson :=
  Js.WObj [("success", Js.WBool true);
           ("transaction", Js.WStr transaction);
           ("network", Js.WStr (Js.codes (networkName (c_network this))));
           ("amount", Js.WStr (orText amount (Js.codes "0")));
           ("timestamp", Js.WStr (Js.codes now))].

(** [btoa] throws when the JSON text of the receipt holds a code unit
    above 255; after it, [new Response] throws when the status of the
    response, which it is given again, is one it does not accept (the
    status 0 of [Response.error()]). *)
Definition addPaymentResponseHeaders
  (this : X402PaymentHandler) (response : Response)
  (settlement : SettlementResult) : Result Response :=
  match truthyText (transaction settlement) with
  | Some transaction =>
      if success settlement then
        match Js.btoa (Js.stringifyUnits
                 (paymentResponse this transaction (amount settlement))) with
        | None => Throw "Invalid character"
        | Some encoded =>
            let newHeaders :=
              Headers_set "Access-Control-Expose-Headers" "X-PAYMENT-RESPONSE"
                (Headers_set "X-PAYMENT-RESPONSE" encoded
                   (headers response)) in
            if statusInRange (status response) then
              Ok {| status := status response;
                    statusText := statusText response;
                    headers := newHeaders;
                    body := body response |}
            else Throw "init[status] must be in the range of 200 to 599, inclusive."
        end
      else Ok response
  | None => Ok response
  end.

(** *** withX402Payment *)

(** The wrapped route handler.  It receives the request and the
    [x402Payment] member added to its context. *)
Variable handler : Request -> X402PaymentContext -> Result Response.

Definition preflightResponse : Response :=
  {| status := 200; statusText := "";
     headers := Headers_of corsHeaders; body := None |}.

Definition errorResponse : Response :=
  {| status := 500; statusText := "";
     headers := Headers_of [("Content-Type", "application/json")];
     body := Some (Js.stringify
                     (Js.JObj [("error", Js.JStr "Payment processing error")])) |}.

(** The model the middleware reads from the body, or its default. *)
Definition requestModel (defaultModel : string) (req : Request) : string :=
  match body_model req with
  | Some m => if Js.truthy m then m else defaultModel
  | None => defaultModel
  end.

Definition withX402Payment_body
  (defaultModel : string) (hasVision : bool) (endpoint : option string)
  (req : Request) : Eff Response :=
  if String.eqb (method req) "OPTIONS" then ret preflightResponse
  else
    let model := requestModel defaultModel req in
    let* this := lift getX402Handler in
    let* paymentResult :=
      handlePaymentFlow this req model hasVision endpoint in
    match paymentResult with
    | Rejected response => ret response
    | Granted settlement price =>
        let paymentContext :=
          {| settlementResult := Some settlement;
             paymentAmount := Some price |} in
        let* _ := emit HandlerCall in
        let* response := lift (handler req paymentContext) in
        let* this' := lift getX402Handler in
        lift (addPaymentResponseHeaders this' response settlement)
    end.

(** The middleware: events it causes, and the response it resolves to. *)
Definition withX402Payment
  (defaultModel : string) (hasVision : bool) (endpoint : option string)
  (req : Request) : list Event * Response :=
  match withX402Payment_body defaultModel hasVision endpoint req with
  | (tr, Ok response) => (tr, response)
  | (tr, Throw _) => (tr, errorResponse)
  end.

End Gate.

(** *** decodeBase64 *)

(** In a runtime that has [atob]. *)
Definition decodeBase64 (value : string) : Result string :=
  match Js.atob value with
  | Some decoded => Ok decoded
  | None => Throw "The string to be decoded is not correctly encoded."
  end.

End X402.

(** ** app/api/chat/route.ts *)

Module Route.

Import Providers.

Definition SYSTEM_PROMPT : string :=
  "You are an AI assistant for X402Chatly. Provide concise, accurate answers using clear sentences.
- Do NOT use Markdown symbols such as **, ##, ---, or /// in your replies.
- If you need emphasis, use natural language (for example: "
  ++ Js.dquote ++ "Important:" ++ Js.dquote ++ " or "
  ++ Js.dquote ++ "Key point:" ++ Js.dquote ++ ").
- Keep line breaks meaningful and avoid excessive spacing.
- Mention costs or blockchain details only if the user asks.
- If the user asks about payments, remind them that Solana USDC micropayments are handled automatically via X402.
- Never fabricate wallet details or transaction IDs.".

Definition DEFAULT_MODEL : string := "deepseek".
Definition HISTORY_LIMIT : Z := 12.
Definition MAX_ATTACHMENT_BYTES : Q := 5 * 1024 * 1024.
Definition MAX_ATTACHMENTS : nat := 4.

(** *** sanitizeUserMessage, formatChatTitle *)

Fixpoint removeAll (p : ascii -> bool) (s : string) : string :=
  match s with
  | EmptyString => EmptyString
  | String c s' => if p c then removeAll p s' else String c (removeAll p s')
  end.

(** [$] under the [m] flag: at the end of the input or before a line
    terminator. *)
Definition atLineEnd (s : string) : bool :=
  match s with
  | EmptyString => true
  | String c _ => Js.isLineTerminator c
  end.

(** The length of the match of [/\s+$/m] at the start of [s], if any: the
    longest run of white space that stops at a line end. *)
Fixpoint trailingSpaceMatch (s : string) : option nat :=
  match s with
  | EmptyString => None
  | String c s' =>
      if Js.isSpace c then
        match trailingSpaceMatch s' with
        | Some k => Some (S k)
        | None => if atLineEnd s' then Some 1%nat else None
        end
      else None
  end.

(** [s.replace(/\s+$/gm, '')]: [skip] counts the characters of the
    current match that remain to be dropped. *)
Fixpoint stripLineEnds (skip : nat) (s : string) : string :=
  match s with
  | EmptyString => EmptyString
  | String c s' =>
      match skip with
      | S n => stripLineEnds n s'
      | O =>
          match trailingSpaceMatch s with
          | Some (S k) => stripLineEnds k s'
          | _ => String c (stripLineEnds 0 s')
          end
      end
  end.

Definition sanitizeUserMessage (input : string) : string :=
  Js.trim (stripLineEnds 0 (removeAll (fun c => (Js.code c =? 13)%N) input)).

(** [s.replace(/\s+/g, ' ')] *)
Fixpoint condense (inRun : bool) (s : string) : string :=
  match s with
  | EmptyString => EmptyString
  | String c s' =>
      if Js.isSpace c
      then if inRun then condense true s' else String " " (condense true s')
      else String c (condense false s')
  end.

Fixpoint take (n : nat) (s : string) : string :=
  match n, s with
  | S n', String c s' => String c (take n' s')
  | _, _ => EmptyString
  end.

(** The ellipsis is kept in the UTF-8 bytes of the source file. *)
Definition formatChatTitle (message : string) : string :=
  let condensed := Js.trim (condense false message) in
  if Js.isEmpty condensed then "New Chat"
  else if (48 <? String.length condensed)%nat
       then take 48 condensed ++ "…"
       else condensed.

(** *** Attachments *)

Record NormalizedAttachment := {
  fileName : string;
  mimeType : string;
  size : Q;
  dataUrl : string;
}.

(** An element of the [files] array as it arrives.  [e_size] is
    [Number(entry.size)], [None] when that is not finite; a string member
    is [None] when it is absent or not a string. *)
Inductive RawEntry :=
| NotAnObject
| Entry (e_name e_type : option string) (e_size : option Q)
        (e_dataUrl : option string).

Definition isMimeChar (c : ascii) : bool :=
  Js.isWord c || ((Js.code c =? 46) || (Js.code c =? 43) || (Js.code c =? 45))%N.

Definition isPayloadChar (c : ascii) : bool :=
  Js.isAlnum c
  || ((Js.code c =? 43) || (Js.code c =? 47) || (Js.code c =? 61))%N
  || Js.isSpace c.

(** [/^data:[\w.+-]+\/[\w.+-]+;base64,[A-Za-z0-9+/=\s]+$/i] *)
Definition isValidDataUrl (value : string) : bool :=
  match Js.stripPrefixCI "data:" value with
  | None => false
  | Some rest =>
      let '(type, rest) := Js.span isMimeChar rest in
      if Js.isEmpty type then false
      else match Js.stripPrefix "/" rest with
           | None => false
           | Some rest =>
               let '(subtype, rest) := Js.span isMimeChar rest in
               if Js.isEmpty subtype then false
               else match Js.stripPrefixCI ";base64," rest with
                    | None => false
                    | Some payload =>
                        Js.truthy payload && Js.all isPayloadChar payload
                    end
           end
  end.

(** One turn of the [for (const entry of input)] loop: the attachment to
    push, or [None] for [continue]. *)
Definition normalizeEntry (entry : RawEntry) : option NormalizedAttachment :=
  match entry with
  | NotAnObject => None
  | Entry e_name e_type e_size e_dataUrl =>
      let name := match e_name with Some s => Js.trim s | None => "" end in
      let type := default "application/octet-stream" e_type in
      let dataUrl := default "" e_dataUrl in
      match e_size with
      | None => None
      | Some size =>
          if Js.isEmpty name || Qle_bool size 0
             || negb (Qle_bool size MAX_ATTACHMENT_BYTES)
          then None
          else if Js.isEmpty dataUrl || negb (isValidDataUrl dataUrl)
          then None
          else Some {| fileName := name;
                       mimeType := Js.orElse type "application/octet-stream";
                       size := size;
                       dataUrl := dataUrl |}
      end
  end.

Fixpoint normalizeLoop (input : list RawEntry)
  (normalized : list NormalizedAttachment) : list NormalizedAttachment :=
  match input with
  | [] => normalized
  | entry :: rest =>
      match normalizeEntry entry with
      | None => normalizeLoop rest normalized
      | Some a =>
          let normalized := (normalized ++ [a])%list in
          if (MAX_ATTACHMENTS <=? List.length normalized)%nat then normalized
          else normalizeLoop rest normalized
      end
  end.

(** [input] is [None] when [files] is not an array. *)
Definition normalizeAttachments (input : option (list RawEntry))
  : list NormalizedAttachment :=
  match input with
  | None => []
  | Some entries => normalizeLoop entries []
  end.

(** *** The request and the response *)

(** What [ToNumber] makes of a member of the body, which is not checked
    to be a number: a finite number (also for [null], a boolean or a
    numeric string), an infinity (the literal [1e999], the string
    "Infinity") or NaN (a string such as "warm", an object). *)
Inductive Coerced :=
| Real (q : Q)
| Infinite (negative : bool)
| NotANumber.

(** The JSON body of the request, member by member; a member is [None]
    when it is absent (for [message]: when it is not a string).  The
    temperature and the token limit are used as numbers only and are kept
    as [ToNumber] has them. *)
Record ChatRequest := {
  message : option string;
  walletAddress : option string;
  chatId : option string;
  req_model : option string;
  req_temperature : option Coerced;
  req_maxTokens : option Coerced;
  files : option (list RawEntry);
}.

(** The JSON object of a response: an error with optional details, or the
    reply (its [message], [model] and [chatId] members). *)
Inductive Body :=
| ErrorBody (error : string) (details : option string)
| ChatPayload (message model chatId : string).

Record Response := { status : Z; body : Body }.

Definition errorResponse (status : Z) (error : string) : Response :=
  {| status := status; body := ErrorBody error None |}.

(** [validModels.includes(model)], with the model it names. *)
Definition validModel (model : string) : option AIModel :=
  if String.eqb model "deepseek" then Some deepseek
  else if String.eqb model "gpt-5" then Some gpt5
  else if String.eqb model "claude-sonnet-4-5" then Some claude_sonnet_4_5
  else None.

(** [Math.min(Math.max(maxTokens, 256), 2048)] and
    [Math.min(Math.max(temperature, 0), 2)] on finite numbers. *)
Definition resolveMaxTokens (maxTokens : Q) : Q :=
  Qmin (Qmax maxTokens 256) 2048.

Definition resolveTemperature (temperature : Q) : Q :=
  Qmin (Qmax temperature 0) 2.

(** The same on whatever the body holds: an infinity ends on the bound on
    its side, and NaN stays NaN. *)
Definition resolvedMaxTokens (maxTokens : Coerced) : Js.number :=
  match maxTokens with
  | Real n => Js.Finite (resolveMaxTokens n)
  | Infinite negative => Js.Finite (if negative then 256 else 2048)
  | NotANumber => Js.NaN
  end.

Definition resolvedTemperature (temperature : Coerced) : Js.number :=
  match temperature with
  | Real t => Js.Finite (resolveTemperature t)
  | Infinite negative => Js.Finite (if negative then 0 else 2)
  | NotANumber => Js.NaN
  end.

(** *** Stored rows *)

Record FileRow := {
  file_name : string;
  file_url : string;
  mime_type : option string;
}.

Record MessageRow := {
  row_id : string;
  row_role : string;
  row_content : string;
  row_files : option (list FileRow);
}.

Record ChatRow := { chat_id : string; user_id : string }.

Record UserRow := { id : string }.

Definition isImageMime (m : string) : bool :=
  match Js.stripPrefix "image/" m with Some _ => true | None => false end.

Definition supportsVision (model : AIModel) : bool :=
  match model with gpt5 | claude_sonnet_4_5 => true | deepseek => false end.

Definition orEmpty (o : option string) : string :=
  match o with Some s => s | None => "" end.

(** The body of [for (const row of historyRows)]. *)
Definition priorMessage (model : AIModel) (row : MessageRow) : ChatMessage :=
  let role :=
    if String.eqb (row_role row) "assistant" then assistant
    else if String.eqb (row_role row) "system" then system else user in
  let rowFiles := default [] (row_files row) in
  let hasImages :=
    existsb (fun f => isImageMime (orEmpty (mime_type f))) rowFiles in
  let isUser := match role with user => true | _ => false end in
  if hasImages && isUser && supportsVision model then
    {| role := role;
       content :=
         Parts ((if Js.truthy (row_content row)
                 then [TextContent (row_content row)] else [])
                ++ flat_map
                     (fun f =>
                        if isImageMime (orEmpty (mime_type f))
                           && Js.truthy (file_url f)
                        then [ImageContent (file_url f) (Some auto)]
                        else [])
                     rowFiles)%list |}
  else {| role := role; content := Plain (row_content row) |}.

Section Handler.

(** The persistence collaborator, the PDF extractor and the provider
    router, as the handler calls them. *)
Variable getOrCreateUser : string -> Result UserRow.
Variable getChatById : string -> Result (option ChatRow).
Variable getChatMessages : string -> Z -> Result (list MessageRow).
Variable getChatMessageCount : string -> Result Q.
Variable extractPdfText : string -> Result string.
Variable aiProvider_chat : AIProviderConfig -> Result AIResponse.
Variable createChat : string -> string -> AIModel -> Result ChatRow.
Variable addMessage : string -> string -> Role -> string -> Result string.

(** [sanitizeAssistantResponse] only shapes the reply text; it is kept
    abstract. *)
Variable sanitizeAssistantResponse : string -> string.

Notation "'let?' x ':=' m 'in' k" :=
  (match m with Ok x => k | Throw msg => Throw msg end)
  (at level 10, x name, m at level 100, k at level 200).

Definition loadChatContext (chatId userId : string)
  : Result (ChatRow * list MessageRow) :=
  let? found := getChatById chatId in
  match found with
  | Some chat =>
      if String.eqb (user_id chat) userId then
        let? rows := getChatMessages chatId HISTORY_LIMIT in
        Ok (chat, rows)
      else Throw "Chat not found"
  | None => Throw "Chat not found"
  end.

(** The texts pushed to [pdfTexts]. *)
Definition pdfText (attachment : NormalizedAttachment) : list string :=
  if String.eqb (mimeType attachment) "application/pdf" then
    match extractPdfText (dataUrl attachment) with
    | Ok text =>
        [Js.newline ++ Js.newline ++ "--- Content from "
           ++ fileName attachment ++ " ---" ++ Js.newline ++ text]
    | Throw _ =>
        [Js.newline ++ Js.newline ++ "[Error: Could not read PDF file "
           ++ fileName attachment ++ "]"]
    end
  else [].

Definition isImage (a : NormalizedAttachment) : bool :=
  isImageMime (mimeType a).

Definition userMessageContent
  (model : AIModel) (sanitizedUserMessage : string)
  (attachments : list NormalizedAttachment) : MessageContent :=
  let sanitizedWithPdf :=
    sanitizedUserMessage ++ Js.join "" (flat_map pdfText attachments) in
  let hasImages := existsb isImage attachments in
  if hasImages && supportsVision model then
    Parts ((if Js.truthy sanitizedWithPdf
            then [TextContent sanitizedWithPdf] else [])
           ++ map (fun a => ImageContent (dataUrl a) (Some auto))
                  (filter (fun a => isImage a = true) attachments))%list
  else if hasImages then
    Plain (sanitizedWithPdf ++ Js.newline ++ Js.newline
             ++ "[Note: User attached images ("
             ++ Js.join ", "
                  (map fileName
                       (filter (fun a => isImage a = true) attachments))
             ++ "), but Deepseek doesn't support vision. Images are stored but cannot be analyzed.]")
  else Plain sanitizedWithPdf.

(** The object [callAIProvider] passes to [aiProvider.chat]. *)
Definition providerConfig
  (model : AIModel) (messages : list ChatMessage)
  (temperature maxTokens : Js.number) : AIProviderConfig :=
  {| Providers.model := model;
     Providers.messages := messages;
     Providers.temperature := Some temperature;
     Providers.maxTokens := Some maxTokens;
     Providers.systemPrompt := Some SYSTEM_PROMPT |}.

Definition modelName (model : AIModel) : string :=
  match model with
  | deepseek => "deepseek"
  | gpt5 => "gpt-5"
  | claude_sonnet_4_5 => "claude-sonnet-4-5"
  end.

Definition callAIProvider
  (model : AIModel) (messages : list ChatMessage)
  (temperature maxTokens : Js.number) : Result AIResponse :=
  match aiProvider_chat (providerConfig model messages temperature maxTokens) with
  | Ok response => Ok response
  | Throw msg => Throw ("Failed to call " ++ modelName model ++ ": " ++ msg)
  end.

(** Everything after the chat lookup: the provider call and the primary
    writes.  The secondary writes ([addMessageFiles],
    [recordTransaction], [recordApiUsage]) are inside their own
    [try/catch] and leave the response as it is. *)
Definition respond
  (user : UserRow) (chatRecord : option ChatRow)
  (historyRows : list MessageRow) (model : AIModel)
  (temperature maxTokens : Coerced) (sanitizedUserMessage : string)
  (attachments : list NormalizedAttachment) : Result Response :=
  let resolvedMaxTokens := resolvedMaxTokens maxTokens in
  let resolvedTemperature := resolvedTemperature temperature in
  let chatMessages :=
    (map (priorMessage model) historyRows
     ++ [{| role := Providers.user;
            content :=
              userMessageContent model sanitizedUserMessage attachments |}])%list in
  let? reply :=
    callAIProvider model chatMessages resolvedTemperature resolvedMaxTokens in
  let sanitizedAssistant := sanitizeAssistantResponse (r_content reply) in
  let? chatRecord :=
    match chatRecord with
    | Some chat => Ok chat
    | None =>
        createChat (id user) (formatChatTitle sanitizedUserMessage) model
    end in
  let? _ :=
    addMessage (chat_id chatRecord) (id user) Providers.user
      (Js.orElse sanitizedUserMessage "[Images only]") in
  let? _ :=
    addMessage (chat_id chatRecord) (id user) assistant sanitizedAssistant in
  Ok {| status := 200;
        body := ChatPayload sanitizedAssistant (modelName model)
                  (chat_id chatRecord) |}.

(** The [try] block of [handleChatRequest]; [request] is [None] when
    [request.json()] rejects. *)
Definition handleChatRequest_try (request : option ChatRequest)
  : Result Response :=
  match request with
  | None => Throw "Unexpected end of JSON input"
  | Some body =>
      let model := default DEFAULT_MODEL (req_model body) in
      let temperature := default (Real (7 # 10)) (req_temperature body) in
      let maxTokens := default (Real 1024) (req_maxTokens body) in
      let attachments := normalizeAttachments (files body) in
      let rawMessage := orEmpty (message body) in
      if negb (Js.truthy (orEmpty (walletAddress body)))
         || (negb (Js.truthy rawMessage)
             && (List.length attachments =? 0)%nat)
      then Ok (errorResponse 400
                 "Missing content. Provide a message or at least one attachment.")
      else
        match validModel model with
        | None =>
            Ok (errorResponse 400
                  "Invalid model. Available: deepseek, gpt-5, claude-sonnet-4-5")
        | Some aiModel =>
            let sanitizedUserMessage := sanitizeUserMessage rawMessage in
            if negb (Js.truthy sanitizedUserMessage)
               && (List.length attachments =? 0)%nat
            then Ok (errorResponse 422
                       "Message cannot be empty after sanitization.")
            else
              let? user := getOrCreateUser (orEmpty (walletAddress body)) in
              if Js.truthy (orEmpty (chatId body)) then
                let chatId := orEmpty (chatId body) in
                match loadChatContext chatId (id user) with
                | Throw _ =>
                    Ok (errorResponse 404 "Chat not found for this wallet.")
                | Ok (chat, rows) =>
                    match getChatMessageCount chatId with
                    | Throw _ =>
                        Ok (errorResponse 404
                              "Chat not found for this wallet.")
                    | Ok messageCount =>
                        if Qle_bool 80 messageCount
                        then Ok (errorResponse 400
                                   "Этот чат достиг лимита в 80 сообщений. Пожалуйста, создайте новый чат для продолжения общения.")
                        else respond user (Some chat) rows aiModel
                               temperature maxTokens sanitizedUserMessage
                               attachments
                    end
                end
              else respond user None [] aiModel temperature maxTokens
                     sanitizedUserMessage attachments
        end
  end.

Definition handleChatRequest (request : option ChatRequest) : Response :=
  match handleChatRequest_try request with
  | Ok response => response
  | Throw msg =>
      {| status := 500;
         body := ErrorBody "Internal server error" (Some msg) |}
  end.

End Handler.

End Route.

(** ** The specification's words, for comparison with the code *)

Module Spec.

Import Providers.

(** A [data:<image mime>;base64,<data>] URL: the mime type is [image/]
    followed by word characters, the data is not empty and stays on one
    line. *)
Definition imageDataUrl (subtype data : string) : string :=
  "data:image/" ++ subtype ++ ";base64," ++ data.

Definition wellFormedParts (subtype data : string) : Prop :=
  Js.truthy subtype = true /\ Js.all Js.isWord subtype = true /\
  Js.truthy data = true /\
  Js.all (fun c => negb (Js.isLineTerminator c)) data = true.

(** The typed-block conversion of one part, as the specification words
    it. *)
Inductive typedBlock : ContentPart -> AnthropicBlock -> Prop :=
| typed_text (t : string) :
    typedBlock (TextContent t) (TextBlock t)
| typed_base64 (subtype data : string) (detail : option Detail) :
    wellFormedParts subtype data ->
    typedBlock (ImageContent (imageDataUrl subtype data) detail)
               (ImageBlock (Base64Source ("image/" ++ subtype) data))
| typed_url (url : string) (detail : option Detail) :
    (forall subtype data,
        wellFormedParts subtype data -> url <> imageDataUrl subtype data) ->
    typedBlock (ImageContent url detail) (ImageBlock (UrlSource url)).

(** The array of scenarios D and E. *)
Definition scenarioParts : list ContentPart :=
  [TextContent "hi"; ImageContent "data:image/png;base64,AAAA" None].

Definition isImagePart (item : ContentPart) : bool :=
  negb (isTextPart item).

(** "Zero text parts and at least one image part". *)
Definition onlyImages (items : list ContentPart) : bool :=
  forallb isImagePart items && existsb isImagePart items.

(** The text-only conversion of array content, as the specification words
    it: the marker exactly in that case, the joined text otherwise. *)
Definition textOnlyContent (items : list ContentPart) : string :=
  if onlyImages items then IMAGES_UNSUPPORTED
  else Js.join Js.newline (textParts items).

(** The arrays whose joined text is empty: those without a text part, and
    those with one text part, whose text is empty.  Two text parts or more
    are joined by line feeds, also when all of them are empty. *)
Definition withoutText (items : list ContentPart) : bool :=
  match textParts items with
  | [] => true
  | [text] => Js.isEmpty text
  | _ :: _ :: _ => false
  end.

(** *** Server-sent events *)

(** A line of the stream: no line feed inside. *)
Definition isLine (l : string) : Prop :=
  Js.all (fun c => negb (Ascii.eqb c Js.LF)) l = true.

(** Lines, each followed by its line feed. *)
Fixpoint unlines (ls : list string) : string :=
  match ls with
  | [] => ""
  | l :: rest => l ++ Js.newline ++ unlines rest
  end.

(** The byte stream the reads add up to. *)
Fixpoint received (reads : list string) : string :=
  match reads with
  | [] => ""
  | value :: rest => value ++ received rest
  end.

(** The chunks of a stream received in one piece: its complete lines are
    processed, then the terminator follows unless [[DONE]] came first. *)
Definition chunksOf (parseEvent : string -> ParsedEvent) (stream : string)
  : list StreamChunk :=
  let '(chunks, returned) :=
    processLines parseEvent (removelast (Js.split Js.LF stream)) in
  if returned then chunks else (chunks ++ [terminator])%list.

Definition incomplete (c : StreamChunk) : Prop := isComplete c = false.

(** An upstream answer with [ok] set that carries a body: the reads. *)
Definition sseBody (status : Z) (statusText : string) (reads : list string)
  : Upstream (option (list string)) :=
  UpstreamResponse true status statusText "" (Some reads).

(** What the specification asks of an adapter's [streamChat], given a
    configured key and a stream that arrives in the pieces [reads]:
    - the chunks are some incomplete chunks followed by the terminator,
      and the generator ends without an error;
    - when the stream holds the event [data: [DONE]] after the lines
      [ls], the chunks are those of the stream cut before that event;
    - an event whose payload does not parse leaves the chunks as they are
      without it. *)
Definition sseContract
  (parseEvent : string -> ParsedEvent)
  (streamChat : string -> Upstream (option (list string))
                -> list StreamChunk * option string) : Prop :=
  forall (apiKey : string) (status : Z) (statusText : string)
         (reads : list string),
    Js.truthy apiKey = true ->
    (exists chunks,
        streamChat apiKey (sseBody status statusText reads)
        = ((chunks ++ [terminator])%list, None)
        /\ Forall incomplete chunks)
    /\ (forall (ls : list string) (after : string),
           Forall isLine ls ->
           received reads
           = unlines ls ++ "data: [DONE]" ++ Js.newline ++ after ->
           streamChat apiKey (sseBody status statusText reads)
           = streamChat apiKey (sseBody status statusText [unlines ls]))
    /\ (forall (ls : list string) (payload after : string),
           Forall isLine ls -> isLine payload ->
           Js.trim payload <> "[DONE]" ->
           parseEvent (Js.trim payload) = Malformed ->
           received reads
           = unlines ls ++ "data: " ++ payload ++ Js.newline ++ after ->
           streamChat apiKey (sseBody status statusText reads)
           = streamChat apiKey
               (sseBody status statusText [unlines ls ++ after])).

End Spec.

Module GateSpec.

Import X402.

(** The models of the pricing table. *)
Definition supportedModels : list string :=
  ["gpt-5"; "claude-sonnet-4-5"; "deepseek"].

(** The environment variables that override a price. *)
Definition priceKeys : list string :=
  ["PRICE_GPT"; "PRICE_CLAUDE"; "PRICE_DEEPSEEK";
   "PRICE_VISION_ADDON"; "PRICE_DEEPSEEK_VISION"].

(** A decimal string and the amount it denotes. *)
Definition isDecimal (s : string) : bool :=
  Js.truthy s && Js.all Js.isDigit s.

Fixpoint amountFrom (acc : N) (s : string) : N :=
  match s with
  | EmptyString => acc
  | String c s' => amountFrom (10 * acc + (Js.code c - 48)) s'
  end.

Definition decimalValue (s : string) : N := amountFrom 0 s.

(** The calls of a trace, without the HTTP traffic. *)
Definition isCall (e : Event) : bool :=
  match e with EvFetch _ _ => false | _ => true end.

Definition calls (tr : list Event) : list Event := List.filter isCall tr.

Definition isSettleCall (e : Event) : bool :=
  match e with SettleCall => true | _ => false end.

(** The order of scenario 4.1: settle is invoked iff verify returned
    valid, at most once, directly after that verification returned; the
    handler is invoked only directly after settle returned success. *)
Definition paymentOrder (tr : list Event) : Prop :=
  (In SettleCall tr <-> exists v, In (VerifyReturn v) tr /\ isValid v = true)
  /\ (List.length (List.filter isSettleCall tr) <= 1)%nat
  /\ (forall pre post,
         calls tr = (pre ++ SettleCall :: post)%list ->
         exists pre' v,
           pre = (pre' ++ [VerifyReturn v])%list /\ isValid v = true)
  /\ (forall pre post,
         calls tr = (pre ++ HandlerCall :: post)%list ->
         exists pre' s,
           pre = (pre' ++ [SettleReturn s])%list /\ success s = true).

Definition isFetch (e : Event) : Prop := isCall e = false.

(** The traces of one request through the gate. *)
Inductive gateTrace : list Event -> Prop :=
| trace_no_proof : gateTrace []
| trace_invalid (fv : list Event) (v : VerificationResult) :
    Forall isFetch fv -> isValid v = false ->
    gateTrace (VerifyCall :: fv ++ [VerifyReturn v])
| trace_unsettled (fv fs : list Event) (v : VerificationResult)
    (s : SettlementResult) :
    Forall isFetch fv -> Forall isFetch fs ->
    isValid v = true -> success s = false ->
    gateTrace (VerifyCall :: fv ++ VerifyReturn v :: SettleCall
                 :: fs ++ [SettleReturn s])
| trace_settled (fv fs : list Event) (v : VerificationResult)
    (s : SettlementResult) (handled : bool) :
    Forall isFetch fv -> Forall isFetch fs ->
    isValid v = true -> success s = true ->
    gateTrace (VerifyCall :: fv ++ VerifyReturn v :: SettleCall
                 :: fs ++ SettleReturn s
                 :: (if handled then [HandlerCall] else [])).

(** A facilitator call that failed: no response, or a status outside
    200..299. *)
Definition failed (o : FetchOutcome) : Prop :=
  match o with
  | NetworkError _ => True
  | HttpResponse http_status _ => response_ok http_status = false
  end.

(** The transaction a receipt is written for: the settlement succeeded
    and names a transaction that is not the empty string. *)
Definition receiptTransaction (s : SettlementResult)
  : option Js.wstring :=
  if success s then truthyText (transaction s) else None.

End GateSpec.

Module RouteSpec.

Import Route.







End RouteSpec.

Module RouteExamples.

Import Providers Route.

(** Backends that answer "hello". *)
Definition helloData : CompletionData :=
  {| message_content := Some "hello"; usage := None |}.

Definition helloBackends : Backends :=
  {| deepseekKey := "sk-deepseek";
     deepseekPost := fun _ => UpstreamResponse true 200 "OK" "" (Ok helloData);
     openaiKey := "sk-openai";
     openaiPost := fun _ => UpstreamResponse true 200 "OK" "" (Ok helloData);
     anthropicKey := "sk-anthropic";
     anthropicCreate := fun _ =>
       Ok {| text_blocks := ["hello"]; input_tokens := 1%Q;
          output_tokens := 1%Q |} |}.

(** A data store in which every call succeeds. *)
Definition getOrCreateUser (wallet : string) : Result UserRow :=
  Ok {| id := "u1" |}.
Definition getChatById (chatId : string) : Result (option ChatRow) :=
  Ok (Some {| chat_id := chatId; user_id := "u1" |}).
Definition getChatMessages (chatId : string) (limit : Z)
  : Result (list MessageRow) := Ok [].
Definition getChatMessageCount (chatId : string) : Result Q := Ok 0%Q.
Definition extractPdfText (dataUrl : string) : Result string := Ok "".
Definition createChat (userId title : string) (m : AIModel) : Result ChatRow :=
  Ok {| chat_id := "c1"; user_id := userId |}.
Definition addMessage (chatId userId : string) (r : Role) (content : string)
  : Result string := Ok "m1".

(** "hello" carries no markup: sanitising it leaves it as it is. *)
Definition keepText (content : string) : string := content.

Definition handle : option ChatRequest -> Response :=
  handleChatRequest getOrCreateUser getChatById getChatMessages
    getChatMessageCount extractPdfText (AIProvider_chat helloBackends)
    createChat addMessage keepText.

(** An event parser for examples: "bad" does not parse, anything else is
    its own delta. *)
Definition parseDemo (data : string) : ParsedEvent :=
  if String.eqb data "bad" then Malformed else Delta (Some data).



Definition hiWith (attachments : list RawEntry) : ChatRequest :=
  {| message := Some "hi";
     walletAddress := Some "wallet";
     chatId := None;
     req_model := Some "deepseek";
     req_temperature := None;
     req_maxTokens := None;
     files := Some attachments |}.


End RouteExamples.

(** ** Concrete collaborators and requests *)

Module Examples.

Import X402.

Definition clock : string := "2025-01-01T00:00:00.000Z".

Definition samplePayment : PaymentPayload :=
  {| x402Version := 1; p_scheme := "exact"; p_network := "solana-devnet";
     signature := "sig";
     authorization :=
       {| from := "payer"; to := "treasury"; value := "30000";
          validAfter := "0"; validBefore := "9999999999"; nonce := "n1" |} |}.

Definition decodeAny (header : string) : option PaymentPayload :=
  Some samplePayment.

(** A facilitator that cannot be reached. *)
Definition offline (url : string) (p : PaymentPayload)
  (r : PaymentRequirements) : FetchOutcome :=
  NetworkError "fetch failed".

(** A facilitator that accepts and settles every payment. *)
Definition accepting (url : string) (p : PaymentPayload)
  (r : PaymentRequirements) : FetchOutcome :=
  HttpResponse 200
    (Some {| f_isValid := Some true; f_success := Some true;
             f_error := None; f_invalidReason := None; f_payer := None;
             f_transaction := Some (Js.codes "abc123");
             f_amount := Some (Js.codes "100000");
             f_networkId := None |}).

(** A handler that answers 200 with an empty JSON object. *)
Definition okHandler (req : Request) (ctx : X402PaymentContext)
  : Result Response :=
  Ok {| status := 200; statusText := "";
        headers := Headers_of [("Content-Type", "application/json")];
        body := Some "{}" |}.

(** A POST without an [X-PAYMENT] header that names a model. *)
Definition post (model : string) : Request :=
  {| method := "POST"; req_headers := ∅; body_model := Some model |}.

(** The same with a payment header. *)
Definition paidPost (model : string) : Request :=
  {| method := "POST";
     req_headers := Headers_of [("X-PAYMENT", "e30=")];
     body_model := Some model |}.

Definition preflight : Request :=
  {| method := "OPTIONS"; req_headers := ∅; body_model := None |}.

(** The configuration of an empty environment. *)
Definition devConfig : Config :=
  {| c_network := solana_devnet;
     treasuryWallet := "11111111111111111111111111111111";
     baseUrl := "http://localhost:3000";
     facilitatorUrl := "https://facilitator.payai.network";
     facilitatorFeePayer := "11111111111111111111111111111111";
     usdcMint := USDC_MINT_ADDRESSES solana_devnet |}.

Definition production : gmap string string := {[ "NODE_ENV" := "production" ]}.

Definition visionOverride : gmap string string :=
  {[ "PRICE_DEEPSEEK_VISION" := "50000" ]}.

(** What the gate asks for "deepseek" with the vision flag under
    [visionOverride]. *)
Definition visionRequirements : PaymentRequirements :=
  {| scheme := "exact";
     network := solana_devnet;
     maxAmountRequired := "50000";
     resource := "http://localhost:3000/api/chat";
     description := "AI Chat - Deepseek Chat (Vision)";
     mimeType := "application/json";
     payTo := "11111111111111111111111111111111";
     maxTimeoutSeconds := 300;
     asset := USDC_MINT_ADDRESSES solana_devnet;
     extra_feePayer := Some "11111111111111111111111111111111" |}.

Definition emptyResponse : Response :=
  {| status := 200; statusText := "OK"; headers := ∅; body := Some "{}" |}.

End Examples.

(** ** Vocabulary for the further properties *)

Module Sse.

Import Providers.

(** The chunk that carries the delta [d]. *)
Definition delta (d : string) : StreamChunk :=
  {| text := d; isComplete := false |}.

(** An event line that carries the delta [d]: [data: ] and a payload that
    parses to the non-empty content [d]. *)
Definition deltaEvent (parseEvent : string -> ParsedEvent)
  (line d : string) : Prop :=
  exists payload,
    line = "data: " ++ payload
    /\ Spec.isLine payload
    /\ Js.trim payload <> "[DONE]"
    /\ parseEvent (Js.trim payload) = Delta (Some d)
    /\ d <> "".

(** A line the loop passes over: it does not start with [data: ], or its
    payload parses to an event without content or with empty content. *)
Definition silent (parseEvent : string -> ParsedEvent) (line : string)
  : Prop :=
  Js.stripPrefix "data: " line = None
  \/ exists payload,
       line = "data: " ++ payload
       /\ Js.trim payload <> "[DONE]"
       /\ (parseEvent (Js.trim payload) = Delta None
           \/ parseEvent (Js.trim payload) = Delta (Some "")).

(** A chunk that is not the last and carries text. *)
Definition carriesText (c : StreamChunk) : Prop :=
  isComplete c = false /\ text c <> "".

End Sse.

Module Adapters.

Import Providers.

(** The key of the adapter a model is routed to. *)
Definition backendKey (b : Backends) (m : AIModel) : string :=
  match m with
  | deepseek => deepseekKey b
  | gpt5 => openaiKey b
  | claude_sonnet_4_5 => anthropicKey b
  end.

(** The role of a message is not [system]. *)
Definition notSystem (r : Role) : Prop := r <> system.

(** The messages of a configuration that are not system messages. *)
Definition conversation (config : AIProviderConfig) : list ChatMessage :=
  List.filter (fun m => negb (isSystem m)) (messages config).

End Adapters.

Module GateRuns.

Import X402.

(** What [verifyPayment] makes of a facilitator's answer. *)
Definition verificationOf (j : FacilitatorJson) : VerificationResult :=
  {| isValid := toBoolean (f_isValid j);
     v_error := f_error j;
     invalidReason := f_invalidReason j;
     payer := f_payer j |}.

(** What [settlePayment] makes of a facilitator's answer. *)
Definition settlementOf (j : FacilitatorJson) : SettlementResult :=
  {| success := toBoolean (f_success j);
     transaction := f_transaction j;
     amount := f_amount j;
     s_error := f_error j;
     networkId := f_networkId j |}.

(** The HTTP traffic of a trace. *)
Definition fetches (tr : list Event) : list Event :=
  List.filter (fun e => negb (GateSpec.isCall e)) tr.

(** The 402 answer with the reason [error] and the requirements [reqs]. *)
Definition paymentRequired (error : string) (reqs : PaymentRequirements)
  : Response :=
  {| status := 402;
     statusText := "";
     headers :=
       Headers_of (("Content-Type", "application/json") :: corsHeaders);
     body := Some (Js.stringify (body402 error reqs)) |}.

(** The request with its [X-PAYMENT] header removed. *)
Definition withoutPayment (req : Request) : Request :=
  {| method := method req;
     req_headers := delete "x-payment" (req_headers req);
     body_model := body_model req |}.

End GateRuns.

Module GateExamples.

Import X402.



Definition verified : FacilitatorJson :=
  {| f_isValid := Some true; f_success := None; f_error := None;
     f_invalidReason := None; f_payer := Some "payer";
     f_transaction := None; f_amount := None; f_networkId := None |}.


Definition settled : FacilitatorJson :=
  {| f_isValid := None; f_success := Some true; f_error := None;
     f_invalidReason := None; f_payer := None;
     f_transaction := Some (Js.codes "abc123");
     f_amount := Some (Js.codes "30000");
     f_networkId := Some "solana-devnet" |}.

(** A facilitator that verifies every payment and answers [onSettle] to
    a settlement. *)
Definition verifying (onSettle : FacilitatorJson) (url : string)
  (p : PaymentPayload) (r : PaymentRequirements) : FetchOutcome :=
  if String.eqb url "https://facilitator.payai.network/verify"
  then HttpResponse 200 (Some verified)
  else HttpResponse 200 (Some onSettle).




(** A header that does not decode. *)
Definition decodeNothing (header : string) : option PaymentPayload := None.

(** A handler that throws. *)
Definition failingHandler (req : Request) (ctx : X402PaymentContext)
  : Result Response :=
  Throw "provider down".

(** A handler that answers with the amount it was handed. *)
Definition echoHandler (req : Request) (ctx : X402PaymentContext)
  : Result Response :=
  Ok {| status := 200; statusText := "OK"; headers := ∅;
        body := paymentAmount ctx |}.

(** What [echoHandler] answers when it is handed the price 30000. *)
Definition echoed : Response :=
  {| status := 200; statusText := "OK"; headers := ∅;
     body := Some "30000" |}.

(** What the gate asks for "deepseek" in an empty environment. *)
Definition deepseekRequirements : PaymentRequirements :=
  {| scheme := "exact";
     network := solana_devnet;
     maxAmountRequired := "30000";
     resource := "http://localhost:3000/api/chat";
     description := "AI Chat - Deepseek Chat ";
     mimeType := "application/json";
     payTo := "11111111111111111111111111111111";
     maxTimeoutSeconds := 300;
     asset := USDC_MINT_ADDRESSES solana_devnet;
     extra_feePayer := Some "11111111111111111111111111111111" |}.

(** A POST with an empty [X-PAYMENT] header. *)
Definition emptyProof : Request :=
  {| method := "POST";
     req_headers := Headers_of [("X-PAYMENT", "")];
     body_model := Some "deepseek" |}.

End GateExamples.

Module RouteFacts.

Import Providers Route.

(** The characters of a text that are not white space, in their order. *)
Definition ink (s : string) : string := removeAll Js.isSpace s.

(** A text of white space only. *)
Definition blank (s : string) : bool := Js.all Js.isSpace s.

Definition notCarriageReturn (c : ascii) : bool :=
  negb (Js.code c =? 13)%N.

(** White space in a title is the space character. *)
Definition titleChar (c : ascii) : bool :=
  negb (Js.isSpace c) || Ascii.eqb c " ".

(** The first [k] characters of [s] are white space. *)
Fixpoint prefixSpaces (k : nat) (s : string) : Prop :=
  match k with
  | O => True
  | S k' =>
      match s with
      | EmptyString => False
      | String c s' => Js.isSpace c = true /\ prefixSpaces k' s'
      end
  end.

(** What [normalizeAttachments] promises of an attachment it returns. *)
Definition wellFormed (a : NormalizedAttachment) : Prop :=
  fileName a <> ""
  /\ Js.trim (fileName a) = fileName a
  /\ (0 < size a)%Q
  /\ (size a <= MAX_ATTACHMENT_BYTES)%Q
  /\ mimeType a <> ""
  /\ isValidDataUrl (dataUrl a) = true.

(** A request that passes the checks made before the data store is
    touched: a wallet, a model of the list, and a message that is not empty
    after sanitising or an attachment that is kept. *)
Definition admitted (body : ChatRequest) (m : AIModel) : Prop :=
  orEmpty (walletAddress body) <> ""
  /\ validModel (default DEFAULT_MODEL (req_model body)) = Some m
  /\ (sanitizeUserMessage (orEmpty (message body)) <> ""
      \/ normalizeAttachments (files body) <> []).

(** The content of a message is a plain string. *)
Definition plainContent (m : ChatMessage) : Prop :=
  exists s, content m = Plain s.

(** The statuses the chat handler answers with. *)
Definition handlerStatuses : list Z := [200; 400; 404; 422; 500]%Z.

(** A number within [lo..hi], or NaN. *)
Definition withinOrNaN (lo hi : Q) (x : option Js.number) : Prop :=
  x = Some Js.NaN
  \/ exists q, x = Some (Js.Finite q) /\ (lo <= q)%Q /\ (q <= hi)%Q.

(** What the handler passes to the provider: the fixed system prompt, a
    temperature within 0..2 or NaN, a token limit within 256..2048 or NaN,
    messages that end with the user's message, and plain strings only for
    the model without vision. *)
Definition routed (cfg : AIProviderConfig) : Prop :=
  systemPrompt cfg = Some SYSTEM_PROMPT
  /\ withinOrNaN 0 2 (temperature cfg)
  /\ withinOrNaN 256 2048 (maxTokens cfg)
  /\ (exists earlier c,
         messages cfg
         = (earlier ++ [{| role := user; content := c |}])%list)
  /\ (model cfg = deepseek -> Forall plainContent (messages cfg)).

(** A chat the caller may not continue: it cannot be read, it does not
    exist, or it belongs to another user. *)
Definition notOwned (found : Result (option ChatRow)) (userId : string)
  : Prop :=
  match found with
  | Ok (Some chat) => user_id chat <> userId
  | Ok None => True
  | Throw _ => True
  end.

End RouteFacts.

Module RouteRuns.

Import Providers Route.

(** A data store that holds the chat "c9" of the user "u2", and 80
    messages in every chat. *)
Definition foreignChat (chatId : string) : Result (option ChatRow) :=
  Ok (Some {| chat_id := chatId; user_id := "u2" |}).

Definition fullChat (chatId : string) : Result Q := Ok 80%Q.

(** A provider that is down. *)
Definition down (config : AIProviderConfig) : Result AIResponse :=
  Throw "upstream unavailable".

(** A provider that answers only when it is handed a system prompt. *)
Definition prompted (config : AIProviderConfig) : Result AIResponse :=
  match systemPrompt config with
  | Some _ => AIProvider_chat RouteExamples.helloBackends config
  | None => Throw "no system prompt"
  end.

Definition continuing (chat : string) : ChatRequest :=
  {| message := Some "hi";
     walletAddress := Some "wallet";
     chatId := Some chat;
     req_model := Some "deepseek";
     req_temperature := None;
     req_maxTokens := None;
     files := None |}.


(** Five small images. *)
Definition image (name : string) : RawEntry :=
  Entry (Some name) (Some "image/png") (Some 1024%Q)
        (Some "data:image/png;base64,AAAA").

End RouteRuns.

Module SseExamples.

(** Two events, cut in the middle of the second line. *)
Definition cut : list string :=
  ["data: a" ++ Js.newline ++ "da"; "ta: b" ++ Js.newline].

(** The same bytes in one read. *)
Definition whole : list string :=
  ["data: a" ++ Js.newline ++ "data: b" ++ Js.newline].

(** A second event that lacks its line feed. *)
Definition unfinished : list string :=
  ["data: a" ++ Js.newline ++ "data: b"].

(** A comment line between two events. *)
Definition commented : list string :=
  ["data: a" ++ Js.newline ++ ": keep-alive" ++ Js.newline
     ++ "data: b" ++ Js.newline].

End SseExamples.

Module ConfigExamples.

Import X402.

(** Mainnet, with a treasury and no fee payer of its own. *)
Definition mainnet : gmap string string :=
  {[ "NEXT_PUBLIC_NETWORK" := "solana";
     "TREASURY_WALLET_ADDRESS" := "treasury" ]}.

Definition mainnetConfig : Config :=
  {| c_network := solana;
     treasuryWallet := "treasury";
     baseUrl := "http://localhost:3000";
     facilitatorUrl := "https://facilitator.payai.network";
     facilitatorFeePayer := "treasury";
     usdcMint := USDC_MINT_ADDRESSES solana |}.

(** A settlement that names a transaction. *)
Definition receipt : SettlementResult :=
  {| success := true; transaction := Some (Js.codes "abc123");
     amount := Some (Js.codes "30000"); s_error := None;
     networkId := None |}.

End ConfigExamples.

Module AdapterExamples.

Import Providers.

Definition hello : AIProviderConfig :=
  {| model := deepseek;
     messages := [{| role := user; content := Plain "hi" |}];
     temperature := None;
     maxTokens := None;
     systemPrompt := None |}.

End AdapterExamples.

(** * Properties *)

(** ** Strings *)

Lemma string_app_nil_r (s : string) : s ++ "" = s.
Proof. induction s as [|c s IH]; simpl; [reflexivity | f_equal; exact IH]. Qed.

Lemma string_app_assoc (a b c : string) : (a ++ b) ++ c = a ++ (b ++ c).
Proof. induction a as [|x a IH]; simpl; [reflexivity | f_equal; exact IH]. Qed.

Lemma stripPrefix_app (p r : string) : Js.stripPrefix p (p ++ r) = Some r.
Proof.
  induction p as [|a p IH]; simpl; [now destruct r |].
  now rewrite Ascii.eqb_refl.
Qed.

Lemma stripPrefix_inv (p s r : string) :
  Js.stripPrefix p s = Some r -> s = p ++ r.
Proof.
  revert s; induction p as [|a p IH]; intros s H.
  - destruct s; simpl in H; now inversion H.
  - destruct s as [|b s]; simpl in H; [discriminate |].
    destruct (Ascii.eqb a b) eqn:E; [| discriminate].
    apply Ascii.eqb_eq in E; subst b. simpl. f_equal. now apply IH.
Qed.

Lemma span_inv (p : ascii -> bool) (s a b : string) :
  Js.span p s = (a, b) -> s = a ++ b /\ Js.all p a = true.
Proof.
  revert a b; induction s as [|c s IH]; intros a b H; simpl in H.
  - inversion H; subst; now split.
  - destruct (p c) eqn:Pc.
    + destruct (Js.span p s) as [a' b'] eqn:E. inversion H; subst.
      destruct (IH a' b eq_refl) as [-> Ha]. simpl. now rewrite Pc, Ha.
    + inversion H; subst; now split.
Qed.

(** A greedy class stops exactly where the class stops. *)
Lemma span_app (p : ascii -> bool) (a b : string) :
  Js.all p a = true ->
  match b with EmptyString => True | String c _ => p c = false end ->
  Js.span p (a ++ b) = (a, b).
Proof.
  intros Ha Hb. induction a as [|c a IH]; simpl in *.
  - destruct b as [|c b]; simpl; [reflexivity | now rewrite Hb].
  - apply andb_prop in Ha as [Pc Ha]. now rewrite Pc, (IH Ha).
Qed.

(** ** Message conversion *)

Section Conversion.

Import Providers.

Lemma matchImageDataUrl_complete (subtype data : string) :
  Spec.wellFormedParts subtype data ->
  matchImageDataUrl (Spec.imageDataUrl subtype data)
  = Some ("image/" ++ subtype, data).
Proof.
  intros (Hs & Hw & Hd & Hl). unfold matchImageDataUrl, Spec.imageDataUrl.
  rewrite stripPrefix_app.
  rewrite (span_app Js.isWord subtype (";base64," ++ data));
    [| exact Hw | reflexivity].
  unfold Js.truthy in Hs. destruct (Js.isEmpty subtype); [discriminate |].
  rewrite stripPrefix_app, Hd, Hl. reflexivity.
Qed.

Lemma matchImageDataUrl_sound (url mt data : string) :
  matchImageDataUrl url = Some (mt, data) ->
  exists subtype,
    mt = "image/" ++ subtype /\ url = Spec.imageDataUrl subtype data /\
    Spec.wellFormedParts subtype data.
Proof.
  unfold matchImageDataUrl. intros H.
  destruct (Js.stripPrefix "data:image/" url) as [rest|] eqn:E1;
    [| discriminate].
  destruct (Js.span Js.isWord rest) as [subtype rest'] eqn:E2.
  destruct (Js.isEmpty subtype) eqn:E3; [discriminate |].
  destruct (Js.stripPrefix ";base64," rest') as [d|] eqn:E4; [| discriminate].
  destruct (Js.truthy d) eqn:E5; simpl in H; [| discriminate].
  destruct (Js.all _ d) eqn:E6; [| discriminate].
  inversion H; subst mt d. exists subtype.
  apply stripPrefix_inv in E1, E4. apply span_inv in E2 as [E2 Hw].
  subst url rest rest'. repeat split; try assumption.
  unfold Js.truthy. now rewrite E3.
Qed.

Lemma toAnthropicBlock_typed (item : ContentPart) :
  Spec.typedBlock item (toAnthropicBlock item).
Proof.
  destruct item as [t | url detail]; unfold toAnthropicBlock;
    [constructor |].
  destruct (matchImageDataUrl url) as [[mt data]|] eqn:M.
  - apply matchImageDataUrl_sound in M as (subtype & -> & -> & Hwf).
    replace (Js.stripPrefix "data:" (Spec.imageDataUrl subtype data))
      with (Some ("image/" ++ subtype ++ ";base64," ++ data))
      by reflexivity.
    now constructor.
  - assert (Hno : forall subtype data,
               Spec.wellFormedParts subtype data ->
               url <> Spec.imageDataUrl subtype data).
    { intros subtype data Hwf ->.
      rewrite (matchImageDataUrl_complete _ _ Hwf) in M. discriminate. }
    destruct (Js.stripPrefix "data:" url); now constructor.
Qed.

(** C6.  Array content converted for the typed-block provider: one block
    per part, in order; a text part becomes a text block, an image part
    whose URL has the form [data:image/<word>;base64,<data>] becomes a
    base64 image block with that media type and data, every other image
    part a URL image block.  The array of scenario D yields the text
    block "hi" and the base64 image block "image/png", "AAAA". *)
Theorem toAnthropicMessage_typed_blocks :
  (forall (r : Role) (items : list ContentPart),
      exists blocks,
        toAnthropicMessage {| role := r; content := Parts items |}
        = {| a_role := r; a_content := ABlocks blocks |}
        /\ Forall2 Spec.typedBlock items blocks)
  /\ toAnthropicMessage {| role := user; content := Parts Spec.scenarioParts |}
     = {| a_role := user;
          a_content :=
            ABlocks [TextBlock "hi";
                     ImageBlock (Base64Source "image/png" "AAAA")] |}.
Proof.
  split; [| reflexivity].
  intros r items. exists (map toAnthropicBlock items). split; [reflexivity |].
  induction items as [|item items IH]; simpl; constructor;
    [apply toAnthropicBlock_typed | exact IH].
Qed.

Lemma orElse_nonempty (a b : string) : b <> "" -> Js.orElse a b <> "".
Proof.
  unfold Js.orElse, Js.truthy. destruct a; simpl; [tauto | discriminate].
Qed.

Lemma textParts_only_images (items : list ContentPart) :
  forallb Spec.isImagePart items = true -> textParts items = [].
Proof.
  unfold textParts. induction items as [|[t|url d] items IH]; simpl;
    [reflexivity | discriminate |].
  intros H. rewrite filter_cons. simpl.
  destruct (decide (false = true)); [discriminate | now apply IH].
Qed.

Lemma join_empty (sep : string) (parts : list string) :
  sep <> "" ->
  Js.isEmpty (Js.join sep parts)
  = match parts with
    | [] => true
    | [text] => Js.isEmpty text
    | _ :: _ :: _ => false
    end.
Proof.
  intros Hsep. destruct parts as [|p [|q rest]]; [reflexivity | reflexivity |].
  cbn [Js.join]. destruct p as [|c p]; [| reflexivity].
  destruct sep; [congruence | reflexivity].
Qed.

(** C5, as the code has it.  Array content converted for the text-only
    provider is the text parts joined by a line feed, and the fixed
    marker replaces it exactly when that joined text is empty; the result
    is never empty; for content of image parts only it is the marker; for
    the array of scenario E it is "hi".  The joined text is empty exactly
    when the array has no text part, or has one text part and its text is
    empty; two empty text parts give a line feed, not the marker. *)
Theorem toTextOnlyMessage_parts :
  (forall (r : Role) (items : list ContentPart),
      let joined := Js.join Js.newline (textParts items) in
      toTextOnlyMessage {| role := r; content := Parts items |}
      = {| t_role := r;
           t_content := if Js.isEmpty joined then IMAGES_UNSUPPORTED
                        else joined |}
      /\ t_content (toTextOnlyMessage {| role := r; content := Parts items |})
         <> "")
  /\ (forall (r : Role) (items : list ContentPart),
         forallb Spec.isImagePart items = true ->
         t_content (toTextOnlyMessage {| role := r; content := Parts items |})
         = IMAGES_UNSUPPORTED)
  /\ t_content
       (toTextOnlyMessage {| role := user; content := Parts Spec.scenarioParts |})
     = "hi"
  /\ (forall (r : Role) (items : list ContentPart),
         Js.isEmpty (Js.join Js.newline (textParts items))
         = Spec.withoutText items
         /\ toTextOnlyMessage {| role := r; content := Parts items |}
            = {| t_role := r;
                 t_content :=
                   if Spec.withoutText items then IMAGES_UNSUPPORTED
                   else Js.join Js.newline (textParts items) |})
  /\ t_content
       (toTextOnlyMessage
          {| role := user;
             content := Parts [TextContent ""; TextContent ""] |})
     = Js.newline.
Proof.
  split; [| split; [| split; [reflexivity | split; [| reflexivity]]]].
  - intros r items joined. split.
    + unfold toTextOnlyMessage, Js.orElse, Js.truthy; simpl. fold joined.
      now destruct (Js.isEmpty joined).
    + unfold toTextOnlyMessage; simpl. apply orElse_nonempty. discriminate.
  - intros r items H. unfold toTextOnlyMessage; simpl.
    now rewrite (textParts_only_images _ H).
  - intros r items.
    assert (E : Js.isEmpty (Js.join Js.newline (textParts items))
                = Spec.withoutText items)
      by (apply join_empty; discriminate).
    split; [exact E |].
    unfold toTextOnlyMessage, Js.orElse, Js.truthy; simpl.
    rewrite <- E. now destruct (Js.isEmpty _).
Qed.

(** C5 as stated fails: an array holding one empty text part has a text
    part and no image part, and is converted to the marker. *)
Lemma toTextOnlyMessage_marker_counterexample :
  ~ (forall (r : Role) (items : list ContentPart),
        t_content (toTextOnlyMessage {| role := r; content := Parts items |})
        = Spec.textOnlyContent items).
Proof.
  intros H. specialize (H user [TextContent ""]).
  vm_compute in H. discriminate.
Qed.

End Conversion.

(** ** Sampling parameters *)

Section Sampling.

Import Providers.

Lemma resolveTemperature_range (t : Q) :
  (0 <= Route.resolveTemperature t /\ Route.resolveTemperature t <= 2)%Q.
Proof.
  unfold Route.resolveTemperature. split.
  - apply Q.min_glb; [apply Q.le_max_r | discriminate].
  - apply Q.le_min_r.
Qed.

Lemma resolveMaxTokens_range (n : Q) :
  (256 <= Route.resolveMaxTokens n /\ Route.resolveMaxTokens n <= 2048)%Q.
Proof.
  unfold Route.resolveMaxTokens. split.
  - apply Q.min_glb; [apply Q.le_max_r | discriminate].
  - apply Q.le_min_r.
Qed.

(** A number other than zero goes through [x || d] unchanged. *)
Lemma orNumber_nonzero (q d : Q) :
  ~ (q == 0)%Q -> orNumber (Some (Js.Finite q)) d = q.
Proof.
  intros H. unfold orNumber. destruct (Qeq_bool q 0) eqn:E; [| reflexivity].
  apply Qeq_bool_iff in E. contradiction.
Qed.

(** The token limit reaches every backend as the route resolved it. *)
Lemma maxTokens_passed_through
  (m : AIModel) (msgs : list ChatMessage) (t n : Q) (stream : bool) :
  let config := Route.providerConfig m msgs t (Route.resolveMaxTokens n) in
  cr_max_tokens (DeepseekProvider_request stream config)
  = Route.resolveMaxTokens n
  /\ cr_max_tokens (GPT5Provider_request stream config)
     = Route.resolveMaxTokens n
  /\ cl_max_tokens (ClaudeProvider_request config) = Route.resolveMaxTokens n.
Proof.
  assert (H : ~ (Route.resolveMaxTokens n == 0)%Q).
  { intros E. destruct (resolveMaxTokens_range n) as [L _].
    rewrite E in L. now apply L. }
  cbv zeta.
  unfold DeepseekProvider_request, GPT5Provider_request,
    ClaudeProvider_request, Route.providerConfig.
  cbn [cr_max_tokens cl_max_tokens maxTokens].
  now rewrite !(orNumber_nonzero _ _ H).
Qed.

(** A temperature other than zero reaches every backend unchanged. *)
Lemma temperature_passed_through_nonzero
  (m : AIModel) (msgs : list ChatMessage) (t n : Q) (stream : bool) :
  ~ (Route.resolveTemperature t == 0)%Q ->
  let config := Route.providerConfig m msgs (Route.resolveTemperature t) n in
  cr_temperature (DeepseekProvider_request stream config)
  = Route.resolveTemperature t
  /\ cr_temperature (GPT5Provider_request stream config)
     = Route.resolveTemperature t
  /\ cl_temperature (ClaudeProvider_request config)
     = Route.resolveTemperature t.
Proof.
  intros H. cbv zeta.
  unfold DeepseekProvider_request, GPT5Provider_request,
    ClaudeProvider_request, Route.providerConfig.
  cbn [cr_temperature cl_temperature temperature].
  now rewrite !(orNumber_nonzero _ _ H).
Qed.

(** C7 at the failing input.  A request with [temperature: 0] keeps 0
    through the route's clamp, and every adapter then sends 0.7 to its
    backend: [config.temperature || 0.7] takes the clamped 0 for a missing
    value.  The token limit 256 is passed through. *)
Theorem temperature_zero_replaced_by_default
  (m : AIModel) (msgs : list ChatMessage) :
  let config :=
    Route.providerConfig m msgs (Route.resolveTemperature 0)
                         (Route.resolveMaxTokens 256) in
  (Route.resolveTemperature 0 == 0)%Q
  /\ (cr_temperature (DeepseekProvider_request false config) == 7 # 10)%Q
  /\ (cr_temperature (GPT5Provider_request false config) == 7 # 10)%Q
  /\ (cl_temperature (ClaudeProvider_request config) == 7 # 10)%Q
  /\ ~ (cr_temperature (DeepseekProvider_request false config)
        == Route.resolveTemperature 0)%Q
  /\ (cr_max_tokens (DeepseekProvider_request false config) == 256)%Q.
Proof.
  repeat split; try reflexivity. intros H. vm_compute in H. discriminate.
Qed.

End Sampling.

(** ** Streaming *)

Section SSE.

Import Providers.

Variable parseEvent : string -> ParsedEvent.

Lemma split_nonempty (sep : ascii) (s : string) : Js.split sep s <> [].
Proof.
  destruct s as [|c s]; simpl; [discriminate |].
  destruct (Ascii.eqb c sep); [discriminate |].
  destruct (Js.split sep s); discriminate.
Qed.

Lemma removelast_cons {A} (x : A) (l : list A) :
  l <> [] -> removelast (x :: l) = x :: removelast l.
Proof. destruct l; [congruence | reflexivity]. Qed.

Lemma last_cons {A} (x d : A) (l : list A) :
  l <> [] -> List.last (x :: l) d = List.last l d.
Proof. destruct l; [congruence | reflexivity]. Qed.

(** Splitting a text received in two pieces: the last, unfinished line of
    the first piece is continued by the second. *)
Lemma split_app (sep : ascii) (a b : string) :
  Js.split sep (a ++ b)
  = (removelast (Js.split sep a)
     ++ Js.split sep (List.last (Js.split sep a) "" ++ b))%list.
Proof.
  induction a as [|c a IH]; [reflexivity |].
  pose proof (split_nonempty sep a) as Ha.
  simpl. destruct (Ascii.eqb c sep) eqn:E.
  - rewrite IH, removelast_cons, last_cons by exact Ha. reflexivity.
  - rewrite IH. destruct (Js.split sep a) as [|x [|y t]]; [congruence | |].
    + simpl. rewrite E. reflexivity.
    + reflexivity.
Qed.

Lemma split_line (l : string) :
  Spec.isLine l -> Js.split Js.LF l = [l].
Proof.
  unfold Spec.isLine. induction l as [|c l IH]; [reflexivity |].
  simpl. intros H. apply andb_prop in H as [Hc Hl].
  apply negb_true_iff in Hc. rewrite Hc, (IH Hl). reflexivity.
Qed.

Lemma split_terminated (l rest : string) :
  Spec.isLine l ->
  Js.split Js.LF (l ++ Js.newline ++ rest) = l :: Js.split Js.LF rest.
Proof.
  unfold Spec.isLine. induction l as [|c l IH]; [reflexivity |].
  simpl in IH |- *. intros H. apply andb_prop in H as [Hc Hl].
  apply negb_true_iff in Hc. rewrite Hc, (IH Hl). reflexivity.
Qed.

Lemma split_unlines (ls : list string) (rest : string) :
  Forall Spec.isLine ls ->
  Js.split Js.LF (Spec.unlines ls ++ rest)
  = (ls ++ Js.split Js.LF rest)%list.
Proof.
  induction 1 as [|l ls Hl _ IH]; [reflexivity |].
  cbn [Spec.unlines]. rewrite !string_app_assoc.
  rewrite (split_terminated l _ Hl), IH. reflexivity.
Qed.

Lemma split_all_lines (s : string) : Forall Spec.isLine (Js.split Js.LF s).
Proof.
  induction s as [|c s IH]; simpl; [repeat constructor |].
  destruct (Ascii.eqb c Js.LF) eqn:E; [constructor; [reflexivity | exact IH] |].
  pose proof (split_nonempty Js.LF s) as Hne.
  destruct (Js.split Js.LF s) as [|l ls]; [congruence |].
  inversion IH as [|? ? Hl Hls]; subst. constructor; [| exact Hls].
  unfold Spec.isLine in *. simpl. now rewrite E.
Qed.

Lemma last_is_line (s : string) :
  Spec.isLine (List.last (Js.split Js.LF s) "").
Proof.
  pose proof (split_all_lines s) as H.
  induction H as [|l ls Hl Hls IH]; [reflexivity |].
  destruct ls; [exact Hl | exact IH].
Qed.

Lemma processLines_cons (line : string) (rest : list string) :
  processLines parseEvent (line :: rest)
  = match Js.stripPrefix "data: " line with
    | Some payload =>
        if String.eqb (Js.trim payload) "[DONE]" then ([terminator], true)
        else match parseEvent (Js.trim payload) with
             | Delta (Some delta) =>
                 if Js.truthy delta then
                   let '(chunks, returned) := processLines parseEvent rest in
                   ({| text := delta; isComplete := false |} :: chunks,
                    returned)
                 else processLines parseEvent rest
             | Delta None => processLines parseEvent rest
             | Malformed => processLines parseEvent rest
             end
    | None => processLines parseEvent rest
    end.
Proof. reflexivity. Qed.

Lemma processLines_app (l1 l2 : list string) :
  processLines parseEvent (l1 ++ l2)
  = let '(c1, r1) := processLines parseEvent l1 in
    if r1 then (c1, true)
    else let '(c2, r2) := processLines parseEvent l2 in
         ((c1 ++ c2)%list, r2).
Proof.
  induction l1 as [|line l1 IH].
  - cbn [app processLines]. now destruct (processLines parseEvent l2).
  - rewrite <- app_comm_cons, !processLines_cons.
    destruct (Js.stripPrefix "data: " line) as [payload|]; [| exact IH].
    destruct (String.eqb (Js.trim payload) "[DONE]"); [reflexivity |].
    destruct (parseEvent (Js.trim payload)) as [|[delta|]]; try exact IH.
    destruct (Js.truthy delta); [| exact IH].
    rewrite IH. destruct (processLines parseEvent l1) as [c1 [|]];
      [reflexivity |].
    now destruct (processLines parseEvent l2).
Qed.

(** The adapter's loop yields what the stream yields in one piece, however
    the reader cuts it. *)
Lemma readLoop_chunksOf (buffer : string) (reads : list string) :
  Spec.isLine buffer ->
  readLoop parseEvent buffer reads
  = Spec.chunksOf parseEvent (buffer ++ Spec.received reads).
Proof.
  revert buffer; induction reads as [|value rest IH]; intros buffer Hb.
  - cbn [readLoop Spec.received]. rewrite string_app_nil_r.
    unfold Spec.chunksOf. now rewrite (split_line buffer Hb).
  - cbn [readLoop Spec.received]. rewrite <- string_app_assoc.
    set (text := buffer ++ value).
    unfold Spec.chunksOf at 1.
    rewrite (split_app Js.LF text (Spec.received rest)).
    rewrite removelast_app by apply split_nonempty.
    rewrite processLines_app.
    replace (Js.orElse (List.last (Js.split Js.LF text) "") "")
      with (List.last (Js.split Js.LF text) "")
      by (unfold Js.orElse, Js.truthy;
          now destruct (List.last (Js.split Js.LF text) "")).
    rewrite (IH _ (last_is_line text)). unfold Spec.chunksOf.
    destruct (processLines parseEvent (removelast (Js.split Js.LF text)))
      as [c1 [|]]; [reflexivity |].
    destruct (processLines parseEvent _) as [c2 [|]];
      [reflexivity | now rewrite <- app_assoc].
Qed.

Lemma processLines_shape (lines : list string) :
  exists pre,
    Forall Spec.incomplete pre
    /\ processLines parseEvent lines
       = let returned := snd (processLines parseEvent lines) in
         (if returned then (pre ++ [terminator])%list else pre, returned).
Proof.
  induction lines as [|line lines (pre & Hpre & IH)].
  - exists []. split; [constructor | reflexivity].
  - rewrite processLines_cons.
    destruct (Js.stripPrefix "data: " line) as [payload|];
      [| exists pre; now split].
    destruct (String.eqb (Js.trim payload) "[DONE]");
      [exists []; split; [constructor | reflexivity] |].
    destruct (parseEvent (Js.trim payload)) as [|[delta|]];
      try (exists pre; now split).
    destruct (Js.truthy delta); [| exists pre; now split].
    exists ({| text := delta; isComplete := false |} :: pre).
    split; [constructor; [reflexivity | exact Hpre] |].
    rewrite IH. cbn [snd]. now destruct (snd (processLines parseEvent lines)).
Qed.

Lemma chunksOf_terminated (stream : string) :
  exists chunks,
    Spec.chunksOf parseEvent stream = (chunks ++ [terminator])%list
    /\ Forall Spec.incomplete chunks.
Proof.
  unfold Spec.chunksOf.
  destruct (processLines_shape (removelast (Js.split Js.LF stream)))
    as (pre & Hpre & E).
  rewrite E. exists pre. split; [| exact Hpre].
  now destruct (snd (processLines parseEvent _)).
Qed.

Lemma chunksOf_unlines (ls : list string) (rest : string) :
  Forall Spec.isLine ls ->
  Spec.chunksOf parseEvent (Spec.unlines ls ++ rest)
  = let '(chunks, returned) :=
      processLines parseEvent (ls ++ removelast (Js.split Js.LF rest)) in
    if returned then chunks else (chunks ++ [terminator])%list.
Proof.
  intros Hls. unfold Spec.chunksOf.
  rewrite (split_unlines ls rest Hls).
  now rewrite removelast_app by apply split_nonempty.
Qed.

Lemma chunksOf_done (ls : list string) (after : string) :
  Forall Spec.isLine ls ->
  Spec.chunksOf parseEvent
    (Spec.unlines ls ++ "data: [DONE]" ++ Js.newline ++ after)
  = Spec.chunksOf parseEvent (Spec.unlines ls).
Proof.
  intros Hls.
  rewrite <- (string_app_nil_r (Spec.unlines ls)) at 2.
  rewrite !(chunksOf_unlines ls _ Hls).
  rewrite (split_terminated "data: [DONE]" after eq_refl).
  rewrite removelast_cons by apply split_nonempty.
  cbn [Js.split removelast]. rewrite app_nil_r, processLines_app.
  destruct (processLines parseEvent ls) as [c1 [|]]; reflexivity.
Qed.

Lemma isLine_app (a b : string) :
  Spec.isLine a -> Spec.isLine b -> Spec.isLine (a ++ b).
Proof.
  unfold Spec.isLine. intros Ha Hb. induction a as [|c a IH]; [exact Hb |].
  simpl in Ha |- *. apply andb_prop in Ha as [Hc Ha].
  now rewrite Hc, (IH Ha).
Qed.

Lemma chunksOf_malformed (ls : list string) (payload after : string) :
  Forall Spec.isLine ls -> Spec.isLine payload ->
  Js.trim payload <> "[DONE]" ->
  parseEvent (Js.trim payload) = Malformed ->
  Spec.chunksOf parseEvent
    (Spec.unlines ls ++ "data: " ++ payload ++ Js.newline ++ after)
  = Spec.chunksOf parseEvent (Spec.unlines ls ++ after).
Proof.
  intros Hls Hp Hdone Hbad.
  rewrite !(chunksOf_unlines ls _ Hls).
  rewrite <- (string_app_assoc "data: " payload).
  rewrite (split_terminated ("data: " ++ payload) after)
    by (apply (isLine_app "data: " payload); [reflexivity | exact Hp]).
  rewrite removelast_cons by apply split_nonempty.
  rewrite !processLines_app, processLines_cons.
  rewrite (stripPrefix_app "data: " payload), Hbad.
  apply String.eqb_neq in Hdone. rewrite Hdone. reflexivity.
Qed.

Lemma streamChat_body (errors : AdapterErrors) (apiKey : string)
  (status : Z) (statusText : string) (reads : list string) :
  Js.truthy apiKey = true ->
  streamChat parseEvent errors apiKey (Spec.sseBody status statusText reads)
  = (Spec.chunksOf parseEvent (Spec.received reads), None).
Proof.
  intros Hkey. unfold streamChat, Spec.sseBody. rewrite Hkey. cbn [negb].
  now rewrite (readLoop_chunksOf "" reads eq_refl).
Qed.

(** C8.  With a configured key and an upstream body, the [streamChat] of
    the Deepseek adapter and of the GPT-5 adapter yields finitely many
    chunks: incomplete ones, then exactly one chunk with
    [isComplete = true] (empty text), and nothing after it.  A
    [data: [DONE]] event ends the sequence there with that terminator; an
    event whose payload is malformed JSON yields no chunk and the stream
    goes on. *)
Theorem streamChat_terminated_once :
  Spec.sseContract parseEvent (DeepseekProvider_streamChat parseEvent)
  /\ Spec.sseContract parseEvent (GPT5Provider_streamChat parseEvent).
Proof.
  assert (H : forall errors,
             Spec.sseContract parseEvent (streamChat parseEvent errors)).
  { intros errors apiKey status statusText reads Hkey.
    rewrite (streamChat_body errors _ _ _ _ Hkey).
    split; [| split].
    - destruct (chunksOf_terminated (Spec.received reads))
        as (chunks & E & Hc).
      exists chunks. now rewrite E.
    - intros ls after Hls E.
      rewrite (streamChat_body errors _ _ _ _ Hkey), E. cbn [Spec.received].
      now rewrite string_app_nil_r, chunksOf_done.
    - intros ls payload after Hls Hp Hdone Hbad E.
      rewrite (streamChat_body errors _ _ _ _ Hkey), E. cbn [Spec.received].
      now rewrite string_app_nil_r, chunksOf_malformed. }
  split; apply H.
Qed.

End SSE.

(** ** Pricing *)

Section Pricing.

Import X402 GateSpec.

Variable env : gmap string string.

Lemma getPrice_decimal (envKey fallback : string) :
  isDecimal fallback = true -> isDecimal (getPrice env envKey fallback) = true.
Proof.
  intros Hfb. unfold getPrice. destruct (env !! envKey) as [value|]; [| exact Hfb].
  destruct (Js.truthy value && Js.all Js.isDigit value) eqn:E; [exact E | exact Hfb].
Qed.

Lemma getPrice_unset (envKey fallback : string) :
  env !! envKey = None -> getPrice env envKey fallback = fallback.
Proof. intros H. unfold getPrice. now rewrite H. Qed.

Lemma supported_cases (m : string) :
  In m supportedModels ->
  m = "gpt-5" \/ m = "claude-sonnet-4-5" \/ m = "deepseek".
Proof. simpl. intuition congruence. Qed.

(** C4, as the code has it.  For every supported model the price lookup
    returns a decimal string that depends on nothing but the model, the
    vision flag and the environment; when the environment overrides no
    price, the vision price is at least the base price. *)
Theorem getModelPrice_decimal_and_ordered_by_default (m : string) :
  In m supportedModels ->
  (forall hasVision,
      exists p, getModelPrice env m hasVision = Ok p /\ isDecimal p = true)
  /\ ((forall k, In k priceKeys -> env !! k = None) ->
      exists b v,
        getModelPrice env m false = Ok b
        /\ getModelPrice env m true = Ok v
        /\ (decimalValue b <= decimalValue v)%N).
Proof.
  intros Hm. split.
  - intros hasVision.
    apply supported_cases in Hm as [-> | [-> | ->]]; destruct hasVision;
      (eexists; split; [reflexivity | apply getPrice_decimal; reflexivity]).
  - intros Hunset.
    apply supported_cases in Hm as [-> | [-> | ->]];
      (do 2 eexists; split; [reflexivity | split; [reflexivity |]]);
      cbn [visionPrice pricePerMessage];
      rewrite !getPrice_unset by (apply Hunset; simpl; tauto);
      vm_compute; discriminate.
Qed.

End Pricing.

Lemma getModelPrice_decimal_and_ordered_by_default_witness :
  In "deepseek" GateSpec.supportedModels
  /\ ((forall hasVision,
          exists p, X402.getModelPrice ∅ "deepseek" hasVision = Ok p
                    /\ GateSpec.isDecimal p = true)
      /\ ((forall k, In k GateSpec.priceKeys -> (∅ : gmap string string) !! k = None) ->
          exists b v,
            X402.getModelPrice ∅ "deepseek" false = Ok b
            /\ X402.getModelPrice ∅ "deepseek" true = Ok v
            /\ (GateSpec.decimalValue b <= GateSpec.decimalValue v)%N)).
Proof.
  split; [simpl; tauto |].
  apply (getModelPrice_decimal_and_ordered_by_default ∅ "deepseek").
  simpl; tauto.
Defined.

(** C4 as stated fails: with [PRICE_GPT=200000] and no vision override,
    GPT-5 costs 200000 without vision and 150000 with it. *)
Lemma price_order_counterexample :
  ~ (forall (env : gmap string string) (m b v : string),
        In m GateSpec.supportedModels ->
        X402.getModelPrice env m false = Ok b ->
        X402.getModelPrice env m true = Ok v ->
        (GateSpec.decimalValue b <= GateSpec.decimalValue v)%N).
Proof.
  intros H.
  specialize (H {[ "PRICE_GPT" := "200000" ]} "gpt-5" "200000" "150000").
  apply H; [simpl; tauto | reflexivity | reflexivity | reflexivity].
Qed.

(** ** Strings in code units *)

Section WideStrings.

Lemma narrow_app (u v : Js.wstring) :
  Js.narrow (u ++ v)%list = Js.narrow u && Js.narrow v.
Proof. apply forallb_app. Qed.

Lemma narrow_codes (s : string) : Js.narrow (Js.codes s) = true.
Proof.
  induction s as [|c s IH]; [reflexivity |].
  cbn [Js.codes]. unfold Js.narrow in *. cbn [forallb]. rewrite IH.
  pose proof (N_ascii_bounded c) as B. apply N.ltb_lt in B.
  unfold Js.code. now rewrite B.
Qed.

Lemma narrow_quoteUnits (u : Js.wstring) :
  Js.narrow (Js.quoteUnits u) = Js.narrow (Js.escapeUnits u).
Proof.
  unfold Js.quoteUnits. rewrite !narrow_app, !narrow_codes.
  now rewrite andb_true_r.
Qed.

(** A string that [btoa] accepts is still one after escaping. *)
Lemma escapeUnits_narrow (u : Js.wstring) :
  Js.narrow u = true -> Js.narrow (Js.escapeUnits u) = true.
Proof.
  induction u as [|a rest IH]; [reflexivity |].
  unfold Js.narrow at 1. cbn [forallb]. intros H.
  apply andb_prop in H as [Ha Hr]. pose proof Ha as Ha'.
  apply N.ltb_lt in Ha'. cbn [Js.escapeUnits].
  assert (L : Js.isLeadSurrogate a = false).
  { unfold Js.isLeadSurrogate. apply andb_false_iff. left.
    apply N.leb_gt. lia. }
  assert (T : Js.isTrailSurrogate a = false).
  { unfold Js.isTrailSurrogate. apply andb_false_iff. left.
    apply N.leb_gt. lia. }
  rewrite L, T, Ha, narrow_app, narrow_codes. apply IH, Hr.
Qed.

End WideStrings.

(** ** The payment gate *)

Section GateProperties.

Import X402 GateSpec.

Variable env : gmap string string.
Variable now : string.
Variable decodePayment : string -> option PaymentPayload.
Variable fetch : string -> PaymentPayload -> PaymentRequirements -> FetchOutcome.
Variable handler : Request -> X402PaymentContext -> Result Response.

(** [verifyPayment] always returns: either without a facilitator call and
    with the failure value, or after one call, whose failure it folds into
    the failure value. *)
Lemma verifyPayment_cases
  (this : X402PaymentHandler) (h m : string) (hv : bool) (ep : string) :
  verifyPayment env decodePayment fetch this h m hv ep
  = ([], Ok verificationFailed)
  \/ exists reqs p v,
      createChatPaymentRequirements env m hv ep = Ok reqs
      /\ verifyPayment env decodePayment fetch this h m hv ep
         = ([EvFetch (facilitatorUrl this ++ "/verify")
                     (fetch (facilitatorUrl this ++ "/verify") p reqs)],
            Ok v)
      /\ (failed (fetch (facilitatorUrl this ++ "/verify") p reqs) ->
          v = verificationFailed).
Proof.
  unfold verifyPayment, callFacilitator, bind, catch, lift, ret, throw, emit.
  destruct (createChatPaymentRequirements env m hv ep) as [reqs|] eqn:R;
    [| now left].
  destruct (decodePayment h) as [p|]; [| now left].
  right. exists reqs, p. cbv beta iota zeta.
  destruct (fetch (facilitatorUrl this ++ "/verify") p reqs)
    as [msg | st [j|]]; cbn [failed].
  - eexists; repeat split.
  - destruct (response_ok st) eqn:O; cbn [negb app];
      eexists; repeat split; intros; congruence.
  - destruct (response_ok st) eqn:O; cbn [negb app]; eexists; repeat split.
Qed.

Lemma settlePayment_cases
  (this : X402PaymentHandler) (h m : string) (hv : bool) (ep : string) :
  settlePayment env decodePayment fetch this h m hv ep
  = ([], Ok settlementFailed)
  \/ exists reqs p s,
      createChatPaymentRequirements env m hv ep = Ok reqs
      /\ settlePayment env decodePayment fetch this h m hv ep
         = ([EvFetch (facilitatorUrl this ++ "/settle")
                     (fetch (facilitatorUrl this ++ "/settle") p reqs)],
            Ok s)
      /\ (failed (fetch (facilitatorUrl this ++ "/settle") p reqs) ->
          s = settlementFailed).
Proof.
  unfold settlePayment, callFacilitator, bind, catch, lift, ret, throw, emit.
  destruct (createChatPaymentRequirements env m hv ep) as [reqs|] eqn:R;
    [| now left].
  destruct (decodePayment h) as [p|]; [| now left].
  right. exists reqs, p. cbv beta iota zeta.
  destruct (fetch (facilitatorUrl this ++ "/settle") p reqs)
    as [msg | st [j|]]; cbn [failed].
  - eexists; repeat split.
  - destruct (response_ok st) eqn:O; cbn [negb app];
      eexists; repeat split; intros; congruence.
  - destruct (response_ok st) eqn:O; cbn [negb app]; eexists; repeat split.
Qed.

Lemma bind_emit {B} (e : Event) (k : unit -> Eff B) :
  bind (emit e) k = (e :: fst (k tt), snd (k tt)).
Proof. unfold bind, emit. now destruct (k tt). Qed.

Lemma bind_ok {A B} (tr : list Event) (a : A) (k : A -> Eff B) :
  bind (tr, Ok a) k = ((tr ++ fst (k a))%list, snd (k a)).
Proof. unfold bind. now destruct (k a). Qed.

Lemma create402Response_ok
  (m : string) (hv : bool) (ep : string) (error : option string)
  (reqs : PaymentRequirements) :
  createChatPaymentRequirements env m hv ep = Ok reqs ->
  exists resp,
    create402Response env m hv ep error = Ok resp
    /\ status resp = 402%Z
    /\ body resp
       = Some (Js.stringify (body402 (orString error "Payment required") reqs)).
Proof.
  intros R. unfold create402Response. rewrite R.
  eexists; repeat split.
Qed.

(** What a failed facilitator call in [evs] makes of the result [r]. *)
Let rejectedOnFailure
  (evs : list Event) (r : Result PaymentFlowResult) : Prop :=
  forall url o,
    In (EvFetch url o) evs -> failed o ->
    exists resp, r = Ok (Rejected resp) /\ status resp = 402%Z.

Let notGranted (r : Result PaymentFlowResult) : Prop :=
  forall s price, r <> Ok (Granted s price).

Lemma lift_create402_notGranted
  (m : string) (hv : bool) (ep : string) (error : option string) :
  notGranted
    (snd (let* response := lift (create402Response env m hv ep error) in
          ret (Rejected response)))
  /\ fst (let* response := lift (create402Response env m hv ep error) in
          ret (Rejected response)) = [].
Proof.
  unfold bind, lift, ret.
  destruct (create402Response env m hv ep error); split;
    try reflexivity; intros s price; cbn; congruence.
Qed.

(** The four ways through [handlePaymentFlow]. *)
Lemma handlePaymentFlow_cases
  (this : X402PaymentHandler) (req : Request) (m : string) (hv : bool)
  (ep : option string) :
  exists tr r,
    handlePaymentFlow env decodePayment fetch this req m hv ep = (tr, r)
    /\ ((tr = [] /\ notGranted r)
        \/ (exists fv v,
               tr = VerifyCall :: fv ++ [VerifyReturn v]
               /\ Forall isFetch fv /\ isValid v = false
               /\ notGranted r /\ rejectedOnFailure fv r)
        \/ (exists fv fs v s,
               tr = VerifyCall :: fv ++ VerifyReturn v :: SettleCall
                      :: fs ++ [SettleReturn s]
               /\ Forall isFetch fv /\ Forall isFetch fs
               /\ isValid v = true /\ success s = false
               /\ notGranted r /\ rejectedOnFailure (fv ++ fs) r)
        \/ (exists fv fs v s,
               tr = VerifyCall :: fv ++ VerifyReturn v :: SettleCall
                      :: fs ++ [SettleReturn s]
               /\ Forall isFetch fv /\ Forall isFetch fs
               /\ isValid v = true /\ success s = true
               /\ (forall s' price, r = Ok (Granted s' price) -> s' = s)
               /\ (forall resp, r <> Ok (Rejected resp))
               /\ (forall url o,
                      In (EvFetch url o) (fv ++ fs) -> ~ failed o))).
Proof.
  unfold handlePaymentFlow.
  set (epr := default "/api/chat" ep).
  destruct (orUndefined (extractPaymentHeader (req_headers req)) None)
    as [h|].
  2:{ destruct (lift_create402_notGranted m hv epr None) as [N T].
      destruct (let* response := lift (create402Response env m hv epr None) in _)
        as [tr r]. cbn in N, T. subst tr. exists [], r. split; [reflexivity |].
      left. now split. }
  rewrite bind_emit.
  destruct (verifyPayment_cases this h m hv epr)
    as [Ev | (reqs & p & v & R & Ev & Fv)]; rewrite Ev, bind_ok, bind_emit.
  - cbn [isValid verificationFailed negb].
    match goal with
    | |- context [bind (lift (create402Response env m hv epr ?e)) ?k] =>
        destruct (lift_create402_notGranted m hv epr e) as [N T];
        destruct (bind (lift (create402Response env m hv epr e)) k) as [t r]
    end.
    cbn in N, T |- *. subst t. do 2 eexists. split; [reflexivity |].
    right; left. exists [], verificationFailed.
    repeat split; [constructor | exact N | intros url o []].
  - set (F1 := EvFetch (facilitatorUrl this ++ "/verify")
                 (fetch (facilitatorUrl this ++ "/verify") p reqs)) in *.
    assert (HF1 : Forall isFetch [F1]) by (repeat constructor).
    destruct (isValid v) eqn:V; cbn [negb].
    + rewrite bind_emit.
      destruct (settlePayment_cases this h m hv epr)
        as [Es | (reqs' & p' & s & R' & Es & Fs)];
        rewrite Es, bind_ok, bind_emit.
      * cbn [success settlementFailed negb].
        match goal with
        | |- context [bind (lift (create402Response env m hv epr ?e)) ?k] =>
            destruct (create402Response_ok m hv epr e reqs R)
              as (resp & E & St & _)
        end.
        unfold bind, lift, ret. rewrite E. cbn [fst snd app].
        do 2 eexists. split; [reflexivity |].
        right; right; left. exists [F1], [], v, settlementFailed.
        repeat split; try assumption; try constructor.
        -- intros s' price; congruence.
        -- intros url o _ _. now exists resp.
      * set (F2 := EvFetch (facilitatorUrl this ++ "/settle")
                     (fetch (facilitatorUrl this ++ "/settle") p' reqs')) in *.
        assert (HF2 : Forall isFetch [F2]) by (repeat constructor).
        destruct (success s) eqn:S; cbn [negb].
        -- unfold bind, lift, ret.
           destruct (getModelPrice env m hv) as [price|msg];
             cbn [fst snd app];
             (do 2 eexists; split; [reflexivity |]);
             right; right; right; exists [F1], [F2], v, s;
             (repeat split; try assumption; try congruence).
           all: intros url o [H | [H | []]] Hfail; inversion H; subst o;
             [rewrite (Fv Hfail) in V | rewrite (Fs Hfail) in S];
             discriminate.
        -- match goal with
           | |- context [bind (lift (create402Response env m hv epr ?e)) ?k] =>
               destruct (create402Response_ok m hv epr e reqs R)
                 as (resp & E & St & _)
           end.
           unfold bind, lift, ret. rewrite E. cbn [fst snd app].
           do 2 eexists. split; [reflexivity |].
           right; right; left. exists [F1], [F2], v, s.
           repeat split; try assumption.
           ++ intros s' price; congruence.
           ++ intros url o _ _. now exists resp.
    + match goal with
      | |- context [bind (lift (create402Response env m hv epr ?e)) ?k] =>
          destruct (create402Response_ok m hv epr e reqs R)
            as (resp & E & St & _)
      end.
      unfold bind, lift, ret. rewrite E. cbn [fst snd app].
      do 2 eexists. split; [reflexivity |].
      right; left. exists [F1], v.
      repeat split; try assumption.
      * intros s' price; congruence.
      * intros url o _ _. now exists resp.
Qed.

Lemma calls_fetches (fv : list Event) : Forall isFetch fv -> calls fv = [].
Proof.
  induction 1 as [|e fv He _ IH]; [reflexivity |].
  unfold calls in *. simpl. unfold isFetch in He. now rewrite He.
Qed.

Lemma settleCalls_fetches (fv : list Event) :
  Forall isFetch fv -> List.filter isSettleCall fv = [].
Proof.
  induction 1 as [|e fv He _ IH]; [reflexivity |].
  simpl. rewrite IH. now destruct e.
Qed.

Lemma fetches_not_call (fv : list Event) (e : Event) :
  Forall isFetch fv -> In e fv -> isCall e = false.
Proof. intros H. rewrite Forall_forall in H. intros Hin. now apply H, list_elem_of_In. Qed.

Lemma calls_app (a b : list Event) : calls (a ++ b) = (calls a ++ calls b)%list.
Proof. apply List.filter_app. Qed.

(** The place of an event in a short list of distinct calls. *)
Ltac locate H pre :=
  repeat (destruct pre as [|? pre]; cbn in H;
          [try discriminate H | injection H as ? H; subst]);
  try (destruct pre; discriminate H).

Lemma gateTrace_paymentOrder (tr : list Event) :
  gateTrace tr -> paymentOrder tr.
Proof.
  intros [| fv v Hfv V | fv fs v s Hfv Hfs V S | fv fs v s handled Hfv Hfs V S].
  - repeat split; cbn; try tauto; try lia.
    + intros (v & [] & _).
    + intros pre post H. destruct pre; discriminate.
    + intros pre post H. destruct pre; discriminate.
  - repeat split.
    + intros [H | H]; [discriminate |].
      apply in_app_or in H as [H | [H | []]]; [| discriminate].
      now apply (fetches_not_call _ _ Hfv) in H.
    + intros (v' & [H | H] & V'); [discriminate |].
      apply in_app_or in H as [H | [H | []]].
      * now apply (fetches_not_call _ _ Hfv) in H.
      * inversion H; subst. congruence.
    + cbn. rewrite List.filter_app, (settleCalls_fetches _ Hfv). cbn. lia.
    + intros pre post H. unfold calls in H. cbn in H.
      rewrite List.filter_app in H. fold (calls fv) in H.
      rewrite (calls_fetches _ Hfv) in H. locate H pre.
    + intros pre post H. unfold calls in H. cbn in H.
      rewrite List.filter_app in H. fold (calls fv) in H.
      rewrite (calls_fetches _ Hfv) in H. locate H pre.
  - repeat split.
    + intros _. exists v. split; [| exact V].
      right. apply in_or_app. right. now left.
    + intros _. right. apply in_or_app. right. right. now left.
    + cbn. rewrite List.filter_app, (settleCalls_fetches _ Hfv). cbn.
      rewrite List.filter_app, (settleCalls_fetches _ Hfs). cbn. lia.
    + intros pre post H. unfold calls in H. cbn in H.
      rewrite List.filter_app in H. fold (calls fv) in H.
      rewrite (calls_fetches _ Hfv) in H. cbn in H.
      rewrite List.filter_app in H. fold (calls fs) in H.
      rewrite (calls_fetches _ Hfs) in H. locate H pre.
      exists [VerifyCall], v. now split.
    + intros pre post H. unfold calls in H. cbn in H.
      rewrite List.filter_app in H. fold (calls fv) in H.
      rewrite (calls_fetches _ Hfv) in H. cbn in H.
      rewrite List.filter_app in H. fold (calls fs) in H.
      rewrite (calls_fetches _ Hfs) in H. locate H pre.
  - repeat split.
    + intros _. exists v. split; [| exact V].
      right. apply in_or_app. right. now left.
    + intros _. right. apply in_or_app. right. right. now left.
    + cbn. rewrite List.filter_app, (settleCalls_fetches _ Hfv). cbn.
      rewrite List.filter_app, (settleCalls_fetches _ Hfs). cbn.
      destruct handled; cbn; lia.
    + intros pre post H. unfold calls in H. cbn in H.
      rewrite List.filter_app in H. fold (calls fv) in H.
      rewrite (calls_fetches _ Hfv) in H. cbn in H.
      rewrite List.filter_app in H. fold (calls fs) in H.
      rewrite (calls_fetches _ Hfs) in H.
      destruct handled; locate H pre; exists [VerifyCall], v; now split.
    + intros pre post H. unfold calls in H. cbn in H.
      rewrite List.filter_app in H. fold (calls fv) in H.
      rewrite (calls_fetches _ Hfv) in H. cbn in H.
      rewrite List.filter_app in H. fold (calls fs) in H.
      rewrite (calls_fetches _ Hfs) in H.
      destruct handled; locate H pre.
      exists [VerifyCall; VerifyReturn v; SettleCall], s. now split.
Qed.

Lemma settled_handled (fv fs : list Event) (v : VerificationResult)
  (s : SettlementResult) :
  ((VerifyCall :: fv ++ VerifyReturn v :: SettleCall :: fs ++ [SettleReturn s])
     ++ [HandlerCall])%list
  = VerifyCall :: fv ++ VerifyReturn v :: SettleCall
      :: fs ++ SettleReturn s :: [HandlerCall].
Proof. cbn. rewrite <- !app_assoc. cbn. now rewrite <- !app_assoc. Qed.

Lemma in_fetch_middle (fv rest : list Event) (c : Event) (url : string)
  (o : FetchOutcome) :
  isCall c = true ->
  In (EvFetch url o) (c :: fv ++ rest) ->
  In (EvFetch url o) fv \/ In (EvFetch url o) rest.
Proof.
  intros Hc [H | H]; [subst c; discriminate | now apply in_app_or].
Qed.

Lemma in_fetch_settle (fv fs tail : list Event) (v : VerificationResult)
  (s : SettlementResult) (url : string) (o : FetchOutcome) :
  Forall (fun e => isCall e = true) tail ->
  In (EvFetch url o)
     (VerifyCall :: fv ++ VerifyReturn v :: SettleCall
        :: fs ++ SettleReturn s :: tail) ->
  In (EvFetch url o) (fv ++ fs).
Proof.
  intros Htail Hin. apply in_fetch_middle in Hin; [| reflexivity].
  apply in_or_app. destruct Hin as [Hin | [Hin | Hin]];
    [now left | discriminate |].
  apply in_fetch_middle in Hin; [| reflexivity].
  destruct Hin as [Hin | [Hin | Hin]]; [now right | discriminate |].
  rewrite Forall_forall in Htail.
  apply list_elem_of_In, Htail in Hin. discriminate.
Qed.

(** The traces and responses of the middleware. *)
Lemma withX402Payment_cases
  (defaultModel : string) (hv : bool) (ep : option string) (req : Request) :
  exists tr resp,
    withX402Payment env now decodePayment fetch handler defaultModel hv ep req
    = (tr, resp)
    /\ gateTrace tr
    /\ (forall url o,
           In (EvFetch url o) tr -> failed o -> status resp = 402%Z).
Proof.
  unfold withX402Payment, withX402Payment_body.
  destruct (String.eqb (method req) "OPTIONS").
  { do 2 eexists. split; [reflexivity |].
    split; [constructor | intros url o []]. }
  unfold bind at 1, lift at 1.
  destruct (getX402Handler env) as [this|msg].
  2:{ do 2 eexists. split; [reflexivity |].
      split; [constructor | intros url o []]. }
  destruct (handlePaymentFlow_cases this req (requestModel defaultModel req) hv ep)
    as (tr & r & E & Cases).
  rewrite E.
  assert (Hhandler :
    forall s price,
      (exists resp,
          (let* _ := emit HandlerCall in
           let* response :=
             lift (handler req {| settlementResult := Some s;
                                  paymentAmount := Some price |}) in
           let* this' := lift (Ok this) in
           lift (addPaymentResponseHeaders now this' response s))
          = ([HandlerCall], Ok resp))
      \/ (exists msg,
             (let* _ := emit HandlerCall in
              let* response :=
                lift (handler req {| settlementResult := Some s;
                                     paymentAmount := Some price |}) in
              let* this' := lift (Ok this) in
              lift (addPaymentResponseHeaders now this' response s))
             = ([HandlerCall], Throw msg))).
  { intros s price. unfold bind, emit, lift, ret.
    destruct (handler req _) as [response|]; [| right; eexists; reflexivity].
    destruct (addPaymentResponseHeaders now this response s);
      [left | right]; eexists; reflexivity. }
  destruct Cases as [[-> N] | [(fv & v & -> & Hfv & V & N & RF)
    | [(fv & fs & v & s & -> & Hfv & Hfs & V & S & N & RF)
      | (fv & fs & v & s & -> & Hfv & Hfs & V & S & G & NR & NF)]]].
  - destruct r as [[resp | s price] | msg]; [| now destruct (N s price) |];
      cbn; (do 2 eexists; split; [reflexivity |]);
      (split; [constructor | intros url o []]).
  - destruct r as [[resp | s price] | msg]; [| now destruct (N s price) |];
      unfold bind, ret; cbn [fst snd]; rewrite ?app_nil_r;
      (do 2 eexists; split; [reflexivity |]);
      (split; [now constructor |]).
    + intros url o Hin Hfail.
      apply in_fetch_middle in Hin; [| reflexivity].
      destruct Hin as [Hin | [Hin | []]]; [| discriminate].
      destruct (RF url o Hin Hfail) as (resp' & Er & St). now inversion Er.
    + intros url o Hin Hfail.
      apply in_fetch_middle in Hin; [| reflexivity].
      destruct Hin as [Hin | [Hin | []]]; [| discriminate].
      destruct (RF url o Hin Hfail) as (resp' & Er & St). discriminate.
  - destruct r as [[resp | s' price] | msg]; [| now destruct (N s' price) |];
      unfold bind, ret; cbn [fst snd]; rewrite ?app_nil_r;
      (do 2 eexists; split; [reflexivity |]);
      (split; [now constructor |]);
      intros url o Hin Hfail;
      apply in_fetch_settle in Hin; [| constructor | | constructor];
      destruct (RF url o Hin Hfail) as (resp' & Er & St);
      [now inversion Er | discriminate].
  - destruct r as [[resp | s' price] | msg]; [now destruct (NR resp) | |].
    + rewrite (G s' price eq_refl).
      unfold bind at 1.
      destruct (Hhandler s price) as [(resp & Eh) | (msg & Eh)]; rewrite Eh;
        rewrite settled_handled;
        (do 2 eexists; split; [reflexivity |]);
        (split; [now apply (trace_settled fv fs v s true) |]);
        intros url o Hin Hfail;
        apply in_fetch_settle in Hin; [| repeat constructor | | repeat constructor];
        now destruct (NF url o Hin).
    + unfold bind.
      do 2 eexists. split; [reflexivity |].
      split; [now apply (trace_settled fv fs v s false) |].
      intros url o Hin Hfail.
      apply in_fetch_settle in Hin; [| constructor].
      now destruct (NF url o Hin).
Qed.

Lemma handlePaymentFlow_trace
  (this : X402PaymentHandler) (req : Request) (m : string) (hv : bool)
  (ep : option string) :
  gateTrace (fst (handlePaymentFlow env decodePayment fetch this req m hv ep)).
Proof.
  destruct (handlePaymentFlow_cases this req m hv ep) as (tr & r & E & Cases).
  rewrite E. cbn [fst].
  destruct Cases as [[-> _] | [(fv & v & -> & Hfv & V & _)
    | [(fv & fs & v & s & -> & Hfv & Hfs & V & S & _)
      | (fv & fs & v & s & -> & Hfv & Hfs & V & S & _)]]].
  - constructor.
  - now constructor.
  - now constructor.
  - now apply (trace_settled fv fs v s false).
Qed.

(** C1.  For every request through the middleware, and through
    [handlePaymentFlow] on its own: settle is invoked iff verify returned
    [isValid = true]; it is invoked at most once, and directly after that
    verification returned; the wrapped handler is invoked only directly after
    settle returned success. *)
Theorem settle_iff_verified_handler_after_settled
  (defaultModel : string) (hasVision : bool) (endpoint : option string)
  (req : Request) :
  paymentOrder
    (fst (withX402Payment env now decodePayment fetch handler
            defaultModel hasVision endpoint req))
  /\ (forall (this : X402PaymentHandler) (model : string),
         paymentOrder
           (fst (handlePaymentFlow env decodePayment fetch this req model
                   hasVision endpoint))).
Proof.
  split.
  - destruct (withX402Payment_cases defaultModel hasVision endpoint req)
      as (tr & resp & E & Htr & _).
    rewrite E. now apply gateTrace_paymentOrder.
  - intros this model. apply gateTrace_paymentOrder, handlePaymentFlow_trace.
Qed.

(** C2.  [verifyPayment] and [settlePayment] always return a value; a
    facilitator call that fails (no response, or a status outside 200..299)
    makes that value the failure value, [{isValid: false, error}] or
    [{success: false, error}]; and the middleware answers a request during
    which a facilitator call failed with status 402. *)
Theorem facilitator_failure_folded :
  (forall this paymentHeader model hasVision endpoint,
      exists tr v,
        verifyPayment env decodePayment fetch this paymentHeader model
          hasVision endpoint = (tr, Ok v)
        /\ (forall url o,
               In (EvFetch url o) tr -> failed o ->
               v = verificationFailed /\ isValid v = false
               /\ v_error v = Some "Payment verification failed"))
  /\ (forall this paymentHeader model hasVision endpoint,
         exists tr s,
           settlePayment env decodePayment fetch this paymentHeader model
             hasVision endpoint = (tr, Ok s)
           /\ (forall url o,
                  In (EvFetch url o) tr -> failed o ->
                  s = settlementFailed /\ success s = false
                  /\ s_error s = Some "Payment settlement failed"))
  /\ (forall defaultModel hasVision endpoint req url o,
         In (EvFetch url o)
            (fst (withX402Payment env now decodePayment fetch handler
                    defaultModel hasVision endpoint req)) ->
         failed o ->
         status (snd (withX402Payment env now decodePayment fetch handler
                        defaultModel hasVision endpoint req)) = 402%Z).
Proof.
  split; [| split].
  - intros this h m hv ep.
    destruct (verifyPayment_cases this h m hv ep)
      as [E | (reqs & p & v & _ & E & F)]; rewrite E; do 2 eexists;
      (split; [reflexivity |]).
    + intros url o [].
    + intros url o [H | []] Hfail. inversion H; subst o.
      now rewrite (F Hfail).
  - intros this h m hv ep.
    destruct (settlePayment_cases this h m hv ep)
      as [E | (reqs & p & s & _ & E & F)]; rewrite E; do 2 eexists;
      (split; [reflexivity |]).
    + intros url o [].
    + intros url o [H | []] Hfail. inversion H; subst o.
      now rewrite (F Hfail).
  - intros dm hv ep req url o.
    destruct (withX402Payment_cases dm hv ep req) as (tr & resp & E & _ & H).
    rewrite E. apply H.
Qed.

Lemma createChatPaymentRequirements_supported
  (m : string) (hv : bool) (ep : string) (cfg : Config) :
  In m supportedModels -> getX402Config env = Ok cfg ->
  exists reqs,
    createChatPaymentRequirements env m hv ep = Ok reqs
    /\ getModelPrice env m hv = Ok (maxAmountRequired reqs).
Proof.
  intros Hm Hcfg. unfold createChatPaymentRequirements, getModelPrice.
  rewrite Hcfg.
  apply supported_cases in Hm as [-> | [-> | ->]]; cbn [AI_MODEL_PRICING String.eqb];
    eexists; split; reflexivity.
Qed.

(** C3, as the code has it.  A request other than the OPTIONS preflight
    that carries no [X-PAYMENT] header and whose model is in the pricing
    table is answered, when the configuration loads, with status 402 and a
    JSON body whose [accepts] array holds exactly one element, the payment
    requirements; no facilitator call is made.  For the model "deepseek",
    without the vision flag and with [PRICE_DEEPSEEK] unset, its
    [maxAmountRequired] is "30000". *)
Theorem no_proof_answered_402
  (defaultModel : string) (hasVision : bool) (endpoint : option string)
  (req : Request) (cfg : Config) :
  method req <> "OPTIONS" ->
  extractPaymentHeader (req_headers req) = None ->
  In (requestModel defaultModel req) supportedModels ->
  getX402Config env = Ok cfg ->
  exists requirements,
    createChatPaymentRequirements env (requestModel defaultModel req)
      hasVision (default "/api/chat" endpoint) = Ok requirements
    /\ withX402Payment env now decodePayment fetch handler
         defaultModel hasVision endpoint req
       = ([],
          {| status := 402;
             statusText := "";
             headers :=
               Headers_of (("Content-Type", "application/json") :: corsHeaders);
             body :=
               Some (Js.stringify
                       (Js.JObj
                          [("x402Version", Js.JNum 1);
                           ("error", Js.JStr "Payment required");
                           ("accepts",
                             Js.JArr [requirementsJson requirements])])) |})
    /\ (requestModel defaultModel req = "deepseek" -> hasVision = false ->
        env !! "PRICE_DEEPSEEK" = None ->
        maxAmountRequired requirements = "30000").
Proof.
  intros Hmethod Hheader Hmodel Hcfg.
  destruct (createChatPaymentRequirements_supported
              (requestModel defaultModel req) hasVision
              (default "/api/chat" endpoint) cfg Hmodel Hcfg)
    as (reqs & R & P).
  exists reqs. split; [exact R |]. split.
  - unfold withX402Payment, withX402Payment_body.
    apply String.eqb_neq in Hmethod. rewrite Hmethod.
    unfold getX402Handler. rewrite Hcfg.
    unfold handlePaymentFlow. rewrite Hheader. cbn [orUndefined].
    unfold create402Response. rewrite R. reflexivity.
  - intros Em -> Hunset. rewrite Em in P.
    unfold getModelPrice in P. cbn in P.
    rewrite (getPrice_unset env _ _ Hunset) in P. now inversion P.
Qed.

(** The JSON text of a receipt holds a code unit above 255 exactly when
    the escaped transaction or the escaped amount does. *)
Lemma receipt_narrow
  (this : X402PaymentHandler) (transaction : Js.wstring)
  (amount : option Js.wstring) :
  Js.narrow (Js.stringifyUnits (paymentResponse now this transaction amount))
  = Js.narrow (Js.escapeUnits transaction)
    && Js.narrow (Js.escapeUnits (orText amount (Js.codes "0"))).
Proof.
  unfold paymentResponse. cbn [Js.stringifyUnits].
  rewrite !narrow_app, !narrow_quoteUnits, !narrow_codes.
  rewrite !(escapeUnits_narrow _ (narrow_codes _)).
  now rewrite ?andb_true_l, ?andb_true_r.
Qed.


End GateProperties.

Lemma no_proof_answered_402_witness :
  (X402.method (Examples.post "deepseek") <> "OPTIONS"
   /\ X402.extractPaymentHeader (X402.req_headers (Examples.post "deepseek"))
      = None
   /\ In (X402.requestModel "deepseek" (Examples.post "deepseek"))
         GateSpec.supportedModels
   /\ X402.getX402Config ∅ = Ok Examples.devConfig)
  /\ exists requirements,
      X402.createChatPaymentRequirements ∅
        (X402.requestModel "deepseek" (Examples.post "deepseek")) false
        (default "/api/chat" (Some "/api/chat")) = Ok requirements
      /\ X402.withX402Payment ∅ Examples.clock Examples.decodeAny
           Examples.offline Examples.okHandler "deepseek" false
           (Some "/api/chat") (Examples.post "deepseek")
         = ([],
            {| X402.status := 402;
               X402.statusText := "";
               X402.headers :=
                 X402.Headers_of
                   (("Content-Type", "application/json") :: X402.corsHeaders);
               X402.body :=
                 Some (Js.stringify
                         (Js.JObj
                            [("x402Version", Js.JNum 1);
                             ("error", Js.JStr "Payment required");
                             ("accepts",
                               Js.JArr [X402.requirementsJson requirements])])) |})
      /\ (X402.requestModel "deepseek" (Examples.post "deepseek") = "deepseek" ->
          false = false ->
          (∅ : gmap string string) !! "PRICE_DEEPSEEK" = None ->
          X402.maxAmountRequired requirements = "30000").
Proof.
  assert (H1 : X402.method (Examples.post "deepseek") <> "OPTIONS")
    by discriminate.
  assert (H2 : X402.extractPaymentHeader
                 (X402.req_headers (Examples.post "deepseek")) = None)
    by (vm_compute; reflexivity).
  assert (H3 : In (X402.requestModel "deepseek" (Examples.post "deepseek"))
                  GateSpec.supportedModels)
    by (simpl; tauto).
  assert (H4 : X402.getX402Config ∅ = Ok Examples.devConfig)
    by (vm_compute; reflexivity).
  split; [exact (conj H1 (conj H2 (conj H3 H4))) |].
  exact (no_proof_answered_402 ∅ Examples.clock Examples.decodeAny
           Examples.offline Examples.okHandler "deepseek" false
           (Some "/api/chat") (Examples.post "deepseek") Examples.devConfig
           H1 H2 H3 H4).
Defined.

(** C3 as stated fails.  None of these requests carries an [X-PAYMENT]
    header: the OPTIONS preflight is answered 200; a POST that names a model
    outside the pricing table is answered 500; in production without a
    treasury wallet a POST is answered 500; and with the vision flag the
    price quoted for "deepseek" is the vision price, here 50000 although
    [PRICE_DEEPSEEK] is unset. *)
Lemma no_proof_counterexample :
  (X402.extractPaymentHeader (X402.req_headers Examples.preflight) = None
   /\ X402.status
        (snd (X402.withX402Payment ∅ Examples.clock Examples.decodeAny
                Examples.offline Examples.okHandler "deepseek" false
                (Some "/api/chat") Examples.preflight)) = 200%Z)
  /\ (X402.extractPaymentHeader (X402.req_headers (Examples.post "gpt-4"))
      = None
      /\ X402.status
           (snd (X402.withX402Payment ∅ Examples.clock Examples.decodeAny
                   Examples.offline Examples.okHandler "deepseek" false
                   (Some "/api/chat") (Examples.post "gpt-4"))) = 500%Z)
  /\ X402.status
       (snd (X402.withX402Payment Examples.production Examples.clock
               Examples.decodeAny Examples.offline Examples.okHandler
               "deepseek" false (Some "/api/chat")
               (Examples.post "deepseek"))) = 500%Z
  /\ (Examples.visionOverride !! "PRICE_DEEPSEEK" = None
      /\ X402.createChatPaymentRequirements Examples.visionOverride
           "deepseek" true "/api/chat" = Ok Examples.visionRequirements
      /\ X402.maxAmountRequired Examples.visionRequirements = "50000"
      /\ X402.body
           (snd (X402.withX402Payment Examples.visionOverride
                   Examples.clock Examples.decodeAny Examples.offline
                   Examples.okHandler "deepseek" true (Some "/api/chat")
                   (Examples.post "deepseek")))
         = Some (Js.stringify
                   (X402.body402 "Payment required"
                      Examples.visionRequirements))).
Proof.
  split; [split; vm_compute; reflexivity |].
  split; [split; vm_compute; reflexivity |].
  split; [vm_compute; reflexivity |].
  split; [vm_compute; reflexivity |].
  split; [vm_compute; reflexivity |].
  split; vm_compute; reflexivity.
Qed.


(** ** Attachments *)

Section Attachments.

Import Providers Route RouteSpec.

Variable getOrCreateUser : string -> Result UserRow.
Variable getChatById : string -> Result (option ChatRow).
Variable getChatMessages : string -> Z -> Result (list MessageRow).
Variable getChatMessageCount : string -> Result Q.
Variable extractPdfText : string -> Result string.
Variable aiProvider_chat : AIProviderConfig -> Result AIResponse.
Variable createChat : string -> string -> AIModel -> Result ChatRow.
Variable addMessage : string -> string -> Role -> string -> Result string.
Variable sanitizeAssistantResponse : string -> string.



Lemma normalizeLoop_accepted (entries : list RawEntry)
  (acc : list NormalizedAttachment) (P : NormalizedAttachment -> Prop) :
  (forall e a, normalizeEntry e = Some a -> P a) ->
  Forall P acc -> Forall P (normalizeLoop entries acc).
Proof.
  intros HP. revert acc.
  induction entries as [|e entries IH]; intros acc Hacc; [exact Hacc |].
  cbn [normalizeLoop]. destruct (normalizeEntry e) as [a|] eqn:E;
    [| now apply IH].
  assert (Hacc' : Forall P (acc ++ [a])).
  { apply Forall_app. split; [exact Hacc |]. repeat constructor. eapply HP, E. }
  destruct (MAX_ATTACHMENTS <=? _)%nat; [exact Hacc' | now apply IH].
Qed.





End Attachments.


(** A stream cut in the middle of a line: one delta, then [[DONE]]; what
    follows the event is not read. *)
Lemma streamChat_terminated_once_witness :
  Js.truthy "sk-deepseek" = true
  /\ Forall Spec.isLine ["data: a"]
  /\ Spec.received ["data: a" ++ Js.newline ++ "da";
                    "ta: [DONE]" ++ Js.newline ++ "data: b"]
     = Spec.unlines ["data: a"] ++ "data: [DONE]" ++ Js.newline ++ "data: b"
  /\ Providers.DeepseekProvider_streamChat RouteExamples.parseDemo "sk-deepseek"
       (Spec.sseBody 200 "OK" ["data: a" ++ Js.newline ++ "da";
                               "ta: [DONE]" ++ Js.newline ++ "data: b"])
     = Providers.DeepseekProvider_streamChat RouteExamples.parseDemo
         "sk-deepseek" (Spec.sseBody 200 "OK" [Spec.unlines ["data: a"]]).
Proof.
  assert (K : Js.truthy "sk-deepseek" = true) by reflexivity.
  assert (L : Forall Spec.isLine ["data: a"]) by (repeat constructor).
  assert (R : Spec.received ["data: a" ++ Js.newline ++ "da";
                             "ta: [DONE]" ++ Js.newline ++ "data: b"]
              = Spec.unlines ["data: a"] ++ "data: [DONE]" ++ Js.newline
                  ++ "data: b") by reflexivity.
  split; [exact K |]. split; [exact L |]. split; [exact R |].
  destruct (proj1 (streamChat_terminated_once RouteExamples.parseDemo)
              "sk-deepseek" 200%Z "OK"
              ["data: a" ++ Js.newline ++ "da";
               "ta: [DONE]" ++ Js.newline ++ "data: b"] K)
    as (_ & Hdone & _).
  exact (Hdone ["data: a"] "data: b" L R).
Defined.

(** An unreachable facilitator: the call is made, folded, and answered
    402. *)
Lemma facilitator_failure_folded_witness :
  In (X402.EvFetch "https://facilitator.payai.network/verify"
        (X402.NetworkError "fetch failed"))
     (fst (X402.withX402Payment ∅ Examples.clock Examples.decodeAny
             Examples.offline Examples.okHandler "deepseek" false
             (Some "/api/chat") (Examples.paidPost "deepseek")))
  /\ GateSpec.failed (X402.NetworkError "fetch failed")
  /\ X402.status
       (snd (X402.withX402Payment ∅ Examples.clock Examples.decodeAny
               Examples.offline Examples.okHandler "deepseek" false
               (Some "/api/chat") (Examples.paidPost "deepseek"))) = 402%Z.
Proof.
  assert (I : In (X402.EvFetch "https://facilitator.payai.network/verify"
                    (X402.NetworkError "fetch failed"))
                 (fst (X402.withX402Payment ∅ Examples.clock
                         Examples.decodeAny Examples.offline
                         Examples.okHandler "deepseek" false
                         (Some "/api/chat") (Examples.paidPost "deepseek"))))
    by (vm_compute; right; left; reflexivity).
  split; [exact I |]. split; [exact Logic.I |].
  exact (proj2 (proj2 (facilitator_failure_folded ∅ Examples.clock
                         Examples.decodeAny Examples.offline
                         Examples.okHandler))
           "deepseek" false (Some "/api/chat") (Examples.paidPost "deepseek")
           _ _ I Logic.I).
Defined.

(** A paid request through an accepting facilitator (scenario C): verify,
    settle and the handler are all reached, in the order of the
    specification, and the response carries the receipt for "abc123". *)
Lemma settle_iff_verified_handler_after_settled_witness :
  GateSpec.calls
    (fst (X402.withX402Payment ∅ Examples.clock Examples.decodeAny
            Examples.accepting Examples.okHandler "deepseek" false
            (Some "/api/chat") (Examples.paidPost "deepseek")))
  = [X402.VerifyCall;
     X402.VerifyReturn
       {| X402.isValid := true; X402.v_error := None;
          X402.invalidReason := None; X402.payer := None |};
     X402.SettleCall;
     X402.SettleReturn
       {| X402.success := true;
          X402.transaction := Some (Js.codes "abc123");
          X402.amount := Some (Js.codes "100000"); X402.s_error := None;
          X402.networkId := None |};
     X402.HandlerCall]
  /\ X402.Headers_get "X-PAYMENT-RESPONSE"
       (X402.headers
          (snd (X402.withX402Payment ∅ Examples.clock Examples.decodeAny
                  Examples.accepting Examples.okHandler "deepseek" false
                  (Some "/api/chat") (Examples.paidPost "deepseek"))))
     = Some (Js.base64
               (Js.stringifyUnits
                  (X402.paymentResponse Examples.clock Examples.devConfig
                     (Js.codes "abc123") (Some (Js.codes "100000")))))
  /\ GateSpec.paymentOrder
       (fst (X402.withX402Payment ∅ Examples.clock Examples.decodeAny
               Examples.accepting Examples.okHandler "deepseek" false
               (Some "/api/chat") (Examples.paidPost "deepseek"))).
Proof.
  split; [vm_compute; reflexivity |].
  split; [vm_compute; reflexivity |].
  exact (proj1 (settle_iff_verified_handler_after_settled ∅ Examples.clock
                  Examples.decodeAny Examples.accepting Examples.okHandler
                  "deepseek" false (Some "/api/chat")
                  (Examples.paidPost "deepseek"))).
Defined.


Lemma toTextOnlyMessage_parts_witness :
  forallb Spec.isImagePart
    [Providers.ImageContent "https://example.com/cat.png" None] = true
  /\ Providers.t_content
       (Providers.toTextOnlyMessage
          {| Providers.role := Providers.user;
             Providers.content :=
               Providers.Parts
                 [Providers.ImageContent "https://example.com/cat.png" None] |})
     = Providers.IMAGES_UNSUPPORTED.
Proof.
  assert (H : forallb Spec.isImagePart
                [Providers.ImageContent "https://example.com/cat.png" None]
              = true) by reflexivity.
  split; [exact H |].
  exact (proj1 (proj2 toTextOnlyMessage_parts) Providers.user
           [Providers.ImageContent "https://example.com/cat.png" None] H).
Defined.

(** * Further properties *)

(** ** Streaming, continued *)

Section SseFacts.

Import Providers.

Variable parseEvent : string -> ParsedEvent.

Lemma chunksOf_complete_lines (ls : list string) (tail : string) :
  Forall Spec.isLine ls -> Spec.isLine tail ->
  Spec.chunksOf parseEvent (Spec.unlines ls ++ tail)
  = let '(chunks, returned) := processLines parseEvent ls in
    if returned then chunks else (chunks ++ [terminator])%list.
Proof.
  intros Hls Ht. rewrite (chunksOf_unlines parseEvent ls tail Hls).
  rewrite (split_line tail Ht). cbn [removelast]. now rewrite app_nil_r.
Qed.

Lemma streamChat_reads (errors : AdapterErrors) (apiKey : string)
  (ok : bool) (status : Z) (statusText errorBody : string)
  (reads : list string) :
  streamChat parseEvent errors apiKey
    (UpstreamResponse ok status statusText errorBody (Some reads))
  = if negb (Js.truthy apiKey) then ([], Some (missingKey errors))
    else if negb ok
         then ([], Some (apiError errors status statusText errorBody))
         else (Spec.chunksOf parseEvent (Spec.received reads), None).
Proof.
  unfold streamChat. destruct (negb (Js.truthy apiKey)); [reflexivity |].
  destruct (negb ok); [reflexivity |].
  now rewrite (readLoop_chunksOf parseEvent "" reads eq_refl).
Qed.

(** X1.  What [streamChat] yields depends on the bytes of the body only,
    not on how the reader cuts them into reads. *)
Theorem streamChat_independent_of_read_boundaries
  (errors : AdapterErrors) (apiKey : string) (ok : bool) (status : Z)
  (statusText errorBody : string) (reads reads' : list string) :
  Spec.received reads = Spec.received reads' ->
  streamChat parseEvent errors apiKey
    (UpstreamResponse ok status statusText errorBody (Some reads))
  = streamChat parseEvent errors apiKey
      (UpstreamResponse ok status statusText errorBody (Some reads')).
Proof. intros E. now rewrite !streamChat_reads, E. Qed.

(** X2.  What follows the last line feed of the body is never processed: a
    last event that is not terminated by a line feed yields no chunk. *)
Theorem streamChat_unterminated_tail_dropped
  (errors : AdapterErrors) (apiKey : string) (ok : bool) (status : Z)
  (statusText errorBody : string) (reads ls : list string) (tail : string) :
  Forall Spec.isLine ls -> Spec.isLine tail ->
  Spec.received reads = Spec.unlines ls ++ tail ->
  streamChat parseEvent errors apiKey
    (UpstreamResponse ok status statusText errorBody (Some reads))
  = streamChat parseEvent errors apiKey
      (UpstreamResponse ok status statusText errorBody
         (Some [Spec.unlines ls])).
Proof.
  intros Hls Ht E. rewrite !streamChat_reads, E. cbn [Spec.received].
  rewrite (chunksOf_complete_lines ls tail Hls Ht).
  now rewrite (chunksOf_complete_lines ls "" Hls eq_refl).
Qed.

Lemma processLines_deltas (ls ds : list string) :
  Forall2 (Sse.deltaEvent parseEvent) ls ds ->
  processLines parseEvent ls = (map Sse.delta ds, false).
Proof.
  induction 1 as [|l d ls ds (payload & -> & _ & Hdone & Hparse & Hd) _ IH];
    [reflexivity |].
  rewrite processLines_cons, (stripPrefix_app "data: " payload), Hparse, IH.
  apply String.eqb_neq in Hdone. rewrite Hdone.
  destruct d; [congruence | reflexivity].
Qed.

Lemma deltaEvent_isLine (l d : string) :
  Sse.deltaEvent parseEvent l d -> Spec.isLine l.
Proof.
  intros (payload & -> & Hp & _).
  apply (isLine_app "data: " payload); [reflexivity | exact Hp].
Qed.

(** X3.  A body made of events that each carry a non-empty delta yields
    those deltas, one chunk each and in their order, then the
    terminator. *)
Theorem streamChat_deltas_in_order
  (errors : AdapterErrors) (apiKey : string) (status : Z)
  (statusText : string) (reads ls ds : list string) :
  Js.truthy apiKey = true ->
  Forall2 (Sse.deltaEvent parseEvent) ls ds ->
  Spec.received reads = Spec.unlines ls ->
  streamChat parseEvent errors apiKey (Spec.sseBody status statusText reads)
  = ((map Sse.delta ds ++ [terminator])%list, None).
Proof.
  intros Hkey Hev E. unfold Spec.sseBody.
  rewrite streamChat_reads, Hkey, E. cbn [negb].
  rewrite <- (string_app_nil_r (Spec.unlines ls)).
  rewrite (chunksOf_complete_lines ls "").
  - now rewrite (processLines_deltas ls ds Hev).
  - clear E. induction Hev as [|l d ls ds H _ IH]; constructor;
      [exact (deltaEvent_isLine l d H) | exact IH].
  - reflexivity.
Qed.

Lemma processLines_carriesText (lines : list string) :
  exists pre,
    Forall Sse.carriesText pre
    /\ processLines parseEvent lines
       = let returned := snd (processLines parseEvent lines) in
         (if returned then (pre ++ [terminator])%list else pre, returned).
Proof.
  induction lines as [|line lines (pre & Hpre & IH)].
  - exists []. split; [constructor | reflexivity].
  - rewrite processLines_cons.
    destruct (Js.stripPrefix "data: " line) as [payload|];
      [| exists pre; now split].
    destruct (String.eqb (Js.trim payload) "[DONE]");
      [exists []; split; [constructor | reflexivity] |].
    destruct (parseEvent (Js.trim payload)) as [|[d|]];
      try (exists pre; now split).
    destruct (Js.truthy d) eqn:T; [| exists pre; now split].
    exists (Sse.delta d :: pre).
    split.
    + constructor; [| exact Hpre]. split; [reflexivity |].
      cbn [text Sse.delta]. intros ->. discriminate.
    + rewrite IH. cbn [snd].
      now destruct (snd (processLines parseEvent lines)).
Qed.

Lemma streamChat_shape
  (errors : AdapterErrors) (apiKey : string)
  (upstream : Upstream (option (list string))) :
  (exists msg,
      streamChat parseEvent errors apiKey upstream = ([], Some msg))
  \/ (exists pre,
         streamChat parseEvent errors apiKey upstream
         = ((pre ++ [terminator])%list, None)
         /\ Forall Sse.carriesText pre).
Proof.
  destruct upstream as [msg | ok status statusText errorBody [reads|]].
  - left. unfold streamChat. destruct (negb (Js.truthy apiKey)); eauto.
  - rewrite streamChat_reads.
    destruct (negb (Js.truthy apiKey)); [eauto |].
    destruct (negb ok); [eauto |]. right.
    unfold Spec.chunksOf.
    destruct (processLines_carriesText
                (removelast (Js.split Js.LF (Spec.received reads))))
      as (pre & Hpre & E).
    rewrite E. exists pre. split; [| exact Hpre].
    now destruct (snd (processLines parseEvent _)).
  - left. unfold streamChat. destruct (negb (Js.truthy apiKey)); [eauto |].
    destruct (negb ok); eauto.
Qed.

Lemma processLines_silent (line : string) (rest : list string) :
  Sse.silent parseEvent line ->
  processLines parseEvent (line :: rest) = processLines parseEvent rest.
Proof.
  rewrite processLines_cons.
  intros [-> | (payload & -> & Hdone & Hparse)]; [reflexivity |].
  rewrite (stripPrefix_app "data: " payload).
  apply String.eqb_neq in Hdone. rewrite Hdone.
  now destruct Hparse as [-> | ->].
Qed.

(** X4.  A line that does not start with [data: ] (a comment, an [event:]
    field, a blank line) and an event without content or with empty content
    yield no chunk, and the stream goes on as without that line. *)
Theorem streamChat_skips_silent_line
  (errors : AdapterErrors) (apiKey : string) (ok : bool) (status : Z)
  (statusText errorBody : string) (reads ls : list string)
  (line after : string) :
  Forall Spec.isLine ls -> Spec.isLine line ->
  Sse.silent parseEvent line ->
  Spec.received reads = Spec.unlines ls ++ line ++ Js.newline ++ after ->
  streamChat parseEvent errors apiKey
    (UpstreamResponse ok status statusText errorBody (Some reads))
  = streamChat parseEvent errors apiKey
      (UpstreamResponse ok status statusText errorBody
         (Some [Spec.unlines ls ++ after])).
Proof.
  intros Hls Hl Hs E. rewrite !streamChat_reads, E. cbn [Spec.received].
  rewrite string_app_nil_r.
  rewrite !(chunksOf_unlines parseEvent ls _ Hls).
  rewrite (split_terminated line after Hl).
  rewrite removelast_cons by apply split_nonempty.
  now rewrite !processLines_app, (processLines_silent line _ Hs).
Qed.

Lemma claudeChunks_incomplete (events : list ClaudeEvent) :
  Forall Spec.incomplete (claudeChunks events).
Proof.
  unfold claudeChunks.
  induction events as [|[t|] events IH]; cbn [flat_map app];
    [constructor | constructor; [reflexivity | exact IH] | exact IH].
Qed.

Lemma carriesText_incomplete (pre : list StreamChunk) :
  Forall Sse.carriesText pre -> Forall Spec.incomplete pre.
Proof. apply List.Forall_impl. now intros c [H _]. Qed.

(** X5.  Whatever the model and whatever is behind the adapters,
    [AIProvider.streamChat] either ends with an error before it yields a
    chunk, or yields incomplete chunks, then the terminator, and ends
    without an error.  The incomplete chunks of the two fetch-based
    adapters each carry a non-empty text. *)
Theorem AIProvider_streamChat_fails_first_or_terminates
  (b : Backends) (s : StreamBackends) (config : AIProviderConfig) :
  (exists msg,
      AIProvider_streamChat parseEvent b s config = ([], Some msg))
  \/ (exists pre,
         AIProvider_streamChat parseEvent b s config
         = ((pre ++ [terminator])%list, None)
         /\ Forall Spec.incomplete pre
         /\ (model config <> claude_sonnet_4_5 ->
             Forall Sse.carriesText pre)).
Proof.
  unfold AIProvider_streamChat.
  destruct (model config).
  - destruct (streamChat_shape deepseekErrors (deepseekKey b)
                (deepseekStream s (DeepseekProvider_request true config)))
      as [H | (pre & E & Hpre)]; [now left | right].
    exists pre. split; [exact E |].
    split; [now apply carriesText_incomplete | now intros _].
  - destruct (streamChat_shape gpt5Errors (openaiKey b)
                (openaiStream s (GPT5Provider_request true config)))
      as [H | (pre & E & Hpre)]; [now left | right].
    exists pre. split; [exact E |].
    split; [now apply carriesText_incomplete | now intros _].
  - unfold ClaudeProvider_streamChat.
    destruct (negb (Js.truthy (anthropicKey b))); [left; eauto |].
    destruct (anthropicStream s _) as [events | msg]; [right | left; eauto].
    exists (claudeChunks events). split; [reflexivity |].
    split; [apply claudeChunks_incomplete | congruence].
Qed.

End SseFacts.

(** ** The adapters *)

Section AdapterFacts.

Import Providers Adapters.

Lemma toAnthropicMessage_role (m : ChatMessage) :
  a_role (toAnthropicMessage m) = role m.
Proof. unfold toAnthropicMessage. now destruct (content m). Qed.

Lemma conversation_filter (msgs : list ChatMessage) :
  filter (fun m => isSystem m = false) msgs
  = List.filter (fun m => negb (isSystem m)) msgs.
Proof.
  induction msgs as [|m msgs IH]; [reflexivity |].
  cbn [List.filter]. rewrite filter_cons, IH.
  destruct (isSystem m) eqn:E; cbn [negb].
  - destruct (decide (true = false)) as [H|_]; [discriminate | reflexivity].
  - destruct (decide (false = false)) as [_|H]; [reflexivity | congruence].
Qed.

(** X6.  The messages the Anthropic adapter sends, in [chat] and in
    [streamChat] alike, are the messages of the configuration that are not
    system messages, in their order and with their roles: no message it
    sends has the role [system].  A non-empty [systemPrompt] of the
    configuration is the system prompt it sends, whatever system messages
    there are. *)
Theorem claude_sends_no_system_message (config : AIProviderConfig) :
  let sent := cl_messages (ClaudeProvider_request config) in
  cl_messages (ClaudeProvider_streamRequest config) = sent
  /\ map a_role sent = map role (conversation config)
  /\ Forall (fun m => notSystem (a_role m)) sent
  /\ (forall s,
         systemPrompt config = Some s -> s <> "" ->
         cl_system (ClaudeProvider_request config) = Some s
         /\ cl_system (ClaudeProvider_streamRequest config) = Some s).
Proof.
  cbv zeta.
  unfold ClaudeProvider_request, ClaudeProvider_streamRequest, conversation.
  cbn [cl_messages cl_system]. rewrite conversation_filter.
  split; [reflexivity |]. split; [| split].
  - rewrite map_map. apply map_ext. apply toAnthropicMessage_role.
  - apply Forall_map.
    induction (messages config) as [|m msgs IH]; [constructor |].
    cbn [List.filter]. destruct (isSystem m) eqn:E; cbn [negb]; [exact IH |].
    constructor; [| exact IH].
    rewrite toAnthropicMessage_role. unfold notSystem, isSystem in *.
    intros R. now rewrite R in E.
  - intros s Hs Hne. unfold claudeSystemPrompt. rewrite Hs.
    destruct s; [congruence | now split].
Qed.

(** X7.  A reply of [AIProvider.chat] names the model that was asked for
    and costs that model's flat price, whatever the usage the backend
    reports; there is a reply only when the key of that model's adapter is
    not empty. *)
Theorem chat_reply_costs_flat_price
  (b : Backends) (config : AIProviderConfig) (reply : AIResponse) :
  AIProvider_chat b config = Ok reply ->
  r_model reply = model config
  /\ cost reply = AI_MODEL_PRICING (model config)
  /\ backendKey b (model config) <> "".
Proof.
  unfold AIProvider_chat, DeepseekProvider_chat, GPT5Provider_chat,
    ClaudeProvider_chat, backendKey.
  destruct (model config).
  - destruct (deepseekKey b); cbn [Js.truthy Js.isEmpty negb];
      [discriminate |].
    destruct (deepseekPost b _) as [msg | ok st stt eb [data|msg]];
      try discriminate; destruct ok; cbn [negb]; try discriminate.
    intros E; inversion E. now repeat split.
  - destruct (openaiKey b); cbn [Js.truthy Js.isEmpty negb];
      [discriminate |].
    destruct (openaiPost b _) as [msg | ok st stt eb [data|msg]];
      try discriminate; destruct ok; cbn [negb]; try discriminate.
    intros E; inversion E. now repeat split.
  - destruct (anthropicKey b); cbn [Js.truthy Js.isEmpty negb];
      [discriminate |].
    destruct (anthropicCreate b _) as [data|msg]; [| discriminate].
    intros E; inversion E. now repeat split.
Qed.

End AdapterFacts.

(** ** The gate, path by path *)

Section GateRunsFacts.

Import X402 GateSpec GateRuns.

Variable env : gmap string string.
Variable now : string.
Variable decodePayment : string -> option PaymentPayload.
Variable fetch : string -> PaymentPayload -> PaymentRequirements -> FetchOutcome.
Variable handler : Request -> X402PaymentContext -> Result Response.

Lemma bind_ret {A B} (a : A) (k : A -> Eff B) : bind (ret a) k = k a.
Proof. unfold bind, ret. now destruct (k a). Qed.

Lemma bind_lift_ok {A B} (a : A) (k : A -> Eff B) : bind (lift (Ok a)) k = k a.
Proof. apply bind_ret. Qed.


Lemma create402Response_paymentRequired
  (m : string) (hv : bool) (ep : string) (error : string)
  (reqs : PaymentRequirements) :
  createChatPaymentRequirements env m hv ep = Ok reqs ->
  error <> "" ->
  create402Response env m hv ep (Some error)
  = Ok (paymentRequired error reqs).
Proof.
  intros R He. unfold create402Response, paymentRequired. rewrite R.
  unfold orString, Js.orElse. now destruct error.
Qed.

Lemma verifyPayment_undecodable
  (this : X402PaymentHandler) (h m : string) (hv : bool) (ep : string) :
  decodePayment h = None ->
  verifyPayment env decodePayment fetch this h m hv ep
  = ([], Ok verificationFailed).
Proof.
  intros D. unfold verifyPayment, bind, catch, lift, ret, throw.
  rewrite D. now destruct (createChatPaymentRequirements env m hv ep).
Qed.

Lemma verifyPayment_answered
  (this : X402PaymentHandler) (h m : string) (hv : bool) (ep : string)
  (reqs : PaymentRequirements) (p : PaymentPayload) (st : Z)
  (j : FacilitatorJson) :
  createChatPaymentRequirements env m hv ep = Ok reqs ->
  decodePayment h = Some p ->
  fetch (facilitatorUrl this ++ "/verify") p reqs = HttpResponse st (Some j) ->
  response_ok st = true ->
  verifyPayment env decodePayment fetch this h m hv ep
  = ([EvFetch (facilitatorUrl this ++ "/verify") (HttpResponse st (Some j))],
     Ok (verificationOf j)).
Proof.
  intros R D F O.
  unfold verifyPayment, callFacilitator, bind, catch, lift, ret, throw, emit.
  rewrite R, D, F, O. reflexivity.
Qed.

Lemma settlePayment_answered
  (this : X402PaymentHandler) (h m : string) (hv : bool) (ep : string)
  (reqs : PaymentRequirements) (p : PaymentPayload) (st : Z)
  (j : FacilitatorJson) :
  createChatPaymentRequirements env m hv ep = Ok reqs ->
  decodePayment h = Some p ->
  fetch (facilitatorUrl this ++ "/settle") p reqs = HttpResponse st (Some j) ->
  response_ok st = true ->
  settlePayment env decodePayment fetch this h m hv ep
  = ([EvFetch (facilitatorUrl this ++ "/settle") (HttpResponse st (Some j))],
     Ok (settlementOf j)).
Proof.
  intros R D F O.
  unfold settlePayment, callFacilitator, bind, catch, lift, ret, throw, emit.
  rewrite R, D, F, O. reflexivity.
Qed.

Section WithProof.

Variables (defaultModel : string) (hasVision : bool)
  (endpoint : option string) (req : Request) (cfg : Config)
  (reqs : PaymentRequirements) (h : string).

Hypothesis Hmethod : method req <> "OPTIONS".
Hypothesis Hheader : extractPaymentHeader (req_headers req) = Some h.
Hypothesis Hproof : h <> "".
Hypothesis Hcfg : getX402Config env = Ok cfg.
Hypothesis Hreqs :
  createChatPaymentRequirements env (requestModel defaultModel req)
    hasVision (default "/api/chat" endpoint) = Ok reqs.

Lemma withX402Payment_with_proof :
  withX402Payment_body env now decodePayment fetch handler
    defaultModel hasVision endpoint req
  = let model := requestModel defaultModel req in
    let ep := default "/api/chat" endpoint in
    let* paymentResult :=
      (let* _ := emit VerifyCall in
       let* verification :=
         verifyPayment env decodePayment fetch cfg h model hasVision ep in
       let* _ := emit (VerifyReturn verification) in
       if negb (isValid verification) then
         let* response :=
           lift (create402Response env model hasVision ep
                   (Some ("Payment verification failed: "
                            ++ showOptional (v_error verification)))) in
         ret (Rejected response)
       else
         let* _ := emit SettleCall in
         let* settlement :=
           settlePayment env decodePayment fetch cfg h model hasVision ep in
         let* _ := emit (SettleReturn settlement) in
         if negb (success settlement) then
           let* response :=
             lift (create402Response env model hasVision ep
                     (Some ("Payment settlement failed: "
                              ++ showOptional (s_error settlement)))) in
           ret (Rejected response)
         else
           let* price := lift (getModelPrice env model hasVision) in
           ret (Granted settlement price)) in
    match paymentResult with
    | Rejected response => ret response
    | Granted settlement price =>
        let* _ := emit HandlerCall in
        let* response :=
          lift (handler req {| settlementResult := Some settlement;
                               paymentAmount := Some price |}) in
        let* this' := lift (Ok cfg) in
        lift (addPaymentResponseHeaders now this' response settlement)
    end.
Proof.
  unfold withX402Payment_body.
  apply String.eqb_neq in Hmethod. rewrite Hmethod.
  unfold getX402Handler. rewrite Hcfg, bind_lift_ok.
  unfold handlePaymentFlow. rewrite Hheader.
  unfold orUndefined. destruct h; [congruence | reflexivity].
Qed.

Section Decoded.

Variable p : PaymentPayload.
Hypothesis Hdecoded : decodePayment h = Some p.


Section Verified.

Variables (stv : Z) (jv : FacilitatorJson).
Hypothesis Hverify :
  fetch (facilitatorUrl cfg ++ "/verify") p reqs
  = HttpResponse stv (Some jv).
Hypothesis Hverify_ok : response_ok stv = true.
Hypothesis Hvalid : f_isValid jv = Some true.

Lemma withX402Payment_verified :
  withX402Payment_body env now decodePayment fetch handler
    defaultModel hasVision endpoint req
  = let model := requestModel defaultModel req in
    let ep := default "/api/chat" endpoint in
    let* paymentResult :=
      (let* _ :=
         ([VerifyCall;
           EvFetch (facilitatorUrl cfg ++ "/verify")
                   (HttpResponse stv (Some jv));
           VerifyReturn (verificationOf jv);
           SettleCall], Ok tt) in
       let* settlement :=
         settlePayment env decodePayment fetch cfg h model hasVision ep in
       let* _ := emit (SettleReturn settlement) in
       if negb (success settlement) then
         let* response :=
           lift (create402Response env model hasVision ep
                   (Some ("Payment settlement failed: "
                            ++ showOptional (s_error settlement)))) in
         ret (Rejected response)
       else
         let* price := lift (getModelPrice env model hasVision) in
         ret (Granted settlement price)) in
    match paymentResult with
    | Rejected response => ret response
    | Granted settlement price =>
        let* _ := emit HandlerCall in
        let* response :=
          lift (handler req {| settlementResult := Some settlement;
                               paymentAmount := Some price |}) in
        let* this' := lift (Ok cfg) in
        lift (addPaymentResponseHeaders now this' response settlement)
    end.
Proof.
  rewrite withX402Payment_with_proof. cbv zeta. rewrite bind_emit.
  rewrite (verifyPayment_answered cfg h _ _ _ reqs p stv jv
             Hreqs Hdecoded Hverify Hverify_ok).
  rewrite bind_ok, bind_emit.
  cbn [isValid verificationOf]. rewrite Hvalid. cbn [toBoolean negb].
  rewrite bind_emit. rewrite (bind_ok _ tt). reflexivity.
Qed.


Section Settled.

Variables (sts : Z) (js : FacilitatorJson).
Hypothesis Hsettle :
  fetch (facilitatorUrl cfg ++ "/settle") p reqs
  = HttpResponse sts (Some js).
Hypothesis Hsettle_ok : response_ok sts = true.
Hypothesis Hsuccess : f_success js = Some true.

Lemma requirements_price :
  getModelPrice env (requestModel defaultModel req) hasVision
  = Ok (maxAmountRequired reqs).
Proof.
  revert Hreqs. unfold createChatPaymentRequirements.
  destruct (getX402Config env); [| discriminate].
  destruct (getModelPrice env _ hasVision) as [price|]; [| discriminate].
  destruct (AI_MODEL_PRICING env _); [| discriminate].
  intros E. inversion E. reflexivity.
Qed.

Lemma withX402Payment_settled :
  withX402Payment_body env now decodePayment fetch handler
    defaultModel hasVision endpoint req
  = let* _ :=
      ([VerifyCall;
        EvFetch (facilitatorUrl cfg ++ "/verify")
                (HttpResponse stv (Some jv));
        VerifyReturn (verificationOf jv);
        SettleCall;
        EvFetch (facilitatorUrl cfg ++ "/settle")
                (HttpResponse sts (Some js));
        SettleReturn (settlementOf js);
        HandlerCall], Ok tt) in
    let* response :=
      lift (handler req
              {| settlementResult := Some (settlementOf js);
                 paymentAmount := Some (maxAmountRequired reqs) |}) in
    lift (addPaymentResponseHeaders now cfg response (settlementOf js)).
Proof.
  rewrite withX402Payment_verified. cbv zeta.
  rewrite (settlePayment_answered cfg h _ _ _ reqs p sts js
             Hreqs Hdecoded Hsettle Hsettle_ok).
  rewrite (bind_ok _ tt), bind_ok, bind_emit.
  cbn [success settlementOf]. rewrite Hsuccess. cbn [toBoolean negb].
  rewrite requirements_price, bind_lift_ok.
  unfold bind, emit, lift, ret. cbn [fst snd app].
  now destruct (handler req _).
Qed.

(** X11.  When the proof is verified and settled, the handler is run once,
    with the settlement and with the price the requirements quote.  Its
    response is returned with the receipt attached, unless attaching the
    receipt throws: then the request is answered 500 with the body
    [{"error":"Payment processing error"}], although the payment was settled
    and the handler answered.  That is the case, in particular, when the
    settlement names a transaction and the escaped transaction or the
    escaped amount holds a code unit above 255. *)
Theorem settled_request_served (response : Response) :
  handler req {| settlementResult := Some (settlementOf js);
                 paymentAmount := Some (maxAmountRequired reqs) |}
  = Ok response ->
  withX402Payment env now decodePayment fetch handler
    defaultModel hasVision endpoint req
  = ([VerifyCall;
      EvFetch (facilitatorUrl cfg ++ "/verify") (HttpResponse stv (Some jv));
      VerifyReturn (verificationOf jv);
      SettleCall;
      EvFetch (facilitatorUrl cfg ++ "/settle") (HttpResponse sts (Some js));
      SettleReturn (settlementOf js);
      HandlerCall],
     match addPaymentResponseHeaders now cfg response (settlementOf js) with
     | Ok served => served
     | Throw _ => errorResponse
     end)
  /\ (forall transaction,
         truthyText (f_transaction js) = Some transaction ->
         Js.narrow (Js.escapeUnits transaction)
         && Js.narrow
              (Js.escapeUnits (orText (f_amount js) (Js.codes "0")))
         = false ->
         snd (withX402Payment env now decodePayment fetch handler
                defaultModel hasVision endpoint req)
         = errorResponse).
Proof.
  intros H.
  assert (E : withX402Payment env now decodePayment fetch handler
                defaultModel hasVision endpoint req
              = ([VerifyCall;
                  EvFetch (facilitatorUrl cfg ++ "/verify")
                          (HttpResponse stv (Some jv));
                  VerifyReturn (verificationOf jv);
                  SettleCall;
                  EvFetch (facilitatorUrl cfg ++ "/settle")
                          (HttpResponse sts (Some js));
                  SettleReturn (settlementOf js);
                  HandlerCall],
                 match addPaymentResponseHeaders now cfg response
                         (settlementOf js) with
                 | Ok served => served
                 | Throw _ => errorResponse
                 end)).
  { unfold withX402Payment. rewrite withX402Payment_settled, H.
    rewrite bind_lift_ok. unfold bind, lift.
    now destruct (addPaymentResponseHeaders now cfg response _). }
  split; [exact E |].
  intros t Ht Hwide. rewrite E. cbn [snd].
  unfold addPaymentResponseHeaders.
  cbn [transaction amount success settlementOf].
  rewrite Ht, Hsuccess. cbn [toBoolean].
  unfold Js.btoa. now rewrite receipt_narrow, Hwide.
Qed.

(** X12.  When the handler throws after the payment was settled, the
    request is answered 500 with the body
    [{"error":"Payment processing error"}], which carries no receipt; the
    settlement stays as it is. *)
Theorem handler_failure_after_settlement_answered_500 (msg : string) :
  handler req {| settlementResult := Some (settlementOf js);
                 paymentAmount := Some (maxAmountRequired reqs) |}
  = Throw msg ->
  withX402Payment env now decodePayment fetch handler
    defaultModel hasVision endpoint req
  = ([VerifyCall;
      EvFetch (facilitatorUrl cfg ++ "/verify") (HttpResponse stv (Some jv));
      VerifyReturn (verificationOf jv);
      SettleCall;
      EvFetch (facilitatorUrl cfg ++ "/settle") (HttpResponse sts (Some js));
      SettleReturn (settlementOf js);
      HandlerCall],
     errorResponse)
  /\ success (settlementOf js) = true
  /\ Headers_get "X-PAYMENT-RESPONSE" (headers errorResponse) = None.
Proof.
  intros H. split; [| split].
  - unfold withX402Payment. rewrite withX402Payment_settled, H. reflexivity.
  - cbn [success settlementOf]. now rewrite Hsuccess.
  - vm_compute. reflexivity.
Qed.

End Settled.

End Verified.

End Decoded.

End WithProof.

(** X8.  A request other than the preflight that names a model of the
    pricing table and whose [X-PAYMENT] header is not empty and does not
    decode is never put to the facilitator, never settled, and the handler
    is not run.  When the configuration loads, it is answered 402 with the
    requirements and the reason
    "Payment verification failed: Payment verification failed", after a
    verification that returned the failure value; when the configuration
    does not load, it is answered 500 and nothing is verified. *)
Theorem undecodable_proof_answered_402
  (defaultModel : string) (hasVision : bool) (endpoint : option string)
  (req : Request) (h : string) :
  method req <> "OPTIONS" ->
  extractPaymentHeader (req_headers req) = Some h ->
  h <> "" ->
  In (requestModel defaultModel req) supportedModels ->
  decodePayment h = None ->
  match getX402Config env with
  | Ok _ =>
      exists reqs,
        createChatPaymentRequirements env (requestModel defaultModel req)
          hasVision (default "/api/chat" endpoint) = Ok reqs
        /\ withX402Payment env now decodePayment fetch handler
             defaultModel hasVision endpoint req
           = ([VerifyCall; VerifyReturn verificationFailed],
              paymentRequired
                "Payment verification failed: Payment verification failed"
                reqs)
  | Throw _ =>
      withX402Payment env now decodePayment fetch handler
        defaultModel hasVision endpoint req
      = ([], errorResponse)
  end.
Proof.
  intros Hmethod Hheader Hproof Hmodel D.
  unfold withX402Payment, withX402Payment_body.
  apply String.eqb_neq in Hmethod. rewrite Hmethod.
  unfold getX402Handler.
  destruct (getX402Config env) as [cfg|msg] eqn:Hcfg; [| reflexivity].
  destruct (createChatPaymentRequirements_supported env
              (requestModel defaultModel req) hasVision
              (default "/api/chat" endpoint) cfg Hmodel Hcfg)
    as (reqs & Hreqs & _).
  exists reqs. split; [exact Hreqs |].
  rewrite bind_lift_ok. unfold handlePaymentFlow. rewrite Hheader.
  unfold orUndefined. destruct h as [|c h']; [congruence |].
  cbn [Js.truthy Js.isEmpty negb].
  rewrite bind_emit, (verifyPayment_undecodable _ _ _ _ _ D).
  rewrite bind_ok, bind_emit.
  cbn [isValid v_error verificationFailed negb showOptional].
  rewrite (create402Response_paymentRequired _ _ _ _ reqs Hreqs)
    by discriminate.
  reflexivity.
Qed.

(** X13.  An [X-PAYMENT] header that is the empty string counts as no
    header: the request is answered as the same request without the header,
    and nothing is verified. *)
Theorem empty_proof_is_no_proof
  (defaultModel : string) (hasVision : bool) (endpoint : option string)
  (req : Request) :
  extractPaymentHeader (req_headers req) = Some "" ->
  withX402Payment env now decodePayment fetch handler
    defaultModel hasVision endpoint req
  = withX402Payment env now decodePayment fetch handler
      defaultModel hasVision endpoint (withoutPayment req)
  /\ fst (withX402Payment env now decodePayment fetch handler
            defaultModel hasVision endpoint req) = [].
Proof.
  intros H.
  assert (H' : extractPaymentHeader (req_headers (withoutPayment req)) = None).
  { unfold extractPaymentHeader, Headers_get, withoutPayment.
    cbn [req_headers]. apply lookup_delete_eq. }
  unfold withX402Payment, withX402Payment_body, handlePaymentFlow.
  rewrite H, H'. cbn [orUndefined Js.truthy Js.isEmpty negb].
  unfold requestModel, withoutPayment. cbn [method body_model].
  destruct (String.eqb (method req) "OPTIONS"); [now split |].
  unfold bind, lift, ret.
  destruct (getX402Handler env); [| now split].
  now destruct (create402Response env _ hasVision _ None).
Qed.

(** An OPTIONS request is answered 200 with the CORS headers and no body,
    whatever it carries and whatever the configuration. *)
Lemma preflight_never_charged
  (defaultModel : string) (hasVision : bool) (endpoint : option string)
  (req : Request) :
  method req = "OPTIONS" ->
  withX402Payment env now decodePayment fetch handler
    defaultModel hasVision endpoint req
  = ([], preflightResponse).
Proof.
  intros H. unfold withX402Payment, withX402Payment_body.
  now rewrite H.
Qed.

(** X14.  When the configuration does not load, every request other than
    the preflight is answered 500; nothing is verified or settled and the
    handler is not run. *)
Theorem misconfigured_gate_answers_500
  (defaultModel : string) (hasVision : bool) (endpoint : option string)
  (req : Request) (msg : string) :
  getX402Config env = Throw msg ->
  method req <> "OPTIONS" ->
  withX402Payment env now decodePayment fetch handler
    defaultModel hasVision endpoint req
  = ([], errorResponse).
Proof.
  intros Hcfg Hmethod. unfold withX402Payment, withX402Payment_body.
  apply String.eqb_neq in Hmethod. rewrite Hmethod.
  unfold getX402Handler. now rewrite Hcfg.
Qed.

Lemma rejection_trace (r : Result Response) :
  fst (let* response := lift r in ret (Rejected response)) = [].
Proof. now destruct r. Qed.

Lemma fetches_app (a b : list Event) :
  fetches (a ++ b) = (fetches a ++ fetches b)%list.
Proof. apply List.filter_app. Qed.

(** The HTTP traffic of [handlePaymentFlow]: nothing, one request to
    [/verify], or that and one request to [/settle]. *)
Lemma handlePaymentFlow_fetches
  (this : X402PaymentHandler) (req : Request) (m : string) (hv : bool)
  (ep : option string) :
  let tr := fst (handlePaymentFlow env decodePayment fetch this req m hv ep) in
  fetches tr = []
  \/ (exists o, fetches tr = [EvFetch (facilitatorUrl this ++ "/verify") o])
  \/ (exists o1 o2,
         fetches tr = [EvFetch (facilitatorUrl this ++ "/verify") o1;
                       EvFetch (facilitatorUrl this ++ "/settle") o2]).
Proof.
  cbv zeta. unfold handlePaymentFlow.
  set (epr := default "/api/chat" ep).
  destruct (orUndefined (extractPaymentHeader (req_headers req)) None)
    as [h|]; [| left; now rewrite rejection_trace].
  rewrite bind_emit. cbn [fst].
  destruct (verifyPayment_cases env decodePayment fetch this h m hv epr)
    as [Ev | (reqs & p & v & R & Ev & _)]; rewrite Ev, bind_ok, bind_emit.
  - cbn [isValid verificationFailed negb fst app].
    rewrite rejection_trace. left. reflexivity.
  - cbn [fst app]. destruct (isValid v); cbn [negb].
    + rewrite bind_emit. cbn [fst].
      destruct (settlePayment_cases env decodePayment fetch this h m hv epr)
        as [Es | (reqs' & p' & s & R' & Es & _)];
        rewrite Es, bind_ok, bind_emit; cbn [fst app].
      * cbn [success settlementFailed negb].
        rewrite rejection_trace. right; left. eexists. reflexivity.
      * right; right. do 2 eexists.
        destruct (success s); cbn [negb].
        -- unfold bind, lift, ret.
           destruct (getModelPrice env m hv); reflexivity.
        -- rewrite rejection_trace. reflexivity.
    + rewrite rejection_trace. right; left. eexists. reflexivity.
Qed.

(** X15.  One request through the middleware causes at most two requests
    to the facilitator: none, or one to [/verify], or one to [/verify]
    followed by one to [/settle], both under the configured facilitator
    URL.  Nothing is retried. *)
Theorem at_most_one_verify_then_one_settle_request
  (defaultModel : string) (hasVision : bool) (endpoint : option string)
  (req : Request) :
  let tr := fst (withX402Payment env now decodePayment fetch handler
                   defaultModel hasVision endpoint req) in
  fetches tr = []
  \/ exists cfg,
       getX402Config env = Ok cfg
       /\ ((exists o,
               fetches tr = [EvFetch (facilitatorUrl cfg ++ "/verify") o])
           \/ (exists o1 o2,
                  fetches tr
                  = [EvFetch (facilitatorUrl cfg ++ "/verify") o1;
                     EvFetch (facilitatorUrl cfg ++ "/settle") o2])).
Proof.
  cbv zeta. unfold withX402Payment, withX402Payment_body.
  destruct (String.eqb (method req) "OPTIONS"); [now left |].
  unfold getX402Handler.
  destruct (getX402Config env) as [cfg|msg] eqn:Hcfg; [| now left].
  rewrite bind_lift_ok.
  pose proof (handlePaymentFlow_fetches cfg req
                (requestModel defaultModel req) hasVision endpoint) as H.
  cbv zeta in H.
  destruct (handlePaymentFlow env decodePayment fetch cfg req _ _ _)
    as [tr r].
  cbn [fst] in H.
  match goal with
  | |- context [fetches ?t] => assert (E : fetches t = fetches tr)
  end.
  { destruct r as [[resp | s price] | msg];
      unfold bind, emit, lift, ret; cbn [fst snd app];
      [| destruct (handler req _) as [response|]; cbn [fst snd app];
         [destruct (addPaymentResponseHeaders now cfg response s);
          cbn [fst snd app] |] |];
      now rewrite ?app_nil_r, ?fetches_app, ?app_nil_r. }
  rewrite E. destruct H as [H | H]; [now left | right].
  now exists cfg.
Qed.

End GateRunsFacts.

(** ** Configuration and requirements *)

Section ConfigFacts.

Import X402 GateSpec.

Variable env : gmap string string.

Lemma orString_nonempty (a : option string) (b : string) :
  b <> "" -> orString a b <> "".
Proof.
  intros Hb. destruct a as [s|]; [| exact Hb].
  unfold orString, Js.orElse. now destruct s.
Qed.

Lemma orString_some (a : option string) (s : string) :
  s <> "" -> orString a "" = s -> a = Some s.
Proof.
  intros Hs. destruct a as [t|]; cbn [orString]; [| congruence].
  unfold Js.orElse. destruct t; cbn; congruence.
Qed.

Lemma orUndefined_some (a b : option string) (s : string) :
  orUndefined a b = Some s -> a = Some s \/ b = Some s.
Proof.
  destruct a as [t|]; cbn [orUndefined]; [| now right].
  destruct (Js.truthy t); [now left | now right].
Qed.

Lemma orUndefined_none (b : option string) : orUndefined None b = b.
Proof. reflexivity. Qed.

(** X16.  The configuration fails to load in exactly one case:
    [NODE_ENV] is [production] and [TREASURY_WALLET_ADDRESS] is unset or
    empty. *)
Theorem getX402Config_fails_only_in_production_without_treasury :
  (exists msg, getX402Config env = Throw msg)
  <-> env !! "NODE_ENV" = Some "production"
      /\ (env !! "TREASURY_WALLET_ADDRESS" = None
          \/ env !! "TREASURY_WALLET_ADDRESS" = Some "").
Proof.
  unfold getX402Config. cbv zeta.
  destruct (env !! "TREASURY_WALLET_ADDRESS") as [[|c w]|];
    cbn [orString Js.orElse Js.truthy Js.isEmpty negb andb];
    destruct (env !! "NODE_ENV") as [v|];
    try destruct (String.eqb_spec v "production") as [-> | Hv];
    split;
    try (intros [msg H]; discriminate);
    try (intros [H _]; congruence);
    try (intros [_ [H | H]]; congruence);
    try (intros _; eexists; reflexivity);
    try (intros _; split; [reflexivity | tauto]).
Qed.

Lemma getX402Config_usdcMint (cfg : Config) :
  getX402Config env = Ok cfg ->
  usdcMint cfg = USDC_MINT_ADDRESSES (c_network cfg).
Proof.
  unfold getX402Config. cbv zeta.
  destruct (negb _ && _); [discriminate |].
  intros E. now inversion E.
Qed.

(** X17.  A configuration that loads has no empty field; its asset is the
    USDC mint of its network; the network is mainnet only when one of the
    two network variables says [solana]; and without a fee payer variable
    the treasury pays the fee. *)
Theorem getX402Config_fields (cfg : Config) :
  getX402Config env = Ok cfg ->
  usdcMint cfg = USDC_MINT_ADDRESSES (c_network cfg)
  /\ treasuryWallet cfg <> ""
  /\ baseUrl cfg <> ""
  /\ facilitatorUrl cfg <> ""
  /\ facilitatorFeePayer cfg <> ""
  /\ (c_network cfg = solana ->
      env !! "NEXT_PUBLIC_NETWORK" = Some "solana"
      \/ env !! "NEXT_PUBLIC_SOLANA_NETWORK" = Some "solana")
  /\ (env !! "X402_FACILITATOR_FEE_PAYER" = None ->
      env !! "NEXT_PUBLIC_X402_FEE_PAYER" = None ->
      env !! "FACILITATOR_FEE_PAYER" = None ->
      facilitatorFeePayer cfg = treasuryWallet cfg).
Proof.
  unfold getX402Config. cbv zeta.
  destruct (negb _ && _); [discriminate |].
  intros E. inversion E; subst cfg; clear E.
  cbn [usdcMint c_network treasuryWallet baseUrl facilitatorUrl
       facilitatorFeePayer].
  assert (Ht : orString (env !! "TREASURY_WALLET_ADDRESS")
                 "11111111111111111111111111111111" <> "")
    by (apply orString_nonempty; discriminate).
  repeat split.
  - exact Ht.
  - apply orString_nonempty; discriminate.
  - apply orString_nonempty; discriminate.
  - apply orString_nonempty, Ht.
  - destruct (String.eqb_spec
                (orString (orUndefined (env !! "NEXT_PUBLIC_NETWORK")
                             (env !! "NEXT_PUBLIC_SOLANA_NETWORK")) "")
                "solana") as [Hn | Hn].
    + intros _. apply orString_some in Hn; [| discriminate].
      now apply orUndefined_some.
    + now destruct (String.eqb _ "solana-devnet").
  - intros -> -> ->. reflexivity.
Qed.

(** X18.  For a model of the pricing table and a configuration that
    loads, the requirements are built, and they pay the configured treasury
    in the USDC of the configured network, for the resource under the
    configured base URL, with the configured fee payer and a timeout of 300
    seconds; the amount is the price of the model, a decimal string. *)
Theorem requirements_follow_configuration
  (model : string) (hasVision : bool) (endpoint : string) (cfg : Config) :
  In model supportedModels ->
  getX402Config env = Ok cfg ->
  exists reqs,
    createChatPaymentRequirements env model hasVision endpoint = Ok reqs
    /\ scheme reqs = "exact"
    /\ network reqs = c_network cfg
    /\ asset reqs = USDC_MINT_ADDRESSES (network reqs)
    /\ payTo reqs = treasuryWallet cfg
    /\ resource reqs = baseUrl cfg ++ endpoint
    /\ extra_feePayer reqs = Some (facilitatorFeePayer cfg)
    /\ maxTimeoutSeconds reqs = 300%Z
    /\ getModelPrice env model hasVision = Ok (maxAmountRequired reqs)
    /\ isDecimal (maxAmountRequired reqs) = true.
Proof.
  intros Hm Hcfg.
  unfold createChatPaymentRequirements, getModelPrice. rewrite Hcfg.
  rewrite (getX402Config_usdcMint cfg Hcfg).
  apply supported_cases in Hm as [-> | [-> | ->]];
    cbn [AI_MODEL_PRICING String.eqb];
    (eexists; split; [reflexivity |]);
    cbn [scheme network asset payTo resource extra_feePayer
         maxTimeoutSeconds maxAmountRequired];
    repeat (split; [reflexivity |]);
    destruct hasVision; cbn [visionPrice pricePerMessage];
    apply getPrice_decimal; reflexivity.
Qed.

(** X19.  When the environment overrides no price, the amount the gate
    asks for a message without the vision flag is, in micro-USDC, the cost
    the provider layer reports for that model. *)
Theorem default_gate_price_is_provider_cost (m : Providers.AIModel) :
  (forall k, In k priceKeys -> env !! k = None) ->
  exists p,
    getModelPrice env (Route.modelName m) false = Ok p
    /\ (inject_Z (Z.of_N (decimalValue p))
        == Providers.AI_MODEL_PRICING m * 1000000)%Q.
Proof.
  intros Hunset.
  destruct m; (eexists; split; [reflexivity |]);
    cbn [pricePerMessage];
    rewrite getPrice_unset by (apply Hunset; simpl; tauto);
    vm_compute; reflexivity.
Qed.

End ConfigFacts.

(** ** Sanitising and titles *)

Section TextFacts.

Import Route RouteFacts.

Lemma all_removeAll (p q : ascii -> bool) (s : string) :
  Js.all p s = true -> Js.all p (removeAll q s) = true.
Proof.
  induction s as [|c s IH]; [reflexivity |].
  cbn [Js.all removeAll]. intros H. apply andb_prop in H as [Hc Hs].
  destruct (q c); [now apply IH |]. cbn [Js.all]. now rewrite Hc, IH.
Qed.

Lemma removeAll_all_empty (p : ascii -> bool) (s : string) :
  removeAll p s = "" <-> Js.all p s = true.
Proof.
  induction s as [|c s IH]; [easy |].
  cbn [Js.all removeAll]. destruct (p c); cbn [andb]; [exact IH | easy].
Qed.

Lemma all_trimStart (p : ascii -> bool) (s : string) :
  Js.all p s = true -> Js.all p (Js.trimStart s) = true.
Proof.
  induction s as [|c s IH]; [reflexivity |].
  cbn [Js.trimStart]. destruct (Js.isSpace c); [| easy].
  cbn [Js.all]. intros H. apply andb_prop in H as [_ Hs]. now apply IH.
Qed.

Lemma all_trimEnd (p : ascii -> bool) (s : string) :
  Js.all p s = true -> Js.all p (Js.trimEnd s) = true.
Proof.
  induction s as [|c s IH]; [reflexivity |].
  cbn [Js.trimEnd Js.all]. intros H. apply andb_prop in H as [Hc Hs].
  destruct (Js.isSpace c && Js.isEmpty (Js.trimEnd s)); [reflexivity |].
  cbn [Js.all]. now rewrite Hc, IH.
Qed.

Lemma all_trim (p : ascii -> bool) (s : string) :
  Js.all p s = true -> Js.all p (Js.trim s) = true.
Proof. intros H. now apply all_trimEnd, all_trimStart. Qed.

Lemma ink_trimStart (s : string) : ink (Js.trimStart s) = ink s.
Proof.
  unfold ink. induction s as [|c s IH]; [reflexivity |].
  cbn [Js.trimStart]. destruct (Js.isSpace c) eqn:E; cbn [removeAll];
    rewrite E; [exact IH | reflexivity].
Qed.

Lemma ink_trimEnd (s : string) : ink (Js.trimEnd s) = ink s.
Proof.
  unfold ink. induction s as [|c s IH]; [reflexivity |].
  cbn [Js.trimEnd]. destruct (Js.isSpace c) eqn:Hc; cbn [andb].
  - destruct (Js.trimEnd s) eqn:E; cbn [Js.isEmpty removeAll];
      rewrite Hc; exact IH.
  - cbn [removeAll]. now rewrite Hc, IH.
Qed.

Lemma ink_trim (s : string) : ink (Js.trim s) = ink s.
Proof. unfold Js.trim. now rewrite ink_trimEnd, ink_trimStart. Qed.

Lemma trimEnd_idempotent (s : string) :
  Js.trimEnd (Js.trimEnd s) = Js.trimEnd s.
Proof.
  induction s as [|c s IH]; [reflexivity |].
  cbn [Js.trimEnd].
  destruct (Js.isSpace c && Js.isEmpty (Js.trimEnd s)) eqn:E; [reflexivity |].
  cbn [Js.trimEnd]. now rewrite IH, E.
Qed.

Lemma trimStart_head (s : string) :
  match Js.trimStart s with
  | EmptyString => True
  | String c _ => Js.isSpace c = false
  end.
Proof.
  induction s as [|c s IH]; [exact I |].
  cbn [Js.trimStart]. now destruct (Js.isSpace c) eqn:E.
Qed.

Lemma trim_idempotent (s : string) : Js.trim (Js.trim s) = Js.trim s.
Proof.
  unfold Js.trim. pose proof (trimStart_head s) as H.
  destruct (Js.trimStart s) as [|c t]; [reflexivity |].
  cbn [Js.trimEnd]. rewrite H. cbn [andb Js.trimStart]. rewrite H.
  pose proof (trimEnd_idempotent (String c t)) as I.
  cbn [Js.trimEnd] in I. rewrite H in I. exact I.
Qed.

Lemma blank_trim (s : string) : blank s = true -> Js.trim s = "".
Proof.
  unfold blank, Js.trim. intros H.
  replace (Js.trimStart s) with ""; [reflexivity |].
  induction s as [|c s IH]; [reflexivity |].
  cbn [Js.all] in H. apply andb_prop in H as [Hc Hs].
  cbn [Js.trimStart]. rewrite Hc. now apply IH.
Qed.

Lemma trailingSpaceMatch_spaces (s : string) (k : nat) :
  trailingSpaceMatch s = Some k -> prefixSpaces k s.
Proof.
  revert k. induction s as [|c s IH]; intros k; [discriminate |].
  cbn [trailingSpaceMatch]. destruct (Js.isSpace c) eqn:Hc; [| discriminate].
  destruct (trailingSpaceMatch s) as [k'|].
  - intros E; inversion E; subst k. cbn [prefixSpaces]. split; [exact Hc |].
    now apply IH.
  - destruct (atLineEnd s); [| discriminate].
    intros E; inversion E; subst k. cbn [prefixSpaces]. now split.
Qed.

Lemma ink_stripLineEnds (s : string) (k : nat) :
  prefixSpaces k s -> ink (stripLineEnds k s) = ink s.
Proof.
  unfold ink. revert k. induction s as [|c s IH]; intros k H.
  - now destruct k.
  - destruct k as [|k]; cbn [stripLineEnds].
    + destruct (trailingSpaceMatch (String c s)) as [[|k']|] eqn:E.
      * cbn [removeAll]. now rewrite (IH 0%nat I).
      * apply trailingSpaceMatch_spaces in E. destruct E as [Hc Hs].
        cbn [removeAll]. rewrite Hc. now apply IH.
      * cbn [removeAll]. now rewrite (IH 0%nat I).
    + destruct H as [Hc Hs]. cbn [removeAll]. rewrite Hc. now apply IH.
Qed.

Lemma all_stripLineEnds (p : ascii -> bool) (s : string) (k : nat) :
  Js.all p s = true -> Js.all p (stripLineEnds k s) = true.
Proof.
  revert k. induction s as [|c s IH]; intros k H; [now destruct k |].
  cbn [Js.all] in H. apply andb_prop in H as [Hc Hs].
  destruct k as [|k]; cbn [stripLineEnds]; [| now apply IH].
  destruct (trailingSpaceMatch (String c s)) as [[|k']|];
    try (cbn [Js.all]; now rewrite Hc, IH).
  now apply IH.
Qed.

Lemma ink_without_carriage_returns (s : string) :
  ink (removeAll (fun c => (Js.code c =? 13)%N) s) = ink s.
Proof.
  unfold ink. induction s as [|c s IH]; [reflexivity |].
  cbn [removeAll]. destruct (Js.code c =? 13)%N eqn:E.
  - replace (Js.isSpace c) with true; [exact IH |].
    apply N.eqb_eq in E. unfold Js.isSpace, Js.inRange. now rewrite E.
  - cbn [removeAll]. now rewrite IH.
Qed.

Lemma no_carriage_return_left (s : string) :
  Js.all notCarriageReturn (removeAll (fun c => (Js.code c =? 13)%N) s)
  = true.
Proof.
  induction s as [|c s IH]; [reflexivity |].
  cbn [removeAll]. destruct (Js.code c =? 13)%N eqn:E; [exact IH |].
  cbn [Js.all]. unfold notCarriageReturn at 1. now rewrite E, IH.
Qed.

Lemma sanitizeUserMessage_ink (input : string) :
  ink (sanitizeUserMessage input) = ink input.
Proof.
  unfold sanitizeUserMessage.
  now rewrite ink_trim, (ink_stripLineEnds _ 0%nat I),
    ink_without_carriage_returns.
Qed.

Lemma sanitizeUserMessage_blank (input : string) :
  sanitizeUserMessage input = "" <-> blank input = true.
Proof.
  split.
  - intros E. apply removeAll_all_empty. fold (ink input).
    now rewrite <- sanitizeUserMessage_ink, E.
  - intros H. unfold sanitizeUserMessage. apply blank_trim.
    now apply all_stripLineEnds, all_removeAll.
Qed.

(** X20.  Sanitising a message removes white space only: the characters
    that are not white space are kept, in their order.  The result has no
    white space at either end and no carriage return, and it is empty
    exactly when the message is white space only. *)
Theorem sanitizeUserMessage_removes_only_white_space (input : string) :
  ink (sanitizeUserMessage input) = ink input
  /\ Js.trim (sanitizeUserMessage input) = sanitizeUserMessage input
  /\ Js.all notCarriageReturn (sanitizeUserMessage input) = true
  /\ (sanitizeUserMessage input = "" <-> blank input = true).
Proof.
  split; [apply sanitizeUserMessage_ink |].
  split; [apply trim_idempotent |].
  split; [| apply sanitizeUserMessage_blank].
  unfold sanitizeUserMessage.
  apply all_trim, all_stripLineEnds, no_carriage_return_left.
Qed.

Lemma condense_titleChar (inRun : bool) (s : string) :
  Js.all titleChar (condense inRun s) = true.
Proof.
  revert inRun. induction s as [|c s IH]; intros inRun; [reflexivity |].
  cbn [condense]. destruct (Js.isSpace c) eqn:Hc.
  - destruct inRun; [apply IH |]. cbn [Js.all]. now rewrite IH.
  - cbn [Js.all]. unfold titleChar at 1. now rewrite Hc, IH.
Qed.

Lemma all_take (p : ascii -> bool) (n : nat) (s : string) :
  Js.all p s = true -> Js.all p (take n s) = true.
Proof.
  revert s. induction n as [|n IH]; intros [|c s]; try reflexivity.
  cbn [Js.all take]. intros H. apply andb_prop in H as [Hc Hs].
  now rewrite Hc, IH.
Qed.

Lemma all_app (p : ascii -> bool) (a b : string) :
  Js.all p a = true -> Js.all p b = true -> Js.all p (a ++ b) = true.
Proof.
  intros Ha Hb. induction a as [|c a IH]; [exact Hb |].
  cbn [Js.all] in Ha |- *. apply andb_prop in Ha as [Hc Ha].
  cbn [String.append Js.all]. now rewrite Hc, IH.
Qed.

Lemma take_length (n : nat) (s : string) : String.length (take n s) <= n.
Proof.
  revert s. induction n as [|n IH]; intros [|c s]; cbn [take String.length];
    try lia.
  specialize (IH s). lia.
Qed.

(** X21.  A chat title is never empty and has no white space but the
    space character; it is "New Chat" for a message of white space only,
    and otherwise at most 48 characters of the message, followed by the
    ellipsis when more were left. *)
Theorem formatChatTitle_short_single_line (message : string) :
  formatChatTitle message <> ""
  /\ Js.all titleChar (formatChatTitle message) = true
  /\ (blank message = true -> formatChatTitle message = "New Chat")
  /\ exists kept,
       String.length kept <= 48
       /\ (formatChatTitle message = kept
           \/ formatChatTitle message = kept ++ "…").
Proof.
  unfold formatChatTitle. cbv zeta.
  assert (Hc : Js.all titleChar (Js.trim (condense false message)) = true)
    by apply all_trim, condense_titleChar.
  split; [| split; [| split]].
  - destruct (Js.trim (condense false message)) as [|c t] eqn:E;
      cbn [Js.isEmpty]; [discriminate |].
    destruct (48 <? _)%nat; discriminate.
  - destruct (Js.isEmpty _); [reflexivity |].
    destruct (48 <? _)%nat; [| exact Hc].
    apply all_app; [now apply all_take | reflexivity].
  - intros Hb.
    assert (E : ink (Js.trim (condense false message)) = "").
    { rewrite ink_trim. unfold ink. apply removeAll_all_empty.
      clear Hc. unfold blank in Hb. generalize false.
      induction message as [|c s IH]; intros inRun; [reflexivity |].
      cbn [Js.all] in Hb. apply andb_prop in Hb as [Hc Hs].
      cbn [condense]. rewrite Hc.
      destruct inRun; [now apply IH |]. cbn [Js.all]. now rewrite IH. }
    pose proof (trimStart_head (condense false message)) as Hh.
    unfold Js.trim in E |- *.
    destruct (Js.trimStart (condense false message)) as [|c t];
      [reflexivity |].
    exfalso. rewrite ink_trimEnd in E. unfold ink in E.
    cbn [removeAll] in E. now rewrite Hh in E.
  - destruct (Js.isEmpty _); [exists "New Chat"; split; [cbn; lia | now left] |].
    destruct (48 <? String.length _)%nat eqn:L.
    + exists (take 48 (Js.trim (condense false message))).
      split; [apply take_length | now right].
    + exists (Js.trim (condense false message)).
      apply Nat.ltb_ge in L. split; [exact L | now left].
Qed.

End TextFacts.

(** ** The chat handler *)

Section HandlerFacts.

Import Providers Route RouteFacts.

Variable getOrCreateUser : string -> Result UserRow.
Variable getChatById : string -> Result (option ChatRow).
Variable getChatMessages : string -> Z -> Result (list MessageRow).
Variable getChatMessageCount : string -> Result Q.
Variable extractPdfText : string -> Result string.
Variable createChat : string -> string -> AIModel -> Result ChatRow.
Variable addMessage : string -> string -> Role -> string -> Result string.
Variable sanitizeAssistantResponse : string -> string.

(** The handler over these collaborators and the provider [chat]. *)
Local Abbreviation handle chat :=
  (handleChatRequest getOrCreateUser getChatById getChatMessages
     getChatMessageCount extractPdfText chat createChat addMessage
     sanitizeAssistantResponse).

Local Abbreviation handle_try chat :=
  (handleChatRequest_try getOrCreateUser getChatById getChatMessages
     getChatMessageCount extractPdfText chat createChat addMessage
     sanitizeAssistantResponse).

Lemma normalizeLoop_firstn (entries : list RawEntry)
  (acc : list NormalizedAttachment) :
  List.length acc < MAX_ATTACHMENTS ->
  normalizeLoop entries acc
  = firstn MAX_ATTACHMENTS (acc ++ omap normalizeEntry entries).
Proof.
  revert acc. induction entries as [|e entries IH]; intros acc Hacc.
  - cbn [normalizeLoop omap list_omap]. rewrite app_nil_r.
    symmetry. apply firstn_all2. lia.
  - cbn [normalizeLoop omap list_omap].
    destruct (normalizeEntry e) as [a|]; [| now apply IH].
    replace (acc ++ a :: omap normalizeEntry entries)%list
      with ((acc ++ [a]) ++ omap normalizeEntry entries)%list
      by now rewrite <- app_assoc.
    destruct (MAX_ATTACHMENTS <=? List.length (acc ++ [a]))%nat eqn:L.
    + apply Nat.leb_le in L. rewrite length_app in L. cbn in L.
      assert (E : List.length (acc ++ [a]) = MAX_ATTACHMENTS)
        by (rewrite length_app; cbn; lia).
      rewrite <- E at 1. rewrite firstn_app, firstn_all, Nat.sub_diag.
      cbn [firstn]. now rewrite app_nil_r.
    + apply Nat.leb_gt in L. now apply IH.
Qed.

(** X22.  [normalizeAttachments] returns the first four entries it
    accepts, in the order of the request; what follows the fourth is
    dropped. *)
Theorem normalizeAttachments_first_four_accepted
  (input : option (list RawEntry)) :
  normalizeAttachments input
  = firstn MAX_ATTACHMENTS (omap normalizeEntry (default [] input)).
Proof.
  destruct input as [entries|]; [| reflexivity].
  cbn [normalizeAttachments default].
  apply (normalizeLoop_firstn entries []). unfold MAX_ATTACHMENTS. cbn. lia.
Qed.

Lemma normalizeEntry_wellFormed (e : RawEntry) (a : NormalizedAttachment) :
  normalizeEntry e = Some a -> wellFormed a.
Proof.
  unfold normalizeEntry.
  destruct e as [|name type [sz|] url]; try discriminate.
  destruct (Js.isEmpty _) eqn:N; cbn [orb]; [discriminate |].
  destruct (Qle_bool sz 0) eqn:P; cbn [orb]; [discriminate |].
  destruct (Qle_bool sz MAX_ATTACHMENT_BYTES) eqn:M; cbn [negb];
    [| discriminate].
  destruct (Js.isEmpty (default "" url)); cbn [orb]; [discriminate |].
  destruct (isValidDataUrl (default "" url)) eqn:V; cbn [negb];
    [| discriminate].
  intros E; inversion E; subst a; clear E.
  unfold wellFormed. cbn [fileName size mimeType dataUrl].
  split; [| split; [| split; [| split; [| split]]]].
  - intros E. now rewrite E in N.
  - destruct name as [s|]; [apply trim_idempotent | reflexivity].
  - apply Qnot_le_lt. intros H. apply Qle_bool_iff in H. congruence.
  - now apply Qle_bool_iff.
  - apply orElse_nonempty. discriminate.
  - exact V.
Qed.

(** X23.  Every attachment [normalizeAttachments] returns has a name that
    is not empty and has no white space at either end, a size above zero
    and of at most 5 MiB, a MIME type that is not empty and a data URL
    that matches the pattern. *)
Theorem normalizeAttachments_wellFormed (input : option (list RawEntry)) :
  Forall wellFormed (normalizeAttachments input)
  /\ List.length (normalizeAttachments input) <= MAX_ATTACHMENTS.
Proof.
  split.
  - destruct input as [entries|]; [| constructor].
    apply normalizeLoop_accepted;
      [apply normalizeEntry_wellFormed | constructor].
  - destruct input as [entries|]; [| unfold MAX_ATTACHMENTS; cbn; lia].
    cbn [normalizeAttachments].
    rewrite (normalizeLoop_firstn entries [])
      by (unfold MAX_ATTACHMENTS; cbn; lia).
    apply firstn_le_length.
Qed.

Lemma admitted_checks (body : ChatRequest) (m : AIModel) :
  admitted body m ->
  Js.truthy (orEmpty (walletAddress body)) = true
  /\ negb (Js.truthy (orEmpty (message body)))
     && (List.length (normalizeAttachments (files body)) =? 0)%nat = false
  /\ negb (Js.truthy (sanitizeUserMessage (orEmpty (message body))))
     && (List.length (normalizeAttachments (files body)) =? 0)%nat = false.
Proof.
  intros (Hw & _ & Hc). split; [| split].
  - now destruct (orEmpty (walletAddress body)).
  - destruct Hc as [Hs | Ha].
    + destruct (orEmpty (message body)); [now destruct Hs | reflexivity].
    + destruct (normalizeAttachments (files body)); [congruence |].
      apply andb_false_r.
  - destruct Hc as [Hs | Ha].
    + now destruct (sanitizeUserMessage (orEmpty (message body))).
    + destruct (normalizeAttachments (files body)); [congruence |].
      apply andb_false_r.
Qed.

(** The handler on an admitted request: what is left is the data store and
    the provider. *)
Lemma handle_try_admitted
  (chat : AIProviderConfig -> Result AIResponse)
  (body : ChatRequest) (m : AIModel) :
  admitted body m ->
  handle_try chat (Some body)
  = match getOrCreateUser (orEmpty (walletAddress body)) with
    | Throw msg => Throw msg
    | Ok account =>
        let temperature := default (Real (7 # 10)) (req_temperature body) in
        let maxTokens := default (Real 1024) (req_maxTokens body) in
        let sanitized := sanitizeUserMessage (orEmpty (message body)) in
        let attachments := normalizeAttachments (files body) in
        if Js.truthy (orEmpty (chatId body)) then
          match loadChatContext getChatById getChatMessages
                  (orEmpty (chatId body)) (id account) with
          | Throw _ => Ok (errorResponse 404 "Chat not found for this wallet.")
          | Ok (found, rows) =>
              match getChatMessageCount (orEmpty (chatId body)) with
              | Throw _ =>
                  Ok (errorResponse 404 "Chat not found for this wallet.")
              | Ok messageCount =>
                  if Qle_bool 80 messageCount
                  then Ok (errorResponse 400
                             "Этот чат достиг лимита в 80 сообщений. Пожалуйста, создайте новый чат для продолжения общения.")
                  else respond extractPdfText chat createChat addMessage
                         sanitizeAssistantResponse account (Some found) rows m
                         temperature maxTokens sanitized attachments
              end
          end
        else respond extractPdfText chat createChat addMessage
               sanitizeAssistantResponse account None [] m
               temperature maxTokens sanitized attachments
    end.
Proof.
  intros H. destruct (admitted_checks body m H) as (Hw & Hc & Hs).
  destruct H as (_ & Hm & _).
  unfold handleChatRequest_try. cbv zeta.
  rewrite Hw, Hc, Hm, Hs. reflexivity.
Qed.

(** X24.  An admitted request that names a chat the caller may not
    continue (one that cannot be read, does not exist, or belongs to
    another user) is answered 404, whatever the provider would say. *)
Theorem chat_of_another_user_answered_404
  (chat : AIProviderConfig -> Result AIResponse)
  (body : ChatRequest) (m : AIModel) (account : UserRow) :
  admitted body m ->
  getOrCreateUser (orEmpty (walletAddress body)) = Ok account ->
  orEmpty (chatId body) <> "" ->
  notOwned (getChatById (orEmpty (chatId body))) (id account) ->
  handle chat (Some body)
  = errorResponse 404 "Chat not found for this wallet.".
Proof.
  intros Ha Hu Hc Hn. unfold handleChatRequest.
  rewrite (handle_try_admitted chat body m Ha), Hu. cbv zeta.
  replace (Js.truthy (orEmpty (chatId body))) with true
    by now destruct (orEmpty (chatId body)).
  unfold loadChatContext, notOwned in *.
  destruct (getChatById (orEmpty (chatId body))) as [[row|]|];
    try reflexivity.
  apply String.eqb_neq in Hn. now rewrite Hn.
Qed.

(** X25.  An admitted request that continues a chat of the caller which
    holds 80 messages or more is answered 400, whatever the provider would
    say. *)
Theorem full_chat_answered_400
  (chat : AIProviderConfig -> Result AIResponse)
  (body : ChatRequest) (m : AIModel) (account : UserRow) (row : ChatRow)
  (rows : list MessageRow) (messageCount : Q) :
  admitted body m ->
  getOrCreateUser (orEmpty (walletAddress body)) = Ok account ->
  orEmpty (chatId body) <> "" ->
  getChatById (orEmpty (chatId body)) = Ok (Some row) ->
  user_id row = id account ->
  getChatMessages (orEmpty (chatId body)) HISTORY_LIMIT = Ok rows ->
  getChatMessageCount (orEmpty (chatId body)) = Ok messageCount ->
  (80 <= messageCount)%Q ->
  handle chat (Some body)
  = errorResponse 400
      "Этот чат достиг лимита в 80 сообщений. Пожалуйста, создайте новый чат для продолжения общения.".
Proof.
  intros Ha Hu Hc Hf Ho Hr Hn Hfull. unfold handleChatRequest.
  rewrite (handle_try_admitted chat body m Ha), Hu. cbv zeta.
  replace (Js.truthy (orEmpty (chatId body))) with true
    by now destruct (orEmpty (chatId body)).
  unfold loadChatContext. rewrite Hf, Ho, String.eqb_refl, Hr, Hn.
  apply Qle_bool_iff in Hfull. now rewrite Hfull.
Qed.

(** X26.  When the provider fails on an admitted request for a new chat,
    the answer is 500 with the error "Internal server error" and the
    details "Failed to call <model>: <the provider's message>"; no chat is
    created first. *)
Theorem provider_failure_answered_500
  (chat : AIProviderConfig -> Result AIResponse)
  (body : ChatRequest) (m : AIModel) (account : UserRow) (msg : string) :
  admitted body m ->
  getOrCreateUser (orEmpty (walletAddress body)) = Ok account ->
  orEmpty (chatId body) = "" ->
  (forall config, chat config = Throw msg) ->
  handle chat (Some body)
  = {| status := 500;
       body := ErrorBody "Internal server error"
                 (Some ("Failed to call " ++ modelName m ++ ": " ++ msg)) |}.
Proof.
  intros Ha Hu Hc Hdown. unfold handleChatRequest.
  rewrite (handle_try_admitted chat body m Ha), Hu, Hc. cbv zeta.
  cbn [Js.truthy Js.isEmpty negb].
  unfold respond, callAIProvider. now rewrite Hdown.
Qed.


Lemma respond_status
  (chat : AIProviderConfig -> Result AIResponse)
  (account : UserRow) (chatRecord : option ChatRow)
  (rows : list MessageRow) (m : AIModel) (t n : Coerced) (sanitized : string)
  (attachments : list NormalizedAttachment) (response : Response) :
  respond extractPdfText chat createChat addMessage
    sanitizeAssistantResponse account chatRecord rows m t n sanitized attachments
  = Ok response ->
  status response = 200%Z.
Proof.
  unfold respond. cbv zeta.
  destruct (callAIProvider chat _ _ _ _) as [reply|]; [| discriminate].
  destruct (match chatRecord with Some c => Ok c | None => _ end)
    as [record|]; [| discriminate].
  destruct (addMessage _ _ user _); [| discriminate].
  destruct (addMessage _ _ assistant _); [| discriminate].
  intros E. now inversion E.
Qed.

(** X28.  The chat handler answers every request, and with one of the
    statuses 200, 400, 404, 422 and 500. *)
Theorem handleChatRequest_statuses
  (chat : AIProviderConfig -> Result AIResponse)
  (request : option ChatRequest) :
  In (status (handle chat request)) handlerStatuses.
Proof.
  unfold handleChatRequest, handlerStatuses.
  destruct (handle_try chat request) as [response|msg] eqn:E;
    [| cbn; tauto].
  revert E. unfold handleChatRequest_try.
  destruct request as [body|]; [| discriminate]. cbv zeta.
  destruct (_ || _); [intros E; inversion E; cbn; tauto |].
  destruct (validModel _) as [m|]; [| intros E; inversion E; cbn; tauto].
  destruct (_ && _); [intros E; inversion E; cbn; tauto |].
  destruct (getOrCreateUser _) as [account|]; [| discriminate].
  destruct (Js.truthy (orEmpty (chatId body))).
  - destruct (loadChatContext _ _ _ _) as [[found rows]|];
      [| intros E; inversion E; cbn; tauto].
    destruct (getChatMessageCount _) as [messageCount|];
      [| intros E; inversion E; cbn; tauto].
    destruct (Qle_bool 80 messageCount);
      [intros E; inversion E; cbn; tauto |].
    intros E. apply respond_status in E. rewrite E. cbn; tauto.
  - intros E. apply respond_status in E. rewrite E. cbn; tauto.
Qed.

Lemma priorMessage_deepseek (row : MessageRow) :
  plainContent (priorMessage deepseek row).
Proof.
  unfold priorMessage, plainContent. cbv zeta.
  cbn [supportsVision]. rewrite andb_false_r. eexists. reflexivity.
Qed.

Lemma userMessageContent_deepseek
  (sanitized : string) (attachments : list NormalizedAttachment) :
  exists s,
    userMessageContent extractPdfText deepseek sanitized attachments
    = Plain s.
Proof.
  unfold userMessageContent. cbv zeta. cbn [supportsVision].
  rewrite andb_false_r.
  destruct (existsb isImage attachments); eexists; reflexivity.
Qed.

Lemma resolvedTemperature_withinOrNaN (t : Coerced) :
  withinOrNaN 0 2 (Some (resolvedTemperature t)).
Proof.
  destruct t as [q | [|] |]; [| | | now left]; right; eexists;
    (split; [reflexivity |]);
    [apply resolveTemperature_range | split; discriminate
    | split; discriminate].
Qed.

Lemma resolvedMaxTokens_withinOrNaN (n : Coerced) :
  withinOrNaN 256 2048 (Some (resolvedMaxTokens n)).
Proof.
  destruct n as [q | [|] |]; [| | | now left]; right; eexists;
    (split; [reflexivity |]);
    [apply resolveMaxTokens_range | split; discriminate
    | split; discriminate].
Qed.

Lemma respond_routed
  (rows : list MessageRow) (m : AIModel) (t n : Coerced) (sanitized : string)
  (attachments : list NormalizedAttachment) :
  routed
    (providerConfig m
       (map (priorMessage m) rows
        ++ [{| role := user;
               content :=
                 userMessageContent extractPdfText m sanitized
                   attachments |}])
       (resolvedTemperature t) (resolvedMaxTokens n)).
Proof.
  unfold routed, providerConfig.
  cbn [systemPrompt temperature maxTokens messages model].
  split; [reflexivity |].
  split; [apply resolvedTemperature_withinOrNaN |].
  split; [apply resolvedMaxTokens_withinOrNaN |].
  split; [do 2 eexists; reflexivity |].
  intros ->. apply Forall_app. split.
  - apply Forall_map. apply Forall_forall. intros row _.
    apply priorMessage_deepseek.
  - constructor; [| constructor].
    destruct (userMessageContent_deepseek sanitized attachments) as [s E].
    exists s. exact E.
Qed.

Lemma respond_agree
  (chat chat' : AIProviderConfig -> Result AIResponse)
  (account : UserRow) (chatRecord : option ChatRow)
  (rows : list MessageRow) (m : AIModel) (t n : Coerced) (sanitized : string)
  (attachments : list NormalizedAttachment) :
  (forall config, routed config -> chat config = chat' config) ->
  respond extractPdfText chat createChat addMessage
    sanitizeAssistantResponse account chatRecord rows m t n sanitized attachments
  = respond extractPdfText chat' createChat addMessage
      sanitizeAssistantResponse account chatRecord rows m t n sanitized
      attachments.
Proof.
  intros H. unfold respond, callAIProvider. cbv zeta.
  now rewrite (H _ (respond_routed rows m t n sanitized attachments)).
Qed.

(** A clamped member is NaN only when the request holds something that is
    not a number. *)
Lemma resolved_NaN (t : Coerced) :
  (resolvedTemperature t = Js.NaN <-> t = NotANumber)
  /\ (resolvedMaxTokens t = Js.NaN <-> t = NotANumber).
Proof.
  now split; destruct t as [q | [|] |]; (split; [intros E | intros E]).
Qed.

(** X29.  The handler consults the provider on nothing but what it has
    shaped: the fixed system prompt, a temperature that is within 0..2 or
    NaN, a token limit that is within 256..2048 or NaN (NaN when the
    request holds something there that is not a number: the body is not
    checked, and the clamp keeps NaN), messages that end with the user's
    message, and, for the model without vision, messages whose content is a
    plain string.  Two providers that agree on such configurations get the
    same answer out of the handler, for every request. *)
Theorem provider_consulted_on_routed_configurations_only
  (chat chat' : AIProviderConfig -> Result AIResponse)
  (request : option ChatRequest) :
  (forall config, routed config -> chat config = chat' config) ->
  handle chat request = handle chat' request.
Proof.
  intros H.
  assert (E : handle_try chat request = handle_try chat' request);
    [| unfold handleChatRequest; now rewrite E].
  unfold handleChatRequest_try.
  destruct request as [body|]; [| reflexivity]. cbv zeta.
  destruct (_ || _); [reflexivity |].
  destruct (validModel _) as [m|]; [| reflexivity].
  destruct (_ && _); [reflexivity |].
  destruct (getOrCreateUser _) as [account|]; [| reflexivity].
  destruct (Js.truthy (orEmpty (chatId body))).
  - destruct (loadChatContext _ _ _ _) as [[found rows]|]; [| reflexivity].
    destruct (getChatMessageCount _) as [messageCount|]; [| reflexivity].
    destruct (Qle_bool 80 messageCount); [reflexivity |].
    now apply respond_agree.
  - now apply respond_agree.
Qed.

End HandlerFacts.

(** ** Base64 *)

Section Base64Facts.

Import X402 GateSpec.

Lemma below_64 (P : N -> Prop) :
  (forall k, (k < 64)%nat -> P (N.of_nat k)) ->
  forall n, (n < 64)%N -> P n.
Proof.
  intros H n Hn. rewrite <- (N2Nat.id n). apply H. lia.
Qed.

Lemma base64Digit_facts (n : N) :
  (n < 64)%N ->
  Js.base64Value (Js.base64Digit n) = Some n
  /\ Ascii.eqb (Js.base64Digit n) "=" = false
  /\ Js.isAsciiWhitespace (Js.base64Digit n) = false.
Proof.
  revert n. apply below_64. intros k Hk.
  assert (H : forallb
                (fun k =>
                   match Js.base64Value (Js.base64Digit (N.of_nat k)) with
                   | Some v => (v =? N.of_nat k)%N
                   | None => false
                   end
                   && negb (Ascii.eqb (Js.base64Digit (N.of_nat k)) "=")
                   && negb (Js.isAsciiWhitespace
                              (Js.base64Digit (N.of_nat k))))
                (seq 0 64) = true) by (vm_compute; reflexivity).
  rewrite forallb_forall in H. specialize (H k).
  assert (Hin : In k (seq 0 64)) by (apply in_seq; lia).
  apply H in Hin. apply andb_prop in Hin as [Hin Hw].
  apply andb_prop in Hin as [Hv He].
  apply negb_true_iff in He, Hw.
  destruct (Js.base64Value _) as [v|]; [| discriminate].
  apply N.eqb_eq in Hv. now subst v.
Qed.

Lemma dropPad_cons (c : ascii) (s : string) :
  Ascii.eqb c "=" = false -> Js.dropPad (String c s) = String c (Js.dropPad s).
Proof. intros H. cbn [Js.dropPad]. rewrite H. now destruct s. Qed.

Lemma list_ind3 {A} (P : list A -> Prop) :
  P [] -> (forall a, P [a]) -> (forall a b, P [a; b]) ->
  (forall a b c l, P l -> P (a :: b :: c :: l)) ->
  forall l, P l.
Proof.
  intros H0 H1 H2 H3. fix IH 1.
  intros [|a [|b [|c l]]]; [exact H0 | apply H1 | apply H2 |].
  apply H3, IH.
Qed.

Lemma codes_bounded (s : string) : Forall (fun n => (n < 256)%N) (Js.codes s).
Proof.
  induction s as [|c s IH]; constructor; [apply N_ascii_bounded | exact IH].
Qed.

Lemma fromCodes_codes (s : string) : Js.fromCodes (Js.codes s) = s.
Proof.
  induction s as [|c s IH]; [reflexivity |].
  cbn [Js.codes Js.fromCodes]. unfold Js.code.
  now rewrite ascii_N_embedding, IH.
Qed.

(** Linear arithmetic with division by a constant. *)
Ltac divlia := zify; Z.to_euclidean_division_equations; lia.

Ltac digit n :=
  let H := fresh "B" in
  assert (H : (n < 64)%N) by divlia;
  destruct (base64Digit_facts n H) as (?V & ?E & ?W); clear H.

Ltac unpad :=
  repeat (progress (rewrite ?dropPad_cons by assumption;
                    cbn [Js.dropPad Ascii.eqb Bool.eqb Js.decodeGroups])).

Lemma base64_decodes (bytes : list N) :
  Forall (fun n => (n < 256)%N) bytes ->
  Js.without Js.isAsciiWhitespace (Js.base64 bytes) = Js.base64 bytes
  /\ (String.length (Js.base64 bytes) mod 4 = 0)%nat
  /\ Js.decodeGroups (Js.dropPad (Js.dropPad (Js.base64 bytes)))
     = Some bytes.
Proof.
  induction bytes as [|a|a b|a b c l IH] using list_ind3; intros Hb.
  - repeat split.
  - inversion Hb as [|? ? Ha _]; subst.
    digit (a / 4)%N. digit ((a mod 4) * 16)%N.
    cbn [Js.base64 Js.without String.length]. rewrite W, W0.
    split; [reflexivity |]. split; [reflexivity |].
    unpad. rewrite V, V0. do 3 f_equal. divlia.
  - inversion Hb as [|? ? Ha Hb']; subst.
    inversion Hb' as [|? ? Hb'' _]; subst.
    digit (a / 4)%N. digit ((a mod 4) * 16 + b / 16)%N.
    digit ((b mod 16) * 4)%N.
    cbn [Js.base64 Js.without String.length]. rewrite W, W0, W1.
    split; [reflexivity |]. split; [reflexivity |].
    unpad. rewrite V, V0, V1.
    f_equal. f_equal; [divlia |]. f_equal. divlia.
  - inversion Hb as [|? ? Ha Hb']; subst.
    inversion Hb' as [|? ? Hb'' Hc']; subst.
    inversion Hc' as [|? ? Hc Hl]; subst.
    destruct (IH Hl) as (IW & IL & ID).
    digit (a / 4)%N. digit ((a mod 4) * 16 + b / 16)%N.
    digit ((b mod 16) * 4 + c / 64)%N. digit (c mod 64)%N.
    cbn [Js.base64 Js.without String.length]. rewrite W, W0, W1, W2, IW.
    split; [reflexivity |]. split.
    + replace (S (S (S (S (String.length (Js.base64 l))))))
        with (String.length (Js.base64 l) + 1 * 4)%nat by lia.
      now rewrite Nat.Div0.mod_add.
    + unpad. rewrite V, V0, V1, V2, ID.
      f_equal. f_equal; [divlia |]. f_equal; [divlia |]. f_equal. divlia.
Qed.

Lemma narrow_bounded (u : Js.wstring) :
  Js.narrow u = true -> Forall (fun n => (n < 256)%N) u.
Proof.
  unfold Js.narrow. induction u as [|n u IH]; [constructor |].
  cbn [forallb]. intros H. apply andb_prop in H as [Hn Hu].
  constructor; [now apply N.ltb_lt | now apply IH].
Qed.

Lemma codes_fromCodes (u : Js.wstring) :
  Js.narrow u = true -> Js.codes (Js.fromCodes u) = u.
Proof.
  intros H. apply narrow_bounded in H.
  induction H as [|n u Hn _ IH]; [reflexivity |].
  cbn [Js.fromCodes Js.codes]. unfold Js.code.
  now rewrite N_ascii_embedding, IH.
Qed.

(** What [btoa] returns, [atob] decodes to the same code units. *)
Lemma atob_btoa (u : Js.wstring) (encoded : string) :
  Js.btoa u = Some encoded ->
  exists text, Js.atob encoded = Some text /\ Js.codes text = u.
Proof.
  unfold Js.btoa. destruct (Js.narrow u) eqn:N; [| discriminate].
  intros E. inversion E; subst encoded; clear E.
  exists (Js.fromCodes u). split; [| now apply codes_fromCodes].
  unfold Js.atob, Js.removePadding.
  destruct (base64_decodes u (narrow_bounded u N)) as (W & L & D).
  rewrite W, L. cbn [Nat.eqb]. now rewrite D.
Qed.

(** X30.  The receipt can be read back with [decodeBase64].  When the
    settlement succeeded and names a transaction that is not the empty
    string, and the escaped transaction and the escaped amount hold no code
    unit above 255, [addPaymentResponseHeaders] returns a response whose
    [X-PAYMENT-RESPONSE] header [decodeBase64] decodes, in a runtime that
    has [atob], to the JSON text of
    [{success, transaction, network, amount, timestamp}]; this for a
    response with a status within 200..599. *)
Theorem receipt_header_decodes
  (now : string) (this : X402PaymentHandler) (response : Response)
  (settlement : SettlementResult) (transaction : Js.wstring) :
  receiptTransaction settlement = Some transaction ->
  Js.narrow (Js.escapeUnits transaction)
  && Js.narrow (Js.escapeUnits (orText (amount settlement) (Js.codes "0")))
  = true ->
  statusInRange (status response) = true ->
  exists served header text,
    addPaymentResponseHeaders now this response settlement = Ok served
    /\ Headers_get "X-PAYMENT-RESPONSE" (headers served) = Some header
    /\ decodeBase64 header = Ok text
    /\ Js.codes text
       = Js.stringifyUnits
           (paymentResponse now this transaction (amount settlement)).
Proof.
  intros H Hn Hs. rewrite <- (receipt_narrow now this) in Hn.
  unfold receiptTransaction in H. unfold addPaymentResponseHeaders.
  destruct (success settlement); [| discriminate]. rewrite H, Hs.
  destruct (Js.btoa _) as [encoded|] eqn:B;
    [| unfold Js.btoa in B; rewrite Hn in B; discriminate].
  destruct (atob_btoa _ _ B) as (text & A & C).
  eexists. exists encoded, text. split; [reflexivity |].
  cbn [headers]. split; [| split; [| exact C]].
  - unfold Headers_get, Headers_set.
    rewrite lookup_insert_ne by (vm_compute; discriminate).
    apply lookup_insert_eq.
  - unfold decodeBase64. now rewrite A.
Qed.

End Base64Facts.

(** ** The further properties at concrete inputs *)

Lemma streamChat_independent_of_read_boundaries_witness :
  Spec.received SseExamples.cut = Spec.received SseExamples.whole
  /\ Providers.streamChat RouteExamples.parseDemo Providers.deepseekErrors
       "sk-deepseek"
       (Providers.UpstreamResponse true 200 "OK" "" (Some SseExamples.cut))
     = Providers.streamChat RouteExamples.parseDemo Providers.deepseekErrors
         "sk-deepseek"
         (Providers.UpstreamResponse true 200 "OK" ""
            (Some SseExamples.whole)).
Proof.
  assert (E : Spec.received SseExamples.cut
              = Spec.received SseExamples.whole) by reflexivity.
  split; [exact E |].
  exact (streamChat_independent_of_read_boundaries RouteExamples.parseDemo
           Providers.deepseekErrors "sk-deepseek" true 200%Z "OK" ""
           SseExamples.cut SseExamples.whole E).
Defined.

Lemma streamChat_unterminated_tail_dropped_witness :
  (Forall Spec.isLine ["data: a"]
   /\ Spec.isLine "data: b"
   /\ Spec.received SseExamples.unfinished
      = Spec.unlines ["data: a"] ++ "data: b")
  /\ Providers.streamChat RouteExamples.parseDemo Providers.deepseekErrors
       "sk-deepseek"
       (Providers.UpstreamResponse true 200 "OK" ""
          (Some SseExamples.unfinished))
     = Providers.streamChat RouteExamples.parseDemo Providers.deepseekErrors
         "sk-deepseek"
         (Providers.UpstreamResponse true 200 "OK" ""
            (Some [Spec.unlines ["data: a"]])).
Proof.
  assert (L : Forall Spec.isLine ["data: a"]) by (repeat constructor).
  assert (T : Spec.isLine "data: b") by reflexivity.
  assert (R : Spec.received SseExamples.unfinished
              = Spec.unlines ["data: a"] ++ "data: b") by reflexivity.
  split; [exact (conj L (conj T R)) |].
  exact (streamChat_unterminated_tail_dropped RouteExamples.parseDemo
           Providers.deepseekErrors "sk-deepseek" true 200%Z "OK" ""
           SseExamples.unfinished ["data: a"] "data: b" L T R).
Defined.

Lemma streamChat_deltas_in_order_witness :
  (Js.truthy "sk-deepseek" = true
   /\ Forall2 (Sse.deltaEvent RouteExamples.parseDemo)
        ["data: a"; "data: b"] ["a"; "b"]
   /\ Spec.received SseExamples.cut = Spec.unlines ["data: a"; "data: b"])
  /\ Providers.streamChat RouteExamples.parseDemo Providers.deepseekErrors
       "sk-deepseek" (Spec.sseBody 200 "OK" SseExamples.cut)
     = ((map Sse.delta ["a"; "b"] ++ [Providers.terminator])%list, None).
Proof.
  assert (K : Js.truthy "sk-deepseek" = true) by reflexivity.
  assert (D : Forall2 (Sse.deltaEvent RouteExamples.parseDemo)
                ["data: a"; "data: b"] ["a"; "b"]).
  { constructor; [| constructor; [| constructor]].
    - exists "a". repeat split; discriminate.
    - exists "b". repeat split; discriminate. }
  assert (R : Spec.received SseExamples.cut
              = Spec.unlines ["data: a"; "data: b"]) by reflexivity.
  split; [exact (conj K (conj D R)) |].
  exact (streamChat_deltas_in_order RouteExamples.parseDemo
           Providers.deepseekErrors "sk-deepseek" 200%Z "OK"
           SseExamples.cut ["data: a"; "data: b"] ["a"; "b"] K D R).
Defined.

Lemma streamChat_skips_silent_line_witness :
  (Forall Spec.isLine ["data: a"]
   /\ Spec.isLine ": keep-alive"
   /\ Sse.silent RouteExamples.parseDemo ": keep-alive"
   /\ Spec.received SseExamples.commented
      = Spec.unlines ["data: a"] ++ ": keep-alive" ++ Js.newline
          ++ "data: b" ++ Js.newline)
  /\ Providers.streamChat RouteExamples.parseDemo Providers.deepseekErrors
       "sk-deepseek"
       (Providers.UpstreamResponse true 200 "OK" ""
          (Some SseExamples.commented))
     = Providers.streamChat RouteExamples.parseDemo Providers.deepseekErrors
         "sk-deepseek"
         (Providers.UpstreamResponse true 200 "OK" ""
            (Some [Spec.unlines ["data: a"] ++ "data: b" ++ Js.newline])).
Proof.
  assert (L : Forall Spec.isLine ["data: a"]) by (repeat constructor).
  assert (T : Spec.isLine ": keep-alive") by reflexivity.
  assert (S : Sse.silent RouteExamples.parseDemo ": keep-alive")
    by (left; reflexivity).
  assert (R : Spec.received SseExamples.commented
              = Spec.unlines ["data: a"] ++ ": keep-alive" ++ Js.newline
                  ++ "data: b" ++ Js.newline) by reflexivity.
  split; [exact (conj L (conj T (conj S R))) |].
  exact (streamChat_skips_silent_line RouteExamples.parseDemo
           Providers.deepseekErrors "sk-deepseek" true 200%Z "OK" ""
           SseExamples.commented ["data: a"] ": keep-alive"
           ("data: b" ++ Js.newline) L T S R).
Defined.

Lemma undecodable_proof_answered_402_witness :
  (X402.method (Examples.paidPost "deepseek") <> "OPTIONS"
   /\ X402.extractPaymentHeader (X402.req_headers (Examples.paidPost "deepseek")) = Some "e30="
   /\ "e30=" <> ""
   /\ In (X402.requestModel "deepseek" (Examples.paidPost "deepseek"))
         GateSpec.supportedModels
   /\ GateExamples.decodeNothing "e30=" = None)
  /\ match X402.getX402Config ∅ with
     | Ok _ =>
         exists reqs,
           X402.createChatPaymentRequirements ∅
             (X402.requestModel "deepseek" (Examples.paidPost "deepseek"))
             false (default "/api/chat" None) = Ok reqs
           /\ X402.withX402Payment ∅ Examples.clock GateExamples.decodeNothing
                Examples.accepting Examples.okHandler "deepseek" false None
                (Examples.paidPost "deepseek")
              = ([X402.VerifyCall; X402.VerifyReturn X402.verificationFailed],
                 GateRuns.paymentRequired
                   "Payment verification failed: Payment verification failed"
                   reqs)
     | Throw _ =>
         X402.withX402Payment ∅ Examples.clock GateExamples.decodeNothing
           Examples.accepting Examples.okHandler "deepseek" false None
           (Examples.paidPost "deepseek")
         = ([], X402.errorResponse)
     end.
Proof.
  assert (H1 : X402.method (Examples.paidPost "deepseek") <> "OPTIONS") by discriminate.
  assert (H2 : X402.extractPaymentHeader (X402.req_headers (Examples.paidPost "deepseek"))
               = Some "e30=") by (vm_compute; reflexivity).
  assert (H3 : "e30=" <> "") by discriminate.
  assert (H4 : In (X402.requestModel "deepseek" (Examples.paidPost "deepseek"))
                  GateSpec.supportedModels) by (simpl; tauto).
  assert (H5 : GateExamples.decodeNothing "e30=" = None) by reflexivity.
  split; [exact (conj H1 (conj H2 (conj H3 (conj H4 H5)))) |].
  exact (undecodable_proof_answered_402 ∅ Examples.clock GateExamples.decodeNothing
           Examples.accepting Examples.okHandler "deepseek" false None
           (Examples.paidPost "deepseek") "e30=" H1 H2 H3 H4 H5).
Defined.



Lemma settled_request_served_witness :
  (X402.method (Examples.paidPost "deepseek") <> "OPTIONS"
   /\ X402.extractPaymentHeader (X402.req_headers (Examples.paidPost "deepseek")) = Some "e30="
   /\ "e30=" <> ""
   /\ X402.getX402Config ∅ = Ok Examples.devConfig
   /\ X402.createChatPaymentRequirements ∅
        (X402.requestModel "deepseek" (Examples.paidPost "deepseek")) false
        (default "/api/chat" None)
      = Ok GateExamples.deepseekRequirements
   /\ Examples.decodeAny "e30=" = Some Examples.samplePayment
   /\ (GateExamples.verifying GateExamples.settled) (X402.facilitatorUrl Examples.devConfig ++ "/verify")
        Examples.samplePayment GateExamples.deepseekRequirements
      = X402.HttpResponse 200 (Some GateExamples.verified)
   /\ X402.response_ok 200 = true
   /\ X402.f_isValid GateExamples.verified = Some true
   /\ (GateExamples.verifying GateExamples.settled) (X402.facilitatorUrl Examples.devConfig ++ "/settle")
        Examples.samplePayment GateExamples.deepseekRequirements
      = X402.HttpResponse 200 (Some GateExamples.settled)
   /\ X402.f_success GateExamples.settled = Some true
   /\ GateExamples.echoHandler (Examples.paidPost "deepseek")
        {| X402.settlementResult :=
               Some (GateRuns.settlementOf GateExamples.settled);
             X402.paymentAmount :=
               Some (X402.maxAmountRequired
                       GateExamples.deepseekRequirements) |}
      = Ok GateExamples.echoed)
  /\ X402.withX402Payment ∅ Examples.clock Examples.decodeAny (GateExamples.verifying GateExamples.settled)
       GateExamples.echoHandler "deepseek" false None (Examples.paidPost "deepseek")
     = ([X402.VerifyCall;
         X402.EvFetch (X402.facilitatorUrl Examples.devConfig ++ "/verify")
           (X402.HttpResponse 200 (Some GateExamples.verified));
         X402.VerifyReturn (GateRuns.verificationOf GateExamples.verified);
         X402.SettleCall;
         X402.EvFetch (X402.facilitatorUrl Examples.devConfig ++ "/settle")
           (X402.HttpResponse 200 (Some GateExamples.settled));
         X402.SettleReturn (GateRuns.settlementOf GateExamples.settled);
         X402.HandlerCall],
        match
          X402.addPaymentResponseHeaders Examples.clock Examples.devConfig
            GateExamples.echoed (GateRuns.settlementOf GateExamples.settled)
        with
        | Ok served => served
        | Throw _ => X402.errorResponse
        end)
     /\ (forall transaction,
            X402.truthyText (X402.f_transaction GateExamples.settled)
            = Some transaction ->
            Js.narrow (Js.escapeUnits transaction)
            && Js.narrow
                 (Js.escapeUnits
                    (X402.orText (X402.f_amount GateExamples.settled)
                       (Js.codes "0")))
            = false ->
            snd (X402.withX402Payment ∅ Examples.clock Examples.decodeAny
                   (GateExamples.verifying GateExamples.settled)
                   GateExamples.echoHandler "deepseek" false None
                   (Examples.paidPost "deepseek"))
            = X402.errorResponse).
Proof.
  assert (H1 : X402.method (Examples.paidPost "deepseek") <> "OPTIONS") by discriminate.
  assert (H2 : X402.extractPaymentHeader (X402.req_headers (Examples.paidPost "deepseek"))
               = Some "e30=") by (vm_compute; reflexivity).
  assert (H3 : "e30=" <> "") by discriminate.
  assert (H4 : X402.getX402Config ∅ = Ok Examples.devConfig)
    by (vm_compute; reflexivity).
  assert (H5 : X402.createChatPaymentRequirements ∅
                 (X402.requestModel "deepseek" (Examples.paidPost "deepseek")) false
                 (default "/api/chat" None)
               = Ok GateExamples.deepseekRequirements)
    by (vm_compute; reflexivity).
  assert (H6 : Examples.decodeAny "e30=" = Some Examples.samplePayment)
    by reflexivity.
  assert (H7 : (GateExamples.verifying GateExamples.settled) (X402.facilitatorUrl Examples.devConfig ++ "/verify")
                 Examples.samplePayment GateExamples.deepseekRequirements
               = X402.HttpResponse 200 (Some GateExamples.verified))
    by (vm_compute; reflexivity).
  assert (H8 : X402.response_ok 200 = true) by reflexivity.
  assert (H9 : X402.f_isValid GateExamples.verified = Some true)
    by reflexivity.
  assert (H10 : (GateExamples.verifying GateExamples.settled) (X402.facilitatorUrl Examples.devConfig ++ "/settle")
                  Examples.samplePayment GateExamples.deepseekRequirements
                = X402.HttpResponse 200 (Some GateExamples.settled))
    by (vm_compute; reflexivity).
  assert (H11 : X402.f_success GateExamples.settled = Some true)
    by reflexivity.
  assert (H12 : GateExamples.echoHandler (Examples.paidPost "deepseek")
                  {| X402.settlementResult :=
               Some (GateRuns.settlementOf GateExamples.settled);
             X402.paymentAmount :=
               Some (X402.maxAmountRequired
                       GateExamples.deepseekRequirements) |}
                = Ok GateExamples.echoed) by reflexivity.
  split; [exact (conj H1 (conj H2 (conj H3 (conj H4 (conj H5
                   (conj H6 (conj H7 (conj H8 (conj H9
                      (conj H10 (conj H11 H12))))))))))) |].
  exact (settled_request_served ∅ Examples.clock Examples.decodeAny
           (GateExamples.verifying GateExamples.settled) GateExamples.echoHandler "deepseek" false None
           (Examples.paidPost "deepseek") Examples.devConfig
           GateExamples.deepseekRequirements "e30=" H1 H2 H3 H4 H5
           Examples.samplePayment H6 200%Z GateExamples.verified H7 H8 H9
           200%Z GateExamples.settled H10 H8 H11 GateExamples.echoed H12).
Defined.

Lemma handler_failure_after_settlement_answered_500_witness :
  (X402.method (Examples.paidPost "deepseek") <> "OPTIONS"
   /\ X402.extractPaymentHeader (X402.req_headers (Examples.paidPost "deepseek")) = Some "e30="
   /\ "e30=" <> ""
   /\ X402.getX402Config ∅ = Ok Examples.devConfig
   /\ X402.createChatPaymentRequirements ∅
        (X402.requestModel "deepseek" (Examples.paidPost "deepseek")) false
        (default "/api/chat" None)
      = Ok GateExamples.deepseekRequirements
   /\ Examples.decodeAny "e30=" = Some Examples.samplePayment
   /\ (GateExamples.verifying GateExamples.settled) (X402.facilitatorUrl Examples.devConfig ++ "/verify")
        Examples.samplePayment GateExamples.deepseekRequirements
      = X402.HttpResponse 200 (Some GateExamples.verified)
   /\ X402.response_ok 200 = true
   /\ X402.f_isValid GateExamples.verified = Some true
   /\ (GateExamples.verifying GateExamples.settled) (X402.facilitatorUrl Examples.devConfig ++ "/settle")
        Examples.samplePayment GateExamples.deepseekRequirements
      = X402.HttpResponse 200 (Some GateExamples.settled)
   /\ X402.f_success GateExamples.settled = Some true
   /\ GateExamples.failingHandler (Examples.paidPost "deepseek")
        {| X402.settlementResult :=
               Some (GateRuns.settlementOf GateExamples.settled);
             X402.paymentAmount :=
               Some (X402.maxAmountRequired
                       GateExamples.deepseekRequirements) |}
      = Throw "provider down")
  /\ X402.withX402Payment ∅ Examples.clock Examples.decodeAny (GateExamples.verifying GateExamples.settled)
       GateExamples.failingHandler "deepseek" false None (Examples.paidPost "deepseek")
     = ([X402.VerifyCall;
         X402.EvFetch (X402.facilitatorUrl Examples.devConfig ++ "/verify")
           (X402.HttpResponse 200 (Some GateExamples.verified));
         X402.VerifyReturn (GateRuns.verificationOf GateExamples.verified);
         X402.SettleCall;
         X402.EvFetch (X402.facilitatorUrl Examples.devConfig ++ "/settle")
           (X402.HttpResponse 200 (Some GateExamples.settled));
         X402.SettleReturn (GateRuns.settlementOf GateExamples.settled);
         X402.HandlerCall],
        X402.errorResponse)
  /\ X402.success (GateRuns.settlementOf GateExamples.settled) = true
  /\ X402.Headers_get "X-PAYMENT-RESPONSE" (X402.headers X402.errorResponse)
     = None.
Proof.
  assert (H1 : X402.method (Examples.paidPost "deepseek") <> "OPTIONS") by discriminate.
  assert (H2 : X402.extractPaymentHeader (X402.req_headers (Examples.paidPost "deepseek"))
               = Some "e30=") by (vm_compute; reflexivity).
  assert (H3 : "e30=" <> "") by discriminate.
  assert (H4 : X402.getX402Config ∅ = Ok Examples.devConfig)
    by (vm_compute; reflexivity).
  assert (H5 : X402.createChatPaymentRequirements ∅
                 (X402.requestModel "deepseek" (Examples.paidPost "deepseek")) false
                 (default "/api/chat" None)
               = Ok GateExamples.deepseekRequirements)
    by (vm_compute; reflexivity).
  assert (H6 : Examples.decodeAny "e30=" = Some Examples.samplePayment)
    by reflexivity.
  assert (H7 : (GateExamples.verifying GateExamples.settled) (X402.facilitatorUrl Examples.devConfig ++ "/verify")
                 Examples.samplePayment GateExamples.deepseekRequirements
               = X402.HttpResponse 200 (Some GateExamples.verified))
    by (vm_compute; reflexivity).
  assert (H8 : X402.response_ok 200 = true) by reflexivity.
  assert (H9 : X402.f_isValid GateExamples.verified = Some true)
    by reflexivity.
  assert (H10 : (GateExamples.verifying GateExamples.settled) (X402.facilitatorUrl Examples.devConfig ++ "/settle")
                  Examples.samplePayment GateExamples.deepseekRequirements
                = X402.HttpResponse 200 (Some GateExamples.settled))
    by (vm_compute; reflexivity).
  assert (H11 : X402.f_success GateExamples.settled = Some true)
    by reflexivity.
  assert (H12 : GateExamples.failingHandler (Examples.paidPost "deepseek")
                  {| X402.settlementResult :=
               Some (GateRuns.settlementOf GateExamples.settled);
             X402.paymentAmount :=
               Some (X402.maxAmountRequired
                       GateExamples.deepseekRequirements) |}
                = Throw "provider down") by reflexivity.
  split; [exact (conj H1 (conj H2 (conj H3 (conj H4 (conj H5
                   (conj H6 (conj H7 (conj H8 (conj H9
                      (conj H10 (conj H11 H12))))))))))) |].
  exact (handler_failure_after_settlement_answered_500 ∅ Examples.clock Examples.decodeAny
           (GateExamples.verifying GateExamples.settled) GateExamples.failingHandler "deepseek" false None
           (Examples.paidPost "deepseek") Examples.devConfig
           GateExamples.deepseekRequirements "e30=" H1 H2 H3 H4 H5
           Examples.samplePayment H6 200%Z GateExamples.verified H7 H8 H9
           200%Z GateExamples.settled H10 H8 H11 "provider down" H12).
Defined.

Lemma empty_proof_is_no_proof_witness :
  X402.extractPaymentHeader (X402.req_headers GateExamples.emptyProof)
  = Some ""
  /\ X402.withX402Payment ∅ Examples.clock Examples.decodeAny
       Examples.accepting Examples.okHandler "deepseek" false None
       GateExamples.emptyProof
     = X402.withX402Payment ∅ Examples.clock Examples.decodeAny
         Examples.accepting Examples.okHandler "deepseek" false None
         (GateRuns.withoutPayment GateExamples.emptyProof)
  /\ fst (X402.withX402Payment ∅ Examples.clock Examples.decodeAny
            Examples.accepting Examples.okHandler "deepseek" false None
            GateExamples.emptyProof) = [].
Proof.
  assert (H : X402.extractPaymentHeader
                (X402.req_headers GateExamples.emptyProof) = Some "")
    by (vm_compute; reflexivity).
  split; [exact H |].
  exact (empty_proof_is_no_proof ∅ Examples.clock Examples.decodeAny
           Examples.accepting Examples.okHandler "deepseek" false None
           GateExamples.emptyProof H).
Defined.

Lemma misconfigured_gate_answers_500_witness :
  (X402.getX402Config Examples.production
   = Throw "TREASURY_WALLET_ADDRESS environment variable is required"
   /\ X402.method (Examples.paidPost "deepseek") <> "OPTIONS")
  /\ X402.withX402Payment Examples.production Examples.clock
       Examples.decodeAny Examples.accepting Examples.okHandler
       "deepseek" false None (Examples.paidPost "deepseek")
     = ([], X402.errorResponse).
Proof.
  assert (H1 : X402.getX402Config Examples.production
               = Throw "TREASURY_WALLET_ADDRESS environment variable is required")
    by (vm_compute; reflexivity).
  assert (H2 : X402.method (Examples.paidPost "deepseek") <> "OPTIONS")
    by discriminate.
  split; [exact (conj H1 H2) |].
  exact (misconfigured_gate_answers_500 Examples.production Examples.clock
           Examples.decodeAny Examples.accepting Examples.okHandler
           "deepseek" false None (Examples.paidPost "deepseek")
           "TREASURY_WALLET_ADDRESS environment variable is required"
           H1 H2).
Defined.

Lemma getX402Config_fields_witness :
  X402.getX402Config ConfigExamples.mainnet = Ok ConfigExamples.mainnetConfig
  /\ X402.usdcMint ConfigExamples.mainnetConfig
     = X402.USDC_MINT_ADDRESSES (X402.c_network ConfigExamples.mainnetConfig)
  /\ X402.treasuryWallet ConfigExamples.mainnetConfig <> ""
  /\ X402.baseUrl ConfigExamples.mainnetConfig <> ""
  /\ X402.facilitatorUrl ConfigExamples.mainnetConfig <> ""
  /\ X402.facilitatorFeePayer ConfigExamples.mainnetConfig <> ""
  /\ (X402.c_network ConfigExamples.mainnetConfig = X402.solana ->
      ConfigExamples.mainnet !! "NEXT_PUBLIC_NETWORK" = Some "solana"
      \/ ConfigExamples.mainnet !! "NEXT_PUBLIC_SOLANA_NETWORK"
         = Some "solana")
  /\ (ConfigExamples.mainnet !! "X402_FACILITATOR_FEE_PAYER" = None ->
      ConfigExamples.mainnet !! "NEXT_PUBLIC_X402_FEE_PAYER" = None ->
      ConfigExamples.mainnet !! "FACILITATOR_FEE_PAYER" = None ->
      X402.facilitatorFeePayer ConfigExamples.mainnetConfig
      = X402.treasuryWallet ConfigExamples.mainnetConfig).
Proof.
  assert (H : X402.getX402Config ConfigExamples.mainnet
              = Ok ConfigExamples.mainnetConfig)
    by (vm_compute; reflexivity).
  split; [exact H |].
  exact (getX402Config_fields ConfigExamples.mainnet
           ConfigExamples.mainnetConfig H).
Defined.

Lemma requirements_follow_configuration_witness :
  (In "deepseek" GateSpec.supportedModels
   /\ X402.getX402Config ∅ = Ok Examples.devConfig)
  /\ exists reqs,
       X402.createChatPaymentRequirements ∅ "deepseek" false "/api/chat"
       = Ok reqs
       /\ X402.scheme reqs = "exact"
       /\ X402.network reqs = X402.c_network Examples.devConfig
       /\ X402.asset reqs = X402.USDC_MINT_ADDRESSES (X402.network reqs)
       /\ X402.payTo reqs = X402.treasuryWallet Examples.devConfig
       /\ X402.resource reqs = X402.baseUrl Examples.devConfig ++ "/api/chat"
       /\ X402.extra_feePayer reqs
          = Some (X402.facilitatorFeePayer Examples.devConfig)
       /\ X402.maxTimeoutSeconds reqs = 300%Z
       /\ X402.getModelPrice ∅ "deepseek" false
          = Ok (X402.maxAmountRequired reqs)
       /\ GateSpec.isDecimal (X402.maxAmountRequired reqs) = true.
Proof.
  assert (H1 : In "deepseek" GateSpec.supportedModels) by (simpl; tauto).
  assert (H2 : X402.getX402Config ∅ = Ok Examples.devConfig)
    by (vm_compute; reflexivity).
  split; [exact (conj H1 H2) |].
  exact (requirements_follow_configuration ∅ "deepseek" false "/api/chat"
           Examples.devConfig H1 H2).
Defined.

Lemma default_gate_price_is_provider_cost_witness :
  (forall k, In k GateSpec.priceKeys -> (∅ : gmap string string) !! k = None)
  /\ exists p,
       X402.getModelPrice ∅ (Route.modelName Providers.claude_sonnet_4_5)
         false = Ok p
       /\ (inject_Z (Z.of_N (GateSpec.decimalValue p))
           == Providers.AI_MODEL_PRICING Providers.claude_sonnet_4_5
              * 1000000)%Q.
Proof.
  assert (H : forall k, In k GateSpec.priceKeys ->
                        (∅ : gmap string string) !! k = None)
    by (intros k _; apply lookup_empty).
  split; [exact H |].
  exact (default_gate_price_is_provider_cost ∅ Providers.claude_sonnet_4_5 H).
Defined.

Lemma chat_reply_costs_flat_price_witness :
  Providers.AIProvider_chat RouteExamples.helloBackends AdapterExamples.hello
  = Ok (Providers.completionResponse Providers.deepseek
          RouteExamples.helloData)
  /\ Providers.r_model
       (Providers.completionResponse Providers.deepseek
          RouteExamples.helloData)
     = Providers.model AdapterExamples.hello
  /\ Providers.cost
       (Providers.completionResponse Providers.deepseek
          RouteExamples.helloData)
     = Providers.AI_MODEL_PRICING (Providers.model AdapterExamples.hello)
  /\ Adapters.backendKey RouteExamples.helloBackends
       (Providers.model AdapterExamples.hello) <> "".
Proof.
  assert (H : Providers.AIProvider_chat RouteExamples.helloBackends
                AdapterExamples.hello
              = Ok (Providers.completionResponse Providers.deepseek
                      RouteExamples.helloData)) by reflexivity.
  split; [exact H |].
  exact (chat_reply_costs_flat_price RouteExamples.helloBackends
           AdapterExamples.hello
           (Providers.completionResponse Providers.deepseek
              RouteExamples.helloData) H).
Defined.

Lemma receipt_header_decodes_witness :
  (GateSpec.receiptTransaction ConfigExamples.receipt
   = Some (Js.codes "abc123")
   /\ Js.narrow (Js.escapeUnits (Js.codes "abc123"))
      && Js.narrow
           (Js.escapeUnits
              (X402.orText (X402.amount ConfigExamples.receipt)
                 (Js.codes "0")))
      = true
   /\ X402.statusInRange (X402.status Examples.emptyResponse) = true)
  /\ exists served header text,
       X402.addPaymentResponseHeaders Examples.clock Examples.devConfig
         Examples.emptyResponse ConfigExamples.receipt
       = Ok served
       /\ X402.Headers_get "X-PAYMENT-RESPONSE" (X402.headers served)
          = Some header
       /\ X402.decodeBase64 header = Ok text
       /\ Js.codes text
          = Js.stringifyUnits
              (X402.paymentResponse Examples.clock Examples.devConfig
                 (Js.codes "abc123") (X402.amount ConfigExamples.receipt)).
Proof.
  assert (H : GateSpec.receiptTransaction ConfigExamples.receipt
              = Some (Js.codes "abc123")) by reflexivity.
  assert (N : Js.narrow (Js.escapeUnits (Js.codes "abc123"))
              && Js.narrow
                   (Js.escapeUnits
                      (X402.orText (X402.amount ConfigExamples.receipt)
                         (Js.codes "0")))
              = true) by (vm_compute; reflexivity).
  assert (S : X402.statusInRange (X402.status Examples.emptyResponse) = true)
    by reflexivity.
  split; [exact (conj H (conj N S)) |].
  exact (receipt_header_decodes Examples.clock Examples.devConfig
           Examples.emptyResponse ConfigExamples.receipt
           (Js.codes "abc123") H N S).
Defined.

Lemma chat_of_another_user_answered_404_witness :
  (RouteFacts.admitted (RouteRuns.continuing "c9") Providers.deepseek
   /\ RouteExamples.getOrCreateUser
        (Route.orEmpty (Route.walletAddress (RouteRuns.continuing "c9")))
      = Ok {| Route.id := "u1" |}
   /\ Route.orEmpty (Route.chatId (RouteRuns.continuing "c9")) <> ""
   /\ RouteFacts.notOwned
        (RouteRuns.foreignChat (Route.orEmpty (Route.chatId (RouteRuns.continuing "c9"))))
        (Route.id {| Route.id := "u1" |}))
  /\ Route.handleChatRequest RouteExamples.getOrCreateUser RouteRuns.foreignChat
       RouteExamples.getChatMessages RouteExamples.getChatMessageCount
       RouteExamples.extractPdfText
       (Providers.AIProvider_chat RouteExamples.helloBackends)
       RouteExamples.createChat RouteExamples.addMessage RouteExamples.keepText
       (Some (RouteRuns.continuing "c9"))
     = Route.errorResponse 404 "Chat not found for this wallet.".
Proof.
  assert (A : RouteFacts.admitted (RouteRuns.continuing "c9") Providers.deepseek).
  { split; [discriminate |]. split; [reflexivity |].
    left. vm_compute. discriminate. }
  assert (U : RouteExamples.getOrCreateUser
                (Route.orEmpty (Route.walletAddress (RouteRuns.continuing "c9")))
              = Ok {| Route.id := "u1" |}) by reflexivity.
  assert (C : Route.orEmpty (Route.chatId (RouteRuns.continuing "c9")) <> "")
    by discriminate.
  assert (N : RouteFacts.notOwned
                (RouteRuns.foreignChat
                   (Route.orEmpty (Route.chatId (RouteRuns.continuing "c9"))))
                (Route.id {| Route.id := "u1" |})) by discriminate.
  split; [exact (conj A (conj U (conj C N))) |].
  exact (chat_of_another_user_answered_404
           RouteExamples.getOrCreateUser RouteRuns.foreignChat
           RouteExamples.getChatMessages RouteExamples.getChatMessageCount
           RouteExamples.extractPdfText
           RouteExamples.createChat RouteExamples.addMessage RouteExamples.keepText
           (Providers.AIProvider_chat RouteExamples.helloBackends)
           (RouteRuns.continuing "c9") Providers.deepseek
           {| Route.id := "u1" |} A U C N).
Defined.

Lemma full_chat_answered_400_witness :
  (RouteFacts.admitted (RouteRuns.continuing "c9") Providers.deepseek
   /\ RouteExamples.getOrCreateUser
        (Route.orEmpty (Route.walletAddress (RouteRuns.continuing "c9")))
      = Ok {| Route.id := "u1" |}
   /\ Route.orEmpty (Route.chatId (RouteRuns.continuing "c9")) <> ""
   /\ RouteExamples.getChatById (Route.orEmpty (Route.chatId (RouteRuns.continuing "c9")))
      = Ok (Some {| Route.chat_id := "c9"; Route.user_id := "u1" |})
   /\ Route.user_id {| Route.chat_id := "c9"; Route.user_id := "u1" |}
      = Route.id {| Route.id := "u1" |}
   /\ RouteExamples.getChatMessages
        (Route.orEmpty (Route.chatId (RouteRuns.continuing "c9"))) Route.HISTORY_LIMIT
      = Ok []
   /\ RouteRuns.fullChat (Route.orEmpty (Route.chatId (RouteRuns.continuing "c9")))
      = Ok 80%Q
   /\ (80 <= 80)%Q)
  /\ Route.handleChatRequest RouteExamples.getOrCreateUser RouteExamples.getChatById
       RouteExamples.getChatMessages RouteRuns.fullChat
       RouteExamples.extractPdfText
       (Providers.AIProvider_chat RouteExamples.helloBackends)
       RouteExamples.createChat RouteExamples.addMessage RouteExamples.keepText
       (Some (RouteRuns.continuing "c9"))
     = Route.errorResponse 400
         "Этот чат достиг лимита в 80 сообщений. Пожалуйста, создайте новый чат для продолжения общения.".
Proof.
  assert (A : RouteFacts.admitted (RouteRuns.continuing "c9") Providers.deepseek).
  { split; [discriminate |]. split; [reflexivity |].
    left. vm_compute. discriminate. }
  assert (U : RouteExamples.getOrCreateUser
                (Route.orEmpty (Route.walletAddress (RouteRuns.continuing "c9")))
              = Ok {| Route.id := "u1" |}) by reflexivity.
  assert (C : Route.orEmpty (Route.chatId (RouteRuns.continuing "c9")) <> "")
    by discriminate.
  assert (F : RouteExamples.getChatById
                (Route.orEmpty (Route.chatId (RouteRuns.continuing "c9")))
              = Ok (Some {| Route.chat_id := "c9"; Route.user_id := "u1" |}))
    by reflexivity.
  assert (O : Route.user_id {| Route.chat_id := "c9"; Route.user_id := "u1" |}
              = Route.id {| Route.id := "u1" |}) by reflexivity.
  assert (R : RouteExamples.getChatMessages
                (Route.orEmpty (Route.chatId (RouteRuns.continuing "c9")))
                Route.HISTORY_LIMIT = Ok []) by reflexivity.
  assert (N : RouteRuns.fullChat (Route.orEmpty (Route.chatId (RouteRuns.continuing "c9")))
              = Ok 80%Q) by reflexivity.
  assert (L : (80 <= 80)%Q) by apply Qle_refl.
  split; [exact (conj A (conj U (conj C (conj F (conj O (conj R
                   (conj N L))))))) |].
  exact (full_chat_answered_400
           RouteExamples.getOrCreateUser RouteExamples.getChatById
           RouteExamples.getChatMessages RouteRuns.fullChat
           RouteExamples.extractPdfText
           RouteExamples.createChat RouteExamples.addMessage RouteExamples.keepText
           (Providers.AIProvider_chat RouteExamples.helloBackends)
           (RouteRuns.continuing "c9") Providers.deepseek
           {| Route.id := "u1" |}
           {| Route.chat_id := "c9"; Route.user_id := "u1" |} [] 80%Q
           A U C F O R N L).
Defined.

Lemma provider_failure_answered_500_witness :
  (RouteFacts.admitted (RouteExamples.hiWith []) Providers.deepseek
   /\ RouteExamples.getOrCreateUser
        (Route.orEmpty (Route.walletAddress (RouteExamples.hiWith [])))
      = Ok {| Route.id := "u1" |}
   /\ Route.orEmpty (Route.chatId (RouteExamples.hiWith [])) = ""
   /\ (forall config, RouteRuns.down config = Throw "upstream unavailable"))
  /\ Route.handleChatRequest RouteExamples.getOrCreateUser RouteExamples.getChatById
       RouteExamples.getChatMessages RouteExamples.getChatMessageCount
       RouteExamples.extractPdfText
       RouteRuns.down
       RouteExamples.createChat RouteExamples.addMessage RouteExamples.keepText
       (Some (RouteExamples.hiWith []))
     = {| Route.status := 500;
          Route.body :=
            Route.ErrorBody "Internal server error"
              (Some ("Failed to call " ++ Route.modelName Providers.deepseek
                       ++ ": " ++ "upstream unavailable")) |}.
Proof.
  assert (A : RouteFacts.admitted (RouteExamples.hiWith []) Providers.deepseek).
  { split; [discriminate |]. split; [reflexivity |].
    left. vm_compute. discriminate. }
  assert (U : RouteExamples.getOrCreateUser
                (Route.orEmpty (Route.walletAddress (RouteExamples.hiWith [])))
              = Ok {| Route.id := "u1" |}) by reflexivity.
  assert (C : Route.orEmpty (Route.chatId (RouteExamples.hiWith [])) = "")
    by reflexivity.
  assert (D : forall config,
             RouteRuns.down config = Throw "upstream unavailable")
    by reflexivity.
  split; [exact (conj A (conj U (conj C D))) |].
  exact (provider_failure_answered_500
           RouteExamples.getOrCreateUser RouteExamples.getChatById
           RouteExamples.getChatMessages RouteExamples.getChatMessageCount
           RouteExamples.extractPdfText
           RouteExamples.createChat RouteExamples.addMessage RouteExamples.keepText
           RouteRuns.down (RouteExamples.hiWith []) Providers.deepseek
           {| Route.id := "u1" |} "upstream unavailable" A U C D).
Defined.


Lemma provider_consulted_on_routed_configurations_only_witness :
  (forall config,
      RouteFacts.routed config ->
      Providers.AIProvider_chat RouteExamples.helloBackends config
      = RouteRuns.prompted config)
  /\ Route.handleChatRequest RouteExamples.getOrCreateUser RouteExamples.getChatById
       RouteExamples.getChatMessages RouteExamples.getChatMessageCount
       RouteExamples.extractPdfText
       (Providers.AIProvider_chat RouteExamples.helloBackends)
       RouteExamples.createChat RouteExamples.addMessage RouteExamples.keepText
       (Some (RouteExamples.hiWith []))
     = Route.handleChatRequest RouteExamples.getOrCreateUser RouteExamples.getChatById
       RouteExamples.getChatMessages RouteExamples.getChatMessageCount
       RouteExamples.extractPdfText
       RouteRuns.prompted
       RouteExamples.createChat RouteExamples.addMessage RouteExamples.keepText
       (Some (RouteExamples.hiWith [])).
Proof.
  assert (H : forall config,
             RouteFacts.routed config ->
             Providers.AIProvider_chat RouteExamples.helloBackends config
             = RouteRuns.prompted config).
  { intros config (P & _). unfold RouteRuns.prompted. now rewrite P. }
  split; [exact H |].
  exact (provider_consulted_on_routed_configurations_only
           RouteExamples.getOrCreateUser RouteExamples.getChatById
           RouteExamples.getChatMessages RouteExamples.getChatMessageCount
           RouteExamples.extractPdfText
           RouteExamples.createChat RouteExamples.addMessage RouteExamples.keepText
           (Providers.AIProvider_chat RouteExamples.helloBackends)
           RouteRuns.prompted (Some (RouteExamples.hiWith [])) H).
Defined.
